(** * Order workflow, payment confirmation and login of the e-commerce backend

    A shallow embedding of the request handlers of the repository:

    - [createOrder], [updatePaymentStatus], [getUserOrders],
      [getPaymentIntent] (order controller),
    - [getAllOrders], [updateOrderStatus] (admin order controller),
    - [sendEmail] (utils/emailUtils.js),
    - the [POST /login] and [POST /register] routes (routes/authRoutes.js)
      with the schema of models/User.js,
    - [protect] and [admin] (middleware/auth.js) as mounted in front of
      the admin order routes,
    - the overview, recent-orders and low-stock queries of the dashboard
      routes.

    The document database is a record of finite maps keyed by [_id]; the
    payment gateway, the mail transport, the template table, the password
    hash comparison and the token signer are fields of an environment
    record.  A handler is a function from the world before the request to
    the response and the world after it; the world also keeps a log of the
    [sendEmail] calls.  JavaScript exceptions are an explicit completion
    ([Normal] / [Thrown]) threaded through a small state-and-exception
    monad; [try_catch] is the [try { } catch { }] block.

    Numbers: in the handlers the amounts (prices, costs, quantities, stock)
    are whole numbers ([Z]), on which [Math.round(total * 100)] is
    [total * 100]; the computation of the order total is also given over
    IEEE 754 binary64, the numbers JavaScript computes with, in [Doubles].
    A missing JSON field is [None].  Dates only appear as the creation time
    used for sorting and as the time of a history entry, both read from the
    environment.

    Identifiers: a document is stored under its [_id]; [findById] with an
    id under which nothing is stored answers [null] when the id is a
    well-formed ObjectId (24 hexadecimal digits) and throws a CastError
    otherwise.  Strings are sequences of ASCII characters. *)

From Stdlib Require Import ZArith String Ascii List Lia.
From Stdlib Require Import Floats.PrimFloat Floats.SpecFloat Floats.FloatOps.
From stdpp Require Import gmap strings list fin_maps sorting.

Local Open Scope string_scope.
Local Open Scope list_scope.
Local Open Scope Z_scope.

(** ** JavaScript values that the handlers test for truthiness *)

(** [!x] on an optional number: [undefined], [null] and [0] are falsy. *)
Definition truthy_num (x : option Z) : bool :=
  match x with
  | Some n => negb (n =? 0)
  | None => false
  end.

(** [!x] on an optional string: [undefined] and the empty string are falsy. *)
Definition truthy_str (x : option string) : bool :=
  match x with
  | Some s => negb (String.eqb s "")
  | None => false
  end.

(** [!x] on an optional object: every object is truthy. *)
Definition truthy_obj {A : Type} (x : option A) : bool :=
  match x with
  | Some _ => true
  | None => false
  end.

(** [x || 0] on an optional number. *)
Definition or_zero (x : option Z) : Z :=
  match x with
  | Some n => n
  | None => 0
  end.

(** [x || d] on a string. *)
Definition or_str (x : string) (d : string) : string :=
  if String.eqb x "" then d else x.

(** ** Documents *)

(** An address is an opaque object: the handlers only pass it on. *)
Inductive Address := MkAddress (fields : list (string * string)).

Module Product.
(** Modelled from the spec: the Product schema (models/Product.js is not
    part of the sources).  Section 3 gives name, price, stock count and
    images; the handlers read exactly these fields. *)
Record t := mk {
  name : string;
  price : Z;
  stock : Z;
  images : list string
}.

(** [$inc: { stock: d }] *)
Definition inc_stock (d : Z) (p : t) : t :=
  mk (name p) (price p) (stock p + d) (images p).

(** A catalog edit that only touches the price. *)
Definition set_price (v : Z) (p : t) : t :=
  mk (name p) v (stock p) (images p).
End Product.

(** A line item as the client sends it and as the order embeds it:
    a product reference, a quantity, a unit price and a size. *)
Module Item.
Record t := mk {
  product : string;
  quantity : Z;
  price : Z;
  size : option string
}.
End Item.

Module HistoryEntry.
Record t := mk {
  status : string;
  note : string;
  updatedAt : Z
}.
End HistoryEntry.

Module Order.
(** Modelled from the spec: the Order schema (models/Order.js is not part
    of the sources).  Section 3 gives line items, shipping address, totals,
    paymentStatus, status and status history; the remaining fields are the
    ones the controllers write or read.  [user] is a reference that may be
    absent: createOrder sets none, and the admin controller reads it as
    [order.user?._id || null]. *)
Record t := mk {
  _id : string;
  items : list Item.t;
  shippingAddress : Address;
  totalAmount : Z;
  shippingCost : option Z;
  taxPrice : option Z;
  discountAmount : option Z;
  paymentMethod : option string;
  customerName : string;
  customerEmail : string;
  paymentStatus : string;
  orderStatus : string;
  status : option string;
  statusHistory : list HistoryEntry.t;
  paymentIntentId : option string;
  user : option string;
  createdAt : Z
}.

Definition set_paymentIntentId (v : option string) (o : t) : t :=
  mk (_id o) (items o) (shippingAddress o) (totalAmount o) (shippingCost o)
     (taxPrice o) (discountAmount o) (paymentMethod o) (customerName o)
     (customerEmail o) (paymentStatus o) (orderStatus o) (status o)
     (statusHistory o) v (user o) (createdAt o).

Definition set_paymentStatus (v : string) (o : t) : t :=
  mk (_id o) (items o) (shippingAddress o) (totalAmount o) (shippingCost o)
     (taxPrice o) (discountAmount o) (paymentMethod o) (customerName o)
     (customerEmail o) v (orderStatus o) (status o)
     (statusHistory o) (paymentIntentId o) (user o) (createdAt o).

Definition set_orderStatus (v : string) (o : t) : t :=
  mk (_id o) (items o) (shippingAddress o) (totalAmount o) (shippingCost o)
     (taxPrice o) (discountAmount o) (paymentMethod o) (customerName o)
     (customerEmail o) (paymentStatus o) v (status o)
     (statusHistory o) (paymentIntentId o) (user o) (createdAt o).

Definition set_status (v : option string) (o : t) : t :=
  mk (_id o) (items o) (shippingAddress o) (totalAmount o) (shippingCost o)
     (taxPrice o) (discountAmount o) (paymentMethod o) (customerName o)
     (customerEmail o) (paymentStatus o) (orderStatus o) v
     (statusHistory o) (paymentIntentId o) (user o) (createdAt o).

Definition set_statusHistory (v : list HistoryEntry.t) (o : t) : t :=
  mk (_id o) (items o) (shippingAddress o) (totalAmount o) (shippingCost o)
     (taxPrice o) (discountAmount o) (paymentMethod o) (customerName o)
     (customerEmail o) (paymentStatus o) (orderStatus o) (status o)
     v (paymentIntentId o) (user o) (createdAt o).
End Order.

(** models/User.js, the fields the handlers read. *)
Module User.
Record t := mk {
  _id : string;
  name : string;
  email : string;
  password : string;
  role : string
}.
End User.

(** What [.populate('user', 'name email')] puts in place of a user
    reference: the [_id] and the two selected fields. *)
Module PopulatedUser.
Record t := mk {
  _id : string;
  name : string;
  email : string
}.
End PopulatedUser.

(** ** Responses *)

(** [JDoc] is an order document as [toObject()] gives it after
    [.populate('user', 'name email').populate('items.product')]: the order,
    the populated user and, line by line, the product document that stands
    in place of the reference ([None] is [null]). *)
Inductive jval :=
| JStr (s : string)
| JNum (n : Z)
| JBool (b : bool)
| JNull
| JObj (fields : list (string * option string))
| JDoc (o : Order.t) (user : option PopulatedUser.t)
    (products : list (option Product.t)).

Module Response.
Record t := mk {
  status : nat;
  body : list (string * jval);
  cookies : list (string * string)
}.
End Response.

(** [res.status(c).json({...})] *)
Definition json (c : nat) (fields : list (string * jval)) : Response.t :=
  Response.mk c fields [].

(** A key of the JSON body, [None] when the key is absent. *)
Fixpoint field (k : string) (fields : list (string * jval)) : option jval :=
  match fields with
  | [] => None
  | (k', v) :: rest => if String.eqb k k' then Some v else field k rest
  end.

(** ** Exceptions, mail, the world *)

Module JsError.
Record t := mk {
  message : string;
  stack : string
}.
End JsError.

(** [TypeError: Cannot read properties of undefined (reading 'p')] *)
Definition TypeError (p : string) : JsError.t :=
  JsError.mk ("Cannot read properties of undefined (reading '" +:+ p +:+ "')")
             "TypeError".

(** [TypeError: Cannot read properties of null (reading 'p')] *)
Definition TypeError_null (p : string) : JsError.t :=
  JsError.mk ("Cannot read properties of null (reading '" +:+ p +:+ "')")
             "TypeError".

(** ** Object ids *)

Definition is_hex_digit (c : ascii) : bool :=
  let n := nat_of_ascii c in
  (((48 <=? n) && (n <=? 57)) || ((65 <=? n) && (n <=? 70))
   || ((97 <=? n) && (n <=? 102)))%nat.

(** The strings that cast to an ObjectId: 24 hexadecimal digits. *)
Definition isValidObjectId (id : string) : bool :=
  (String.length id =? 24)%nat && forallb is_hex_digit (list_ascii_of_string id).

Definition quoted (s : string) : string :=
  String "034" (s +:+ String "034" EmptyString).

(** The error a query throws when its id does not cast. *)
Definition CastError (value model : string) : JsError.t :=
  JsError.mk ("Cast to ObjectId failed for value " +:+ quoted value
              +:+ " (type string) at path " +:+ quoted "_id"
              +:+ " for model " +:+ quoted model)
             "CastError".

(** The data handed to an email template. *)
Inductive EmailData :=
| OrderConfirmation (name orderNumber : string) (totalAmount : Z)
    (paymentMethod shippingMethod : string) (subtotal shippingCost tax : Z)
    (shippingAddress : Address) (trackingUrl : string)
| OrderStatusUpdate (name orderNumber statusLabel trackingUrl : string)
    (lines : list (string * Z * Z)) (totalAmount : option Z)
    (shippingAddress : option Address).

(** The arguments of one [sendEmail] call. *)
Module Email.
Record t := mk {
  to : string;
  subject : string;
  template : string;
  data : EmailData
}.
End Email.

(** What [transporter.sendMail] receives. *)
Module Mail.
Record t := mk {
  to : string;
  subject : string;
  html : string
}.
End Mail.

(** The durable state, and the log of the [sendEmail] calls made so far. *)
Record World := mkWorld {
  products : gmap string Product.t;
  orders : gmap string Order.t;
  users : gmap string User.t;
  outbox : list Email.t
}.

Definition set_products (ps : gmap string Product.t) (w : World) : World :=
  mkWorld ps (orders w) (users w) (outbox w).

Definition set_orders (os : gmap string Order.t) (w : World) : World :=
  mkWorld (products w) os (users w) (outbox w).

Definition push_outbox (m : Email.t) (w : World) : World :=
  mkWorld (products w) (orders w) (users w) (outbox w ++ [m]).

(** ** The monad of an [async] function body *)

Inductive Completion (A : Type) :=
| Normal (a : A)
| Thrown (e : JsError.t).
Arguments Normal {A} a.
Arguments Thrown {A} e.

Definition M (A : Type) : Type := World -> Completion A * World.

Definition ret {A : Type} (a : A) : M A := fun w => (Normal a, w).

Definition throw {A : Type} (e : JsError.t) : M A := fun w => (Thrown e, w).

Definition bind {A B : Type} (m : M A) (k : A -> M B) : M B :=
  fun w =>
    match m w with
    | (Normal a, w') => k a w'
    | (Thrown e, w') => (Thrown e, w')
    end.

(** [try { m } catch (error) { h error }]: the writes made by [m] before it
    threw stay in the world. *)
Definition try_catch {A : Type} (m : M A) (h : JsError.t -> M A) : M A :=
  fun w =>
    match m w with
    | (Normal a, w') => (Normal a, w')
    | (Thrown e, w') => h e w'
    end.

Definition gets {A : Type} (f : World -> A) : M A := fun w => (Normal (f w), w).

Definition modify (f : World -> World) : M unit := fun w => (Normal tt, f w).

(** Lift the result of an external call. *)
Definition await {A : Type} (c : Completion A) : M A := fun w => (c, w).

Notation "'let*' x ':=' m 'in' k" := (bind m (fun x => k))
  (at level 10, x name, m at level 100, k at level 200).
Notation "m ';;' k" := (bind m (fun _ => k))
  (at level 100, k at level 200, right associativity).

(** ** External collaborators *)

Module PaymentIntent.
Record t := mk {
  id : string;
  client_secret : string;
  status : string
}.
End PaymentIntent.

(** The process environment and the services the handlers call.  A call
    either completes or throws. *)
Record Env := mkEnv {
  development : bool;
  FRONTEND_URL : string;
  newObjectId : string;
  now : Z;
  paymentIntents_create : Z -> string -> Completion PaymentIntent.t;
  paymentIntents_retrieve : string -> Completion PaymentIntent.t;
  emailTemplates : string -> option (EmailData -> string);
  sendMail : Mail.t -> Completion unit;
  bcrypt_compare : string -> string -> Completion bool;
  jwt_sign : string -> string -> string
}.

(** ** Collection operations *)

(** [order.save()] *)
Definition save (o : Order.t) : M unit :=
  modify (fun w => set_orders (<[Order._id o := o]> (orders w)) w).

(** [Order.findByIdAndDelete(id)] *)
Definition findByIdAndDelete (id : string) : M unit :=
  modify (fun w => set_orders (delete id (orders w)) w).

(** [Model.findById(id)] on a collection: the stored document, [null] for
    a well-formed id under which nothing is stored, a CastError for any
    other string. *)
Definition findById {A : Type} (model : string) (docs : gmap string A)
    (id : string) : Completion (option A) :=
  match docs !! id with
  | Some doc => Normal (Some doc)
  | None => if isValidObjectId id then Normal None else Thrown (CastError id model)
  end.

(** [Order.findById(id)] *)
Definition findOrderById (id : string) : M (option Order.t) :=
  fun w => (findById "Order" (orders w) id, w).

(** [Product.findByIdAndUpdate(id, { $inc: { stock: d } })]: a missing id
    updates nothing. *)
Definition findByIdAndUpdate_inc_stock (id : string) (d : Z)
    (ps : gmap string Product.t) : gmap string Product.t :=
  alter (Product.inc_stock d) id ps.

(** [s.slice(-6)] *)
Definition slice_last6 (s : string) : string :=
  String.substring (String.length s - 6)%nat 6 s.

(** ** utils/emailUtils.js *)

(** [sendEmail(to, subject, template, data)].  The controllers require it
    from '../utils/sendEmail'; the sources have it in utils/emailUtils.js,
    with the signature the controllers call.  The template table
    (utils/emailTemplates) and the transport are fields of the environment.
    The first line is the log of the call; the rest is the function: a
    missing template or a transport failure is logged and thrown again. *)
Definition sendEmail (env : Env) (to subject template : string)
    (data : EmailData) : M unit :=
  modify (push_outbox (Email.mk to subject template data)) ;;
  try_catch
    (match emailTemplates env template with
     | None =>
         throw (JsError.mk ("Email template '" +:+ template +:+ "' not found")
                           "Error")
     | Some templateFn =>
         let html := templateFn data in
         await (sendMail env (Mail.mk to subject html))
     end)
    (fun error => throw error).

(** ** Order controller: createOrder *)

Module CreateOrderBody.
Record t := mk {
  items : option (list Item.t);
  shippingAddress : option Address;
  totalAmount : option Z;
  customerName : option string;
  customerEmail : option string;
  paymentMethod : option string;
  shippingCost : option Z;
  taxPrice : option Z;
  discountAmount : option Z
}.

Definition set_totalAmount (v : option Z) (b : t) : t :=
  mk (items b) (shippingAddress b) v (customerName b) (customerEmail b)
     (paymentMethod b) (shippingCost b) (taxPrice b) (discountAmount b).
End CreateOrderBody.

Definition is_nil {A : Type} (l : list A) : bool :=
  match l with
  | [] => true
  | _ => false
  end.

(** The basic validation: [!items || items.length === 0 || !shippingAddress
    || !totalAmount || !customerName || !customerEmail]. *)
Definition missing_details (b : CreateOrderBody.t) : bool :=
  negb (truthy_obj (CreateOrderBody.items b))
  || is_nil (default [] (CreateOrderBody.items b))
  || negb (truthy_obj (CreateOrderBody.shippingAddress b))
  || negb (truthy_num (CreateOrderBody.totalAmount b))
  || negb (truthy_str (CreateOrderBody.customerName b))
  || negb (truthy_str (CreateOrderBody.customerEmail b)).

(** The first loop: each item's product is fetched with
    [Product.findById], which throws on an id that does not cast; the loop
    returns early with a 400 on the first item that does not resolve or
    exceeds the stock, and otherwise accumulates
    [product.price * item.quantity]. *)
Fixpoint validate_items (ps : gmap string Product.t) (items : list Item.t)
    (total : Z) : Completion (Response.t + Z) :=
  match items with
  | [] => Normal (inr total)
  | item :: rest =>
      match findById "Product" ps (Item.product item) with
      | Thrown error => Thrown error
      | Normal None =>
          Normal
            (inl (json 400
                    [("message",
                      JStr ("Product not found: " +:+ Item.product item))]))
      | Normal (Some product) =>
          if Product.stock product <? Item.quantity item
          then Normal
                 (inl (json 400
                         [("message",
                           JStr ("Insufficient stock for "
                                 +:+ Product.name product))]))
          else validate_items ps rest
                 (total + Product.price product * Item.quantity item)
      end
  end.

(** The second loop: [$inc: { stock: -item.quantity }] per item. *)
Fixpoint update_stock (items : list Item.t) (ps : gmap string Product.t)
    : gmap string Product.t :=
  match items with
  | [] => ps
  | item :: rest =>
      update_stock rest
        (findByIdAndUpdate_inc_stock (Item.product item) (- Item.quantity item) ps)
  end.

(** The data object of the confirmation mail; [shippingCost.toFixed(2)] and
    [taxPrice.toFixed(2)] throw on [undefined]. *)
Definition confirmation_data (env : Env) (order_id name : string) (total : Z)
    (label : string) (shippingCost taxPrice : option Z) (addr : Address)
    : M EmailData :=
  match shippingCost with
  | None => throw (TypeError "toFixed")
  | Some sc =>
      match taxPrice with
      | None => throw (TypeError "toFixed")
      | Some tp =>
          ret (OrderConfirmation name (slice_last6 order_id) total label
                 "Standard Shipping" (total - sc - tp) sc tp addr
                 (FRONTEND_URL env +:+ "/order/" +:+ order_id))
      end
  end.

Definition is_card (pm : option string) : bool :=
  match pm with
  | Some s => String.eqb s "card"
  | None => false
  end.

(** The body of the outer [try]. *)
Definition createOrder_try (env : Env) (b : CreateOrderBody.t) : M Response.t :=
  if missing_details b
  then ret (json 400 [("message", JStr "Missing required order details.")])
  else
    let items := default [] (CreateOrderBody.items b) in
    let shippingAddress :=
      default (MkAddress []) (CreateOrderBody.shippingAddress b) in
    let customerName := default "" (CreateOrderBody.customerName b) in
    let customerEmail := default "" (CreateOrderBody.customerEmail b) in
    let shippingCost := CreateOrderBody.shippingCost b in
    let taxPrice := CreateOrderBody.taxPrice b in
    let discountAmount := CreateOrderBody.discountAmount b in
    let paymentMethod := CreateOrderBody.paymentMethod b in
    let* ps := gets products in
    let* checked := await (validate_items ps items 0) in
    match checked with
    | inl early => ret early
    | inr total =>
        let total := total + or_zero shippingCost in
        let total := total + or_zero taxPrice in
        let total := total - or_zero discountAmount in
        let order :=
          Order.mk (newObjectId env) items shippingAddress total shippingCost
            taxPrice discountAmount paymentMethod customerName customerEmail
            "pending" "processing" None [] None None (now env) in
        save order ;;
        modify (fun w => set_products (update_stock items (products w)) w) ;;
        if is_card paymentMethod
        then
          try_catch
            (let* paymentIntent :=
               await (paymentIntents_create env (total * 100) (Order._id order)) in
             let order :=
               Order.set_paymentIntentId
                 (Some (PaymentIntent.id paymentIntent)) order in
             save order ;;
             let* data :=
               confirmation_data env (Order._id order) customerName total
                 "Credit Card" shippingCost taxPrice shippingAddress in
             sendEmail env customerEmail "Order Confirmation"
               "orderConfirmation" data ;;
             ret (json 201
                    [("clientSecret",
                      JStr (PaymentIntent.client_secret paymentIntent));
                     ("orderId", JStr (Order._id order))]))
            (fun error =>
               findByIdAndDelete (Order._id order) ;;
               throw error)
        else
          let* data :=
            confirmation_data env (Order._id order) customerName total
              "Cash on Delivery" shippingCost taxPrice shippingAddress in
          sendEmail env customerEmail "Order Confirmation"
            "orderConfirmation" data ;;
          ret (json 201
                 [("message", JStr "Order created successfully");
                  ("orderId", JStr (Order._id order))])
    end.

(** What a handler leaves behind: the response and the world. *)
Definition Outcome : Type := Response.t * World.

(** The outer [catch] of createOrder. *)
Definition createOrder_catch (env : Env) (error : JsError.t) : Response.t :=
  json 500
    (("message", JStr (or_str (JsError.message error) "Failed to create order."))
     :: (if development env then [("error", JStr (JsError.stack error))] else [])).

Definition createOrder (env : Env) (b : CreateOrderBody.t) (w : World) : Outcome :=
  match createOrder_try env b w with
  | (Normal res, w') => (res, w')
  | (Thrown error, w') => (createOrder_catch env error, w')
  end.

(** ** createOrder up to [order.save()], over binary64 *)

(** JavaScript numbers are IEEE 754 binary64 values, and [+], [-], [*] and
    [<] are the operations of that format.  This module gives lines 10-63
    of createOrder (the basic validation, the validation loop, the total
    and the document handed to [order.save()]) on such numbers: prices,
    stock, quantities and costs are [float]s, with cents, infinities, NaN
    and signed zeros. *)
Module Doubles.

Module Product.
(** Modelled from the spec: the fields of the Product schema that the loop
    reads (models/Product.js is not part of the sources). *)
Record t := mk {
  name : string;
  price : float;
  stock : float
}.
End Product.

(** A line item of the request: the product reference, the quantity and
    the unit price the client sent. *)
Module Item.
Record t := mk {
  product : string;
  quantity : float;
  price : float
}.
End Item.

Module Body.
Record t := mk {
  items : option (list Item.t);
  shippingAddress : option Address;
  totalAmount : option float;
  customerName : option string;
  customerEmail : option string;
  paymentMethod : option string;
  shippingCost : option float;
  taxPrice : option float;
  discountAmount : option float
}.

Definition set_totalAmount (v : option float) (b : t) : t :=
  mk (items b) (shippingAddress b) v (customerName b) (customerEmail b)
     (paymentMethod b) (shippingCost b) (taxPrice b) (discountAmount b).
End Body.

(** The argument of [new Order({...})]. *)
Module Document.
Record t := mk {
  items : list Item.t;
  shippingAddress : Address;
  totalAmount : float;
  shippingCost : option float;
  taxPrice : option float;
  discountAmount : option float;
  paymentMethod : option string;
  customerName : string;
  customerEmail : string;
  paymentStatus : string;
  orderStatus : string
}.
End Document.

(** The numbers that are falsy: [0], [-0] and [NaN]. *)
Definition falsy (x : float) : bool :=
  PrimFloat.eqb x 0%float || PrimFloat.is_nan x.

(** [!x] on an optional number. *)
Definition truthy_num (x : option float) : bool :=
  match x with
  | Some n => negb (falsy n)
  | None => false
  end.

(** [x || 0] on an optional number. *)
Definition or_zero (x : option float) : float :=
  match x with
  | Some n => if falsy n then 0%float else n
  | None => 0%float
  end.

Definition missing_details (b : Body.t) : bool :=
  negb (truthy_obj (Body.items b))
  || is_nil (default [] (Body.items b))
  || negb (truthy_obj (Body.shippingAddress b))
  || negb (truthy_num (Body.totalAmount b))
  || negb (truthy_str (Body.customerName b))
  || negb (truthy_str (Body.customerEmail b)).

(** The first loop. *)
Fixpoint validate_items (ps : gmap string Product.t) (items : list Item.t)
    (total : float) : Completion (Response.t + float) :=
  match items with
  | [] => Normal (inr total)
  | item :: rest =>
      match findById "Product" ps (Item.product item) with
      | Thrown error => Thrown error
      | Normal None =>
          Normal
            (inl (json 400
                    [("message",
                      JStr ("Product not found: " +:+ Item.product item))]))
      | Normal (Some product) =>
          if PrimFloat.ltb (Product.stock product) (Item.quantity item)
          then Normal
                 (inl (json 400
                         [("message",
                           JStr ("Insufficient stock for "
                                 +:+ Product.name product))]))
          else validate_items ps rest
                 (PrimFloat.add total
                    (PrimFloat.mul (Product.price product) (Item.quantity item)))
      end
  end.

(** Lines 10-63: the early answer, or the document that [order.save()]
    writes. *)
Definition createOrder_save (ps : gmap string Product.t) (b : Body.t)
    : Completion (Response.t + Document.t) :=
  if missing_details b
  then Normal (inl (json 400 [("message", JStr "Missing required order details.")]))
  else
    let items := default [] (Body.items b) in
    match validate_items ps items 0%float with
    | Thrown error => Thrown error
    | Normal (inl early) => Normal (inl early)
    | Normal (inr total) =>
        let total := PrimFloat.add total (or_zero (Body.shippingCost b)) in
        let total := PrimFloat.add total (or_zero (Body.taxPrice b)) in
        let total := PrimFloat.sub total (or_zero (Body.discountAmount b)) in
        Normal
          (inr (Document.mk items
                  (default (MkAddress []) (Body.shippingAddress b))
                  total (Body.shippingCost b) (Body.taxPrice b)
                  (Body.discountAmount b) (Body.paymentMethod b)
                  (default "" (Body.customerName b))
                  (default "" (Body.customerEmail b))
                  "pending" "processing"))
    end.

End Doubles.

(** ** Order controller: updatePaymentStatus *)

Module PaymentStatusBody.
Record t := mk {
  orderId : string;
  paymentIntentId : string;
  status : string
}.

Definition set_status (v : string) (b : t) : t :=
  mk (orderId b) (paymentIntentId b) v.
End PaymentStatusBody.

(** The fields [.populate('user', 'name email')] selects. *)
Definition select_name_email (u : User.t) : PopulatedUser.t :=
  PopulatedUser.mk (User._id u) (User.name u) (User.email u).

(** [.populate('user', 'name email')]: the selected fields of the
    referenced user document, or nothing when the order has no user or the
    reference dangles. *)
Definition populate_user (w : World) (o : Order.t) : option PopulatedUser.t :=
  match Order.user o with
  | Some uid => select_name_email <$> users w !! uid
  | None => None
  end.

(** The body of the [try].  Reading [order.user.email] throws when the
    order has no user ([undefined]) and when the reference dangles (the
    populated value is [null]). *)
Definition updatePaymentStatus_try (env : Env) (b : PaymentStatusBody.t)
    : M Response.t :=
  let* found := findOrderById (PaymentStatusBody.orderId b) in
  match found with
  | None => ret (json 404 [("message", JStr "Order not found.")])
  | Some order =>
      let* user := gets (fun w => populate_user w order) in
      let* paymentIntent :=
        await (paymentIntents_retrieve env (PaymentStatusBody.paymentIntentId b)) in
      if String.eqb (PaymentIntent.status paymentIntent) "succeeded"
      then
        let order :=
          Order.set_orderStatus "processing"
            (Order.set_paymentStatus "paid" order) in
        save order ;;
        match user with
        | None =>
            throw (match Order.user order with
                   | None => TypeError "email"
                   | Some _ => TypeError_null "email"
                   end)
        | Some u =>
            sendEmail env (PopulatedUser.email u) "Order Status Update"
              "orderStatusUpdate"
              (OrderStatusUpdate (PopulatedUser.name u)
                 (slice_last6 (Order._id order))
                 "Processing"
                 (FRONTEND_URL env +:+ "/order/" +:+ Order._id order)
                 [] None None) ;;
            ret (json 200 [("message", JStr "Payment status updated to paid.")])
        end
      else if String.eqb (PaymentIntent.status paymentIntent) "payment_failed"
      then
        let order := Order.set_paymentStatus "failed" order in
        save order ;;
        ret (json 400 [("message", JStr "Payment failed.")])
      else
        ret (json 400
               [("message", JStr "Payment intent status is not succeeded.")])
  end.

Definition updatePaymentStatus (env : Env) (b : PaymentStatusBody.t) (w : World)
    : Outcome :=
  match updatePaymentStatus_try env b w with
  | (Normal res, w') => (res, w')
  | (Thrown error, w') =>
      (json 500
         [("message",
           JStr (or_str (JsError.message error) "Failed to update payment status."))],
       w')
  end.

(** ** Admin order controller: updateOrderStatus *)

Definition upper (c : ascii) : ascii :=
  let n := nat_of_ascii c in
  if ((97 <=? n) && (n <=? 122))%nat then ascii_of_nat (n - 32) else c.

Definition lower (c : ascii) : ascii :=
  let n := nat_of_ascii c in
  if ((65 <=? n) && (n <=? 90))%nat then ascii_of_nat (n + 32) else c.

(** [s.charAt(0).toUpperCase() + s.slice(1)] *)
Definition capitalize (s : string) : string :=
  match s with
  | EmptyString => EmptyString
  | String c rest => String (upper c) rest
  end.

(** [s.toLowerCase()] *)
Fixpoint toLowerCase (s : string) : string :=
  match s with
  | EmptyString => EmptyString
  | String c rest => String (lower c) (toLowerCase rest)
  end.

Module StatusBody.
Record t := mk {
  status : string;
  note : option string
}.
End StatusBody.

(** [order.items.map(item => ({ name: item.product.name, quantity, price }))]
    over the populated items; a product that no longer exists is [null] and
    reading its name throws. *)
Fixpoint status_lines (ps : gmap string Product.t) (items : list Item.t)
    : Completion (list (string * Z * Z)) :=
  match items with
  | [] => Normal []
  | item :: rest =>
      match ps !! Item.product item with
      | None => Thrown (TypeError_null "name")
      | Some product =>
          match status_lines ps rest with
          | Normal lines =>
              Normal ((Product.name product, Item.quantity item, Item.price item)
                      :: lines)
          | Thrown e => Thrown e
          end
      end
  end.

(** [.populate('items.product')]: each item with the product document its
    reference resolves to, or nothing when the product is gone. *)
Definition populate_items (ps : gmap string Product.t) (items : list Item.t)
    : list (Item.t * option Product.t) :=
  map (fun item => (item, ps !! Item.product item)) items.

Definition updateOrderStatus_try (env : Env) (orderId : string)
    (b : StatusBody.t) : M Response.t :=
  let status := StatusBody.status b in
  let* found := findOrderById orderId in
  match found with
  | None => ret (json 404 [("message", JStr "Order not found")])
  | Some order =>
      let* user := gets (fun w => populate_user w order) in
      let* populated :=
        gets (fun w => populate_items (products w) (Order.items order)) in
      let entry :=
        HistoryEntry.mk status
          (if truthy_str (StatusBody.note b)
           then default "" (StatusBody.note b)
           else "Status updated to " +:+ status)
          (now env) in
      let order :=
        Order.set_statusHistory (Order.statusHistory order ++ [entry])
          (Order.set_status (Some status) order) in
      save order ;;
      try_catch
        (let* ps := gets products in
         let* lines := await (status_lines ps (Order.items order)) in
         sendEmail env (Order.customerEmail order) "Order Status Update"
           "orderStatusUpdate"
           (OrderStatusUpdate (Order.customerName order)
              (slice_last6 (Order._id order)) (capitalize status)
              (FRONTEND_URL env +:+ "/order/" +:+ Order._id order)
              lines (Some (Order.totalAmount order))
              (Some (Order.shippingAddress order))))
        (fun emailError => ret tt) ;;
      ret (json 200
             [("message", JStr "Order status updated successfully");
              ("order", JDoc order user populated.*2)])
  end.

Definition updateOrderStatus (env : Env) (orderId : string) (b : StatusBody.t)
    (w : World) : Outcome :=
  match updateOrderStatus_try env orderId b w with
  | (Normal res, w') => (res, w')
  | (Thrown error, w') =>
      (json 500
         [("message",
           JStr (or_str (JsError.message error) "Failed to update order status"))],
       w')
  end.

(** ** Admin order controller: getAllOrders *)

Module ItemView.
Record t := mk {
  product_id : string;
  product_name : string;
  price : Z;
  image : option string;
  quantity : Z;
  size : option string;
  total : Z
}.
End ItemView.

(** The transformed order of the admin listing.  The pass-through fields
    of the schema that no other handler touches (shippingPrice, isPaid,
    paidAt, isDelivered, deliveredAt, updatedAt) are left out. *)
Module OrderView.
Record t := mk {
  _id : string;
  orderNumber : string;
  customer_name : string;
  customer_email : string;
  customer_userId : option string;
  items : list ItemView.t;
  shippingAddress : Address;
  paymentMethod : option string;
  paymentStatus : string;
  status : option string;
  statusHistory : list HistoryEntry.t;
  totalAmount : Z;
  taxPrice : option Z;
  createdAt : Z
}.
End OrderView.

(** The order of [.sort({ createdAt: -1 })]. *)
Definition newer_first (a b : Order.t) : Prop :=
  Order.createdAt b <= Order.createdAt a.

#[local] Instance newer_first_dec (a b : Order.t) : Decision (newer_first a b) :=
  Z.le_dec (Order.createdAt b) (Order.createdAt a).

(** [Order.find({}).sort({ createdAt: -1 })] *)
Definition find_orders_newest_first (w : World) : list Order.t :=
  merge_sort newer_first ((map_to_list (orders w)).*2).

(** [images[0] || null]: the first image, unless it is missing or the
    empty string. *)
Definition first_image (images : list string) : option string :=
  match images with
  | [] => None
  | image :: _ => if String.eqb image "" then None else Some image
  end.

(** One line of the listing: name and image come from the populated
    product, price and total from the item itself.  A product that no
    longer exists is [null] after populate, and reading its [_id] throws. *)
Definition transform_item (ps : gmap string Product.t) (item : Item.t)
    : Completion ItemView.t :=
  match ps !! Item.product item with
  | None => Thrown (TypeError_null "_id")
  | Some product =>
      Normal (ItemView.mk (Item.product item) (Product.name product)
                (Item.price item) (first_image (Product.images product))
                (Item.quantity item) (Item.size item)
                (Item.price item * Item.quantity item))
  end.

Fixpoint transform_items (ps : gmap string Product.t) (items : list Item.t)
    : Completion (list ItemView.t) :=
  match items with
  | [] => Normal []
  | item :: rest =>
      match transform_item ps item with
      | Thrown e => Thrown e
      | Normal v =>
          match transform_items ps rest with
          | Thrown e => Thrown e
          | Normal vs => Normal (v :: vs)
          end
      end
  end.

Definition transform_order (w : World) (order : Order.t)
    : Completion OrderView.t :=
  match transform_items (products w) (Order.items order) with
  | Thrown e => Thrown e
  | Normal views =>
      Normal (OrderView.mk (Order._id order) (slice_last6 (Order._id order))
                (Order.customerName order) (Order.customerEmail order)
                (PopulatedUser._id <$> populate_user w order)
                views (Order.shippingAddress order) (Order.paymentMethod order)
                (Order.paymentStatus order) (Order.status order)
                (Order.statusHistory order) (Order.totalAmount order)
                (Order.taxPrice order) (Order.createdAt order))
  end.

Fixpoint transform_orders (w : World) (os : list Order.t)
    : Completion (list OrderView.t) :=
  match os with
  | [] => Normal []
  | order :: rest =>
      match transform_order w order with
      | Thrown e => Thrown e
      | Normal v =>
          match transform_orders w rest with
          | Thrown e => Thrown e
          | Normal vs => Normal (v :: vs)
          end
      end
  end.

Inductive OrdersResponse :=
| OrdersJson (views : list OrderView.t)
| OrdersError (status : nat) (message : string).

Definition getAllOrders (w : World) : OrdersResponse :=
  match transform_orders w (find_orders_newest_first w) with
  | Normal views => OrdersJson views
  | Thrown error =>
      OrdersError 500 (or_str (JsError.message error) "Failed to fetch orders")
  end.

(** ** routes/authRoutes.js: POST /login *)

Module LoginBody.
Record t := mk {
  email : option string;
  password : option string
}.
End LoginBody.

(** The class [\s], on the ASCII range: TAB, LF, VT, FF, CR and SPACE. *)
Definition is_space (c : ascii) : bool :=
  let n := nat_of_ascii c in
  (((9 <=? n) && (n <=? 13)) || (n =? 32))%nat.

(** The class [[^\s@]]. *)
Definition plain (c : ascii) : bool :=
  negb (is_space c) && negb (Ascii.eqb c "@").

(** [[^\s@]+\.[^\s@]+$] on what follows the [@]: every character is plain
    and some dot has a character before it and a character after it.
    [seen] tells whether a character was read already. *)
Fixpoint domain_ok (seen : bool) (s : string) : bool :=
  match s with
  | EmptyString => false
  | String c rest =>
      plain c &&
      ((seen && Ascii.eqb c "." && negb (String.eqb rest "")
        && forallb plain (list_ascii_of_string rest))
       || domain_ok true rest)
  end.

(** [^[^\s@]+@] followed by the domain; [seen] tells whether the local part
    is non-empty so far. *)
Fixpoint local_ok (seen : bool) (s : string) : bool :=
  match s with
  | EmptyString => false
  | String c rest =>
      if Ascii.eqb c "@" then seen && domain_ok false rest
      else negb (is_space c) && local_ok true rest
  end.

(** [/^[^\s@]+@[^\s@]+\.[^\s@]+$/.test(s)] *)
Definition emailRegex_test (s : string) : bool := local_ok false s.

(** [User.findOne({ email })] *)
Definition findOne_by_email (w : World) (e : string) : option User.t :=
  List.find (fun u => String.eqb (User.email u) e) ((map_to_list (users w)).*2).

Definition login_try (env : Env) (body : option LoginBody.t) : M Response.t :=
  match body with
  | None =>
      ret (json 400 [("message", JStr "Request body is required");
                     ("error", JStr "NO_BODY")])
  | Some b =>
      let email := LoginBody.email b in
      let password := LoginBody.password b in
      if negb (truthy_str email) || negb (truthy_str password)
      then
        ret (json 400
               [("message", JStr "Email and password are required");
                ("error", JStr "MISSING_FIELDS");
                ("details",
                 JObj [("email",
                        if truthy_str email then None
                        else Some "Email is required");
                       ("password",
                        if truthy_str password then None
                        else Some "Password is required")])])
      else
        let email := default "" email in
        let password := default "" password in
        if negb (emailRegex_test email)
        then
          ret (json 400 [("message", JStr "Invalid email format");
                         ("error", JStr "INVALID_EMAIL")])
        else
          let* found := gets (fun w => findOne_by_email w (toLowerCase email)) in
          match found with
          | None =>
              ret (json 400 [("message", JStr "Invalid email or password");
                             ("error", JStr "USER_NOT_FOUND")])
          | Some user =>
              let* isMatch :=
                await (bcrypt_compare env password (User.password user)) in
              if negb isMatch
              then
                ret (json 400 [("message", JStr "Invalid email or password");
                               ("error", JStr "INVALID_PASSWORD")])
              else
                let token := jwt_sign env (User._id user) (User.role user) in
                ret (Response.mk 200
                       [("success", JBool true);
                        ("token", JStr token);
                        ("user",
                         JObj [("id", Some (User._id user));
                               ("name", Some (User.name user));
                               ("email", Some (User.email user));
                               ("role", Some (User.role user))]);
                        ("redirectUrl",
                         JStr (if String.eqb (User.role user) "admin"
                               then "/admin/dashboard" else "/"))]
                       [("token", token)])
          end
  end.

Definition login (env : Env) (body : option LoginBody.t) (w : World) : Outcome :=
  match login_try env body w with
  | (Normal res, w') => (res, w')
  | (Thrown error, w') =>
      (json 500
         (("message", JStr "Server error")
          :: (if development env
              then [("error", JStr (JsError.message error));
                    ("stack", JStr (JsError.stack error))]
              else [])),
       w')
  end.

(** ** Order controller: getUserOrders and getPaymentIntent *)

(** [Order.find({ user: userId }).populate('items.product')] *)
Definition getUserOrders (userId : string) (w : World)
    : list (Order.t * list (Item.t * option Product.t)) :=
  map (fun o => (o, populate_items (products w) (Order.items o)))
    (List.filter (fun o => bool_decide (Order.user o = Some userId))
       ((map_to_list (orders w)).*2)).

(** The body of the [try] of getPaymentIntent; [caller] is [req.user._id].
    [order.user.toString()] throws on an order without a user. *)
Definition getPaymentIntent_try (env : Env) (orderId caller : string)
    : M Response.t :=
  let* found := findOrderById orderId in
  match found with
  | None => ret (json 404 [("message", JStr "Order not found")])
  | Some order =>
      match Order.user order with
      | None => throw (TypeError "toString")
      | Some owner =>
          if negb (String.eqb owner caller)
          then ret (json 403
                      [("message", JStr "Not authorized to access this order")])
          else if String.eqb (Order.paymentStatus order) "completed"
          then ret (json 400
                      [("message",
                        JStr "Payment already completed for this order")])
          else
            let* paymentIntent :=
              await (paymentIntents_create env (Order.totalAmount order * 100)
                       (Order._id order)) in
            ret (json 200
                   [("clientSecret",
                     JStr (PaymentIntent.client_secret paymentIntent))])
      end
  end.

Definition getPaymentIntent (env : Env) (orderId caller : string) (w : World)
    : Outcome :=
  match getPaymentIntent_try env orderId caller w with
  | (Normal res, w') => (res, w')
  | (Thrown error, w') =>
      (json 500 [("message", JStr "Error creating payment intent")], w')
  end.

(** ** middleware/auth.js *)

(** What a token carries. *)
Module JwtPayload.
Record t := mk {
  userId : option string;
  role : option string
}.
End JwtPayload.

(** The token library, the password hashing and the id generator of the
    auth routes. *)
Record AuthEnv := mkAuthEnv {
  jwt_verify : string -> Completion JwtPayload.t;
  jwt_sign_payload : JwtPayload.t -> string;
  bcrypt_hash : string -> Completion string;
  newUserId : string
}.

(** [s.slice(n)] *)
Fixpoint drop_chars (n : nat) (s : string) : string :=
  match n, s with
  | O, _ => s
  | S _, EmptyString => EmptyString
  | S n', String _ rest => drop_chars n' rest
  end.

(** [s.replace(pat, repl)] with a string pattern: the first occurrence
    only. *)
Fixpoint replace_first (pat repl s : string) : string :=
  if String.prefix pat s
  then repl +:+ drop_chars (String.length pat) s
  else match s with
       | EmptyString => EmptyString
       | String c rest => String c (replace_first pat repl rest)
       end.

(** [.select('-password')] *)
Definition without_password (u : User.t) : User.t :=
  User.mk (User._id u) (User.name u) (User.email u) "" (User.role u).

(** A middleware either calls [next()] or answers itself. *)
Inductive Passed :=
| Next (user : User.t)
| Answered (res : Response.t).

(** [protect]: the argument is [req.header('Authorization')]; on [Next]
    the user is what the middleware stores in [req.user].  Every exception
    of the [try] is answered 401. *)
Definition protect (aenv : AuthEnv) (authorization : option string) (w : World)
    : Passed :=
  let token := replace_first "Bearer " "" <$> authorization in
  if negb (truthy_str token)
  then Answered (json 401 [("message", JStr "No token, authorization denied")])
  else
    match jwt_verify aenv (default "" token) with
    | Thrown _ => Answered (json 401 [("message", JStr "Token is not valid")])
    | Normal decoded =>
        match JwtPayload.userId decoded with
        | None => Answered (json 401 [("message", JStr "User not found")])
        | Some uid =>
            match findById "User" (users w) uid with
            | Thrown _ =>
                Answered (json 401 [("message", JStr "Token is not valid")])
            | Normal None =>
                Answered (json 401 [("message", JStr "User not found")])
            | Normal (Some user) => Next (without_password user)
            end
        end
    end.

(** [admin]: the argument is [req.user]; [None] is [next()]. *)
Definition admin (user : option User.t) : option Response.t :=
  match user with
  | None => Some (json 401 [("message", JStr "Authentication required")])
  | Some u =>
      if negb (String.eqb (User.role u) "admin")
      then Some (json 403 [("message", JStr "Admin access required")])
      else None
  end.

(** [router.use(protect); router.use(admin);] in front of the admin order
    routes: the handler runs when both call [next()]. *)
Definition admin_route {A : Type} (aenv : AuthEnv) (authorization : option string)
    (w : World) (handler : User.t -> A) : Response.t + A :=
  match protect aenv authorization w with
  | Answered res => inl res
  | Next user =>
      match admin (Some user) with
      | Some res => inl res
      | None => inr (handler user)
      end
  end.

(** ** routes/authRoutes.js: POST /register, with models/User.js *)

Module RegisterBody.
Record t := mk {
  name : option string;
  email : option string;
  password : option string
}.
End RegisterBody.

(** [s.trim()], on the ASCII range. *)
Fixpoint trim_start (s : string) : string :=
  match s with
  | EmptyString => EmptyString
  | String c rest => if is_space c then trim_start rest else s
  end.

Fixpoint trim_end (s : string) : string :=
  match s with
  | EmptyString => EmptyString
  | String c rest =>
      match trim_end rest with
      | EmptyString => if is_space c then EmptyString else String c EmptyString
      | kept => String c kept
      end
  end.

Definition trim (s : string) : string := trim_end (trim_start s).

(** How [User.create] ends: the stored document, a duplicate-key error
    (code 11000) on one index, or any other error. *)
Inductive CreateResult :=
| Created (u : User.t)
| DuplicateKey (index : string)
| OtherError (e : JsError.t).

(** [User.create({ name, email, password, googleId: undefined })] with the
    schema of models/User.js: the setters ([trim], [lowercase]), the
    validators (name and email required, password required without a
    googleId and of length 6 at least), the pre-save hook that replaces the
    password by its hash, the unique indexes on [_id] and [email], and the
    default role. *)
Definition User_create (aenv : AuthEnv) (name email password : string) (w : World)
    : CreateResult * World :=
  let name := trim name in
  let email := trim (toLowerCase email) in
  if String.eqb name "" || String.eqb email "" || String.eqb password ""
     || (String.length password <? 6)%nat
  then (OtherError (JsError.mk "User validation failed" "ValidationError"), w)
  else
    match bcrypt_hash aenv password with
    | Thrown e => (OtherError e, w)
    | Normal hash =>
        match users w !! newUserId aenv with
        | Some _ => (DuplicateKey "_id", w)
        | None =>
            match findOne_by_email w email with
            | Some _ => (DuplicateKey "email", w)
            | None =>
                let user := User.mk (newUserId aenv) name email hash "user" in
                (Created user,
                 mkWorld (products w) (orders w)
                   (<[newUserId aenv := user]> (users w)) (outbox w))
            end
        end
    end.

(** The route.  A missing body makes the destructuring throw, which the
    [catch] answers 500 like any error that is not a duplicate key on
    [email] or [googleId]. *)
Definition register (aenv : AuthEnv) (body : option RegisterBody.t) (w : World)
    : Outcome :=
  match body with
  | None => (json 500 [("error", JStr "Server error")], w)
  | Some b =>
      let name := RegisterBody.name b in
      let email := RegisterBody.email b in
      let password := RegisterBody.password b in
      if negb (truthy_str name) || negb (truthy_str email)
         || negb (truthy_str password)
      then (json 400 [("error", JStr "All fields are required")], w)
      else
        let name := default "" name in
        let email := default "" email in
        let password := default "" password in
        if negb (emailRegex_test email)
        then (json 400 [("error", JStr "Invalid email format")], w)
        else
          match findOne_by_email w (toLowerCase email) with
          | Some _ =>
              (json 400 [("error", JStr "A user with this email already exists");
                         ("code", JStr "EMAIL_EXISTS")], w)
          | None =>
              match User_create aenv name (toLowerCase email) password w with
              | (Created user, w') =>
                  let token :=
                    jwt_sign_payload aenv
                      (JwtPayload.mk (Some (User._id user)) None) in
                  (Response.mk 201
                     [("_id", JStr (User._id user));
                      ("name", JStr (User.name user));
                      ("email", JStr (User.email user));
                      ("role", JStr (User.role user));
                      ("token", JStr token)]
                     [("token", token)],
                   w')
              | (DuplicateKey index, w') =>
                  if String.eqb index "email"
                  then (json 400
                          [("error", JStr "A user with this email already exists");
                           ("code", JStr "EMAIL_EXISTS")], w')
                  else if String.eqb index "googleId"
                  then (json 400
                          [("error",
                            JStr "An error occurred during registration. Please try again.");
                           ("code", JStr "REGISTRATION_ERROR")], w')
                  else (json 500 [("error", JStr "Server error")], w')
              | (OtherError _, w') =>
                  (json 500 [("error", JStr "Server error")], w')
              end
          end
  end.

(** ** Dashboard routes *)

(** The order of [.sort({ stock: 1 })]. *)
Definition lower_stock_first (a b : string * Product.t) : Prop :=
  Product.stock a.2 <= Product.stock b.2.

#[local] Instance lower_stock_first_dec (a b : string * Product.t)
  : Decision (lower_stock_first a b) :=
  Z.le_dec (Product.stock a.2) (Product.stock b.2).

(** [Product.find({ stock: { $lt: 10 } }).sort({ stock: 1 }).limit(5)] *)
Definition low_stock_products (w : World) : list (string * Product.t) :=
  take 5
    (merge_sort lower_stock_first
       (List.filter (fun kv => Product.stock kv.2 <? 10)
          (map_to_list (products w)))).

(** [Order.find().sort({ createdAt: -1 }).limit(5).populate('user', 'name email')] *)
Definition recent_orders (w : World)
    : list (Order.t * option PopulatedUser.t) :=
  map (fun o => (o, populate_user w o)) (take 5 (find_orders_newest_first w)).


(** ** A small shop, used to run the handlers on concrete requests *)

Module Shop.
Definition render (d : EmailData) : string :=
  match d with
  | OrderConfirmation name _ _ _ _ _ _ _ _ _ => "Thank you, " +:+ name
  | OrderStatusUpdate name _ label _ _ _ _ => name +:+ ": " +:+ label
  end.

Definition templates (t : string) : option (EmailData -> string) :=
  if String.eqb t "orderConfirmation" || String.eqb t "orderStatusUpdate"
  then Some render else None.

Definition smtp_down : JsError.t := JsError.mk "connect ECONNREFUSED" "Error".
Definition card_declined : JsError.t := JsError.mk "Your card was declined." "StripeCardError".

(** Every collaborator answers. *)
Definition env : Env :=
  mkEnv false "https://shop.example" "665f1c2ab3d4e5f6a7b8c9d0" 1700
    (fun _ _ => Normal (PaymentIntent.mk "pi_1" "pi_1_secret" "requires_payment_method"))
    (fun id => Normal (PaymentIntent.mk id "pi_1_secret" "succeeded"))
    templates
    (fun _ => Normal tt)
    (fun plain hash => Normal (String.eqb ("hash:" +:+ plain) hash))
    (fun uid role => "jwt:" +:+ uid +:+ ":" +:+ role).

(** The mail transport refuses every message. *)
Definition env_smtp_down : Env :=
  mkEnv false "https://shop.example" "665f1c2ab3d4e5f6a7b8c9d0" 1700
    (paymentIntents_create env) (paymentIntents_retrieve env) templates
    (fun _ => Thrown smtp_down) (bcrypt_compare env) (jwt_sign env).

(** The gateway refuses to create a payment intent. *)
Definition env_gateway_down : Env :=
  mkEnv false "https://shop.example" "665f1c2ab3d4e5f6a7b8c9d0" 1700
    (fun _ _ => Thrown card_declined) (paymentIntents_retrieve env) templates
    (sendMail env) (bcrypt_compare env) (jwt_sign env).

Definition shirt : Product.t := Product.mk "Shirt" 1999 5 ["shirt.png"].
Definition hat : Product.t := Product.mk "Hat" 500 0 [].

Definition ann : User.t :=
  User.mk "665f1c2ab3d4e5f6a7b8c0e1" "Ann" "ann@example.com" "hash:hunter2" "user".

Definition home : Address := MkAddress [("city", "Lahore")].

(** An earlier order of Ann's, waiting for its payment. *)
Definition earlier : Order.t :=
  Order.mk "665f1c2ab3d4e5f6a7b8c001" [Item.mk "665f1c2ab3d4e5f6a7b8c0a1" 1 1999 None] home 2299
    (Some 200) (Some 100) None (Some "card") "Ann" "ann@example.com"
    "pending" "processing" None [] (Some "pi_0") (Some "665f1c2ab3d4e5f6a7b8c0e1") 1600.

Definition world : World :=
  mkWorld (<["665f1c2ab3d4e5f6a7b8c0a1" := shirt]> (<["665f1c2ab3d4e5f6a7b8c0b2" := hat]> ∅))
    (<["665f1c2ab3d4e5f6a7b8c001" := earlier]> ∅)
    (<["665f1c2ab3d4e5f6a7b8c0e1" := ann]> ∅) [].

Definition cart (items : list Item.t) (method : string) : CreateOrderBody.t :=
  CreateOrderBody.mk (Some items) (Some home) (Some 1) (Some "Ann")
    (Some "ann@example.com") (Some method) (Some 200) (Some 100) (Some 50).

Definition two_shirts : list Item.t := [Item.mk "665f1c2ab3d4e5f6a7b8c0a1" 2 1 None].

Definition confirm_payment : PaymentStatusBody.t :=
  PaymentStatusBody.mk "665f1c2ab3d4e5f6a7b8c001" "pi_0" "failed".
End Shop.

(** ** The shop's accounts, used to run the auth routes *)

Module Desk.
(** A token is the user id behind a fixed prefix; anything else does not
    verify. *)
Definition verify (token : string) : Completion JwtPayload.t :=
  if String.prefix "jwt:" token
  then Normal (JwtPayload.mk (Some (drop_chars 4 token)) None)
  else Thrown (JsError.mk "jwt malformed" "JsonWebTokenError").

Definition sign (p : JwtPayload.t) : string :=
  "jwt:" +:+ default "" (JwtPayload.userId p).

Definition aenv : AuthEnv :=
  mkAuthEnv verify sign (fun plain => Normal ("hash:" +:+ plain)) "665f1c2ab3d4e5f6a7b8c0e3".

Definition root : User.t :=
  User.mk "665f1c2ab3d4e5f6a7b8c0e2" "Root" "root@example.com" "hash:sesame" "admin".

(** The shop with an administrator and Ann as the owner of [Shop.earlier]. *)
Definition world : World :=
  mkWorld (products Shop.world) (orders Shop.world)
    (<["665f1c2ab3d4e5f6a7b8c0e2" := root]> (users Shop.world)) [].

Definition bob : RegisterBody.t :=
  RegisterBody.mk (Some " Bob ") (Some "Bob@Example.com") (Some "opensesame").

(** The shop's environment with a login signer whose tokens [verify] reads. *)
Definition env : Env :=
  mkEnv false "https://shop.example" "665f1c2ab3d4e5f6a7b8c9d0" 1700
    (paymentIntents_create Shop.env) (paymentIntents_retrieve Shop.env)
    Shop.templates (sendMail Shop.env) (bcrypt_compare Shop.env)
    (fun uid _ => "jwt:" +:+ uid).
End Desk.

(** ** The shop's till: the catalog and requests with binary64 amounts *)

Module Till.
Definition shirt_id : string := "665f1c2ab3d4e5f6a7b8c0a1".

(** The shirt at 1999, five in stock, as in [Shop.world]. *)
Definition catalog : gmap string Doubles.Product.t :=
  <[shirt_id := Doubles.Product.mk "Shirt" 1999%float 5%float]> ∅.

(** The shirt at 19.99. *)
Definition catalog_cents : gmap string Doubles.Product.t :=
  <[shirt_id := Doubles.Product.mk "Shirt" 0x1.3fd70a3d70a3dp+4%float 5%float]> ∅.

(** The shirt at 2^53. *)
Definition catalog_large : gmap string Doubles.Product.t :=
  <[shirt_id := Doubles.Product.mk "Shirt" 9007199254740992%float 5%float]> ∅.

(** A request for [quantity] shirts; the client states a unit price of 1
    and a total of 1. *)
Definition request (quantity : float) (shippingCost taxPrice discountAmount : option float)
    : Doubles.Body.t :=
  Doubles.Body.mk (Some [Doubles.Item.mk shirt_id quantity 1%float])
    (Some Shop.home) (Some 1%float) (Some "Ann") (Some "ann@example.com")
    (Some "cod") shippingCost taxPrice discountAmount.
End Till.

(** * Properties *)

(** ** The words of the specification *)

(** A valid cart: every item's product id resolves and every requested
    quantity is within the product's current stock. *)
Definition valid_item (ps : gmap string Product.t) (item : Item.t) : Prop :=
  exists product,
    ps !! Item.product item = Some product
    /\ Item.quantity item <= Product.stock product.

Definition valid_cart (ps : gmap string Product.t) (items : list Item.t) : Prop :=
  Forall (valid_item ps) items.

(** The price the server fetches for an item. *)
Definition server_price (ps : gmap string Product.t) (item : Item.t) : Z :=
  match ps !! Item.product item with
  | Some product => Product.price product
  | None => 0
  end.

(** The sum over items of server price times quantity. *)
Definition cart_total (ps : gmap string Product.t) (items : list Item.t) : Z :=
  foldr Z.add 0 (map (fun item => server_price ps item * Item.quantity item) items).

(** A line whose product [Product.findById] can look up without
    throwing: the id names a stored product or is a well-formed ObjectId. *)
Definition castable (ps : gmap string Product.t) (item : Item.t) : Prop :=
  is_Some (ps !! Item.product item)
  \/ isValidObjectId (Item.product item) = true.

(** *** The order total over binary64 *)

(** A valid line: the product id resolves and the requested quantity does
    not exceed the product's current stock. *)
Definition valid_line (ps : gmap string Doubles.Product.t)
    (item : Doubles.Item.t) : Prop :=
  exists product,
    ps !! Doubles.Item.product item = Some product
    /\ PrimFloat.ltb (Doubles.Product.stock product) (Doubles.Item.quantity item)
       = false.

Definition valid_lines (ps : gmap string Doubles.Product.t)
    (items : list Doubles.Item.t) : Prop :=
  Forall (valid_line ps) items.

(** Server-fetched price times quantity. *)
Definition line_total (ps : gmap string Doubles.Product.t)
    (item : Doubles.Item.t) : float :=
  match ps !! Doubles.Item.product item with
  | Some product =>
      PrimFloat.mul (Doubles.Product.price product) (Doubles.Item.quantity item)
  | None => 0%float
  end.

(** The sum over the lines, added up from zero in the order of the cart,
    each addition rounded to binary64. *)
Definition sum_of_lines (ps : gmap string Doubles.Product.t)
    (items : list Doubles.Item.t) : float :=
  fold_left (fun sum item => PrimFloat.add sum (line_total ps item)) items 0%float.

(** What a cost of the request adds: its value, and nothing when the
    field is absent, zero or not a number. *)
Definition charged (cost : option float) : float :=
  match cost with
  | None => 0%float
  | Some n =>
      if PrimFloat.is_nan n then 0%float
      else if PrimFloat.eqb n 0%float then 0%float
      else n
  end.

(** The integer that a binary64 number is, when it is one. *)
Definition whole (x : float) : option Z :=
  match Prim2SF x with
  | S754_zero _ => Some 0
  | S754_finite negative m e =>
      let v := if negative then Z.neg m else Z.pos m in
      if 0 <=? e then Some (v * 2 ^ e)
      else if v mod 2 ^ (- e) =? 0 then Some (v / 2 ^ (- e))
      else None
  | _ => None
  end.

(** Sum of the lines, plus shipping, plus tax, minus discount, each step
    rounded to binary64. *)
Definition total_due (ps : gmap string Doubles.Product.t)
    (items : list Doubles.Item.t) (shippingCost taxPrice discountAmount : option float)
    : float :=
  PrimFloat.sub
    (PrimFloat.add (PrimFloat.add (sum_of_lines ps items) (charged shippingCost))
       (charged taxPrice))
    (charged discountAmount).

(** The quantity of product [pid] purchased by a cart. *)
Definition purchased (pid : string) (items : list Item.t) : Z :=
  foldr Z.add 0
    (map (fun item =>
            if decide (Item.product item = pid) then Item.quantity item else 0)
         items).

(** The out-of-stock and product-not-found rejections. *)
Definition OutOfStock (product : Product.t) : Response.t :=
  json 400 [("message", JStr ("Insufficient stock for " +:+ Product.name product))].

Definition ProductNotFound (pid : string) : Response.t :=
  json 400 [("message", JStr ("Product not found: " +:+ pid))].

(** Documents are stored under their own [_id]. *)
Definition keyed_by_id (os : gmap string Order.t) : Prop :=
  forall k o, os !! k = Some o -> Order._id o = k.

(** ** What the handlers build and write *)

(** The order document built by [new Order({...})]. *)
Definition new_order (env : Env) (b : CreateOrderBody.t) (total : Z) : Order.t :=
  Order.mk (newObjectId env) (default [] (CreateOrderBody.items b))
    (default (MkAddress []) (CreateOrderBody.shippingAddress b))
    (total + or_zero (CreateOrderBody.shippingCost b)
     + or_zero (CreateOrderBody.taxPrice b)
     - or_zero (CreateOrderBody.discountAmount b))
    (CreateOrderBody.shippingCost b) (CreateOrderBody.taxPrice b)
    (CreateOrderBody.discountAmount b) (CreateOrderBody.paymentMethod b)
    (default "" (CreateOrderBody.customerName b))
    (default "" (CreateOrderBody.customerEmail b))
    "pending" "processing" None [] None None (now env).

(** The confirmation mail of createOrder. *)
Definition confirmation_mail (env : Env) (b : CreateOrderBody.t) (total : Z)
    (label : string) (sc tp : Z) : Email.t :=
  let o := new_order env b total in
  Email.mk (Order.customerEmail o) "Order Confirmation" "orderConfirmation"
    (OrderConfirmation (Order.customerName o) (slice_last6 (Order._id o))
       (Order.totalAmount o) label "Standard Shipping"
       (Order.totalAmount o - sc - tp) sc tp (Order.shippingAddress o)
       (FRONTEND_URL env +:+ "/order/" +:+ Order._id o)).

(** What the succeeded branch writes. *)
Definition mark_paid (o : Order.t) : Order.t :=
  Order.set_orderStatus "processing" (Order.set_paymentStatus "paid" o).

(** The mail of the succeeded branch. *)
Definition paid_mail (env : Env) (o : Order.t) (u : PopulatedUser.t) : Email.t :=
  Email.mk (PopulatedUser.email u) "Order Status Update" "orderStatusUpdate"
    (OrderStatusUpdate (PopulatedUser.name u) (slice_last6 (Order._id o))
       "Processing"
       (FRONTEND_URL env +:+ "/order/" +:+ Order._id o) [] None None).

(** What the admin status update writes. *)
Definition status_entry (env : Env) (b : StatusBody.t) : HistoryEntry.t :=
  HistoryEntry.mk (StatusBody.status b)
    (if truthy_str (StatusBody.note b)
     then default "" (StatusBody.note b)
     else "Status updated to " +:+ StatusBody.status b)
    (now env).

Definition with_status (env : Env) (b : StatusBody.t) (o : Order.t) : Order.t :=
  Order.set_statusHistory (Order.statusHistory o ++ [status_entry env b])
    (Order.set_status (Some (StatusBody.status b)) o).

(** The body of a login request carrying both fields. *)
Definition credentials (email password : string) : option LoginBody.t :=
  Some (LoginBody.mk (Some email) (Some password)).

(** Modelled from the spec: a later change to catalog prices (the product
    routes are not part of the sources).  [price_change ps ps'] says that
    [ps'] holds the products of [ps], each with the name, the stock and the
    images it had, at any price. *)
Definition same_but_price (p p' : Product.t) : Prop :=
  Product.name p' = Product.name p
  /\ Product.stock p' = Product.stock p
  /\ Product.images p' = Product.images p.

Definition price_change (ps ps' : gmap string Product.t) : Prop :=
  forall k,
    match ps !! k, ps' !! k with
    | Some p, Some p' => same_but_price p p'
    | None, None => True
    | _, _ => False
    end.

(** One such change: a new price for product [pid]. *)
Definition set_catalog_price (pid : string) (v : Z) (w : World) : World :=
  set_products (alter (Product.set_price v) pid (products w)) w.

(** The lines of a cart with other unit prices: line [item] at [f item]. *)
Definition reprice (f : Item.t -> Z) (items : list Item.t) : list Item.t :=
  map (fun item =>
         Item.mk (Item.product item) (Item.quantity item) (f item) (Item.size item))
      items.

(** The request with other lines. *)
Definition with_items (items : list Item.t) (b : CreateOrderBody.t)
    : CreateOrderBody.t :=
  CreateOrderBody.mk (Some items) (CreateOrderBody.shippingAddress b)
    (CreateOrderBody.totalAmount b) (CreateOrderBody.customerName b)
    (CreateOrderBody.customerEmail b) (CreateOrderBody.paymentMethod b)
    (CreateOrderBody.shippingCost b) (CreateOrderBody.taxPrice b)
    (CreateOrderBody.discountAmount b).

(** The order document with other lines. *)
Definition order_with_items (items : list Item.t) (o : Order.t) : Order.t :=
  Order.mk (Order._id o) items (Order.shippingAddress o) (Order.totalAmount o)
    (Order.shippingCost o) (Order.taxPrice o) (Order.discountAmount o)
    (Order.paymentMethod o) (Order.customerName o) (Order.customerEmail o)
    (Order.paymentStatus o) (Order.orderStatus o) (Order.status o)
    (Order.statusHistory o) (Order.paymentIntentId o) (Order.user o)
    (Order.createdAt o).

(** The sum over the lines of embedded unit price times quantity. *)
Definition embedded_total (items : list Item.t) : Z :=
  foldr Z.add 0 (map (fun item => Item.price item * Item.quantity item) items).

(** ** Further definitions used in the statements *)

(** The environment with another payment-intent creation. *)
Definition with_paymentIntents_create
    (f : Z -> string -> Completion PaymentIntent.t) (env : Env) : Env :=
  mkEnv (development env) (FRONTEND_URL env) (newObjectId env) (now env) f
    (paymentIntents_retrieve env) (emailTemplates env) (sendMail env)
    (bcrypt_compare env) (jwt_sign env).

(** The world with [o] stored under its id. *)
Definition store_order (o : Order.t) (w : World) : World :=
  set_orders (<[Order._id o := o]> (orders w)) w.

(** User documents are stored under their own [_id]. *)
Definition users_keyed_by_id (us : gmap string User.t) : Prop :=
  forall k u, us !! k = Some u -> User._id u = k.

(** [pat] occurs in [s]. *)
Fixpoint contains (pat s : string) : bool :=
  String.prefix pat s
  || match s with
     | EmptyString => false
     | String _ rest => contains pat rest
     end.

(** Every character of [s] is in the class [[^\s@]]. *)
Definition all_plain (s : string) : bool :=
  forallb plain (list_ascii_of_string s).

(** Every character of [s] is an ASCII character (code below 128). *)
Definition ascii_only (s : string) : bool :=
  forallb (fun c => (nat_of_ascii c <? 128)%nat) (list_ascii_of_string s).

(** No character of [s] is in the class [\s]. *)
Definition no_space (s : string) : bool :=
  forallb (fun c => negb (is_space c)) (list_ascii_of_string s).

(** The user document a registration stores. *)
Definition registered_user (aenv : AuthEnv) (name email hash : string) : User.t :=
  User.mk (newUserId aenv) (trim name) (toLowerCase email) hash "user".

(** No stored order has paymentStatus 'completed'. *)
Definition no_completed (os : gmap string Order.t) : Prop :=
  forall k o, os !! k = Some o -> Order.paymentStatus o <> "completed".

(** ** Running a handler *)

Ltac unfold_handlers :=
  unfold createOrder, createOrder_try, updatePaymentStatus,
    updatePaymentStatus_try, updateOrderStatus, updateOrderStatus_try,
    login, login_try, sendEmail, confirmation_data, save, findByIdAndDelete,
    findOrderById, findById, try_catch, bind, ret, throw, gets, modify,
    await in *.

Ltac unfold_more :=
  unfold getPaymentIntent, getPaymentIntent_try, findOrderById, findById,
    bind, ret, throw, gets, await in *.

(** Split on every branch the handler takes. *)
Ltac branches :=
  repeat (simpl in *; case_match; simplify_eq).

(** ** Looking documents up *)

Lemma findById_stored {A : Type} model (docs : gmap string A) id doc :
  docs !! id = Some doc -> findById model docs id = Normal (Some doc).
Proof. intros H. unfold findById. rewrite H. reflexivity. Qed.

Lemma findById_absent {A : Type} model (docs : gmap string A) id :
  docs !! id = None -> isValidObjectId id = true ->
  findById model docs id = Normal None.
Proof. intros H Hv. unfold findById. rewrite H, Hv. reflexivity. Qed.

Lemma findById_malformed {A : Type} model (docs : gmap string A) id :
  docs !! id = None -> isValidObjectId id = false ->
  findById model docs id = Thrown (CastError id model).
Proof. intros H Hv. unfold findById. rewrite H, Hv. reflexivity. Qed.

(** ** The validation loop *)

Lemma validate_items_total ps items acc total :
  validate_items ps items acc = Normal (inr total) ->
  total = acc + cart_total ps items.
Proof.
  revert acc. induction items as [|item rest IH]; intros acc H; simpl in H.
  - inversion H. unfold cart_total. simpl. lia.
  - unfold cart_total in *. simpl. unfold server_price at 1.
    unfold findById in H.
    destruct (ps !! Item.product item) as [product|];
      [|destruct (isValidObjectId _); discriminate].
    destruct (Product.stock product <? Item.quantity item); [discriminate|].
    apply IH in H. lia.
Qed.

Lemma validate_items_valid ps items acc total :
  validate_items ps items acc = Normal (inr total) -> valid_cart ps items.
Proof.
  revert acc. induction items as [|item rest IH]; intros acc H; simpl in H.
  - constructor.
  - unfold findById in H.
    destruct (ps !! Item.product item) as [product|] eqn:Hp;
      [|destruct (isValidObjectId _); discriminate].
    destruct (Z.ltb_spec (Product.stock product) (Item.quantity item));
      [discriminate|].
    constructor; [exists product; split; [exact Hp | lia] |].
    eapply IH. eassumption.
Qed.

Lemma valid_cart_validates ps items acc :
  valid_cart ps items ->
  validate_items ps items acc = Normal (inr (acc + cart_total ps items)).
Proof.
  intros Hv. revert acc.
  induction Hv as [|item rest [product [Hp Hq]] _ IH]; intros acc.
  - unfold cart_total. simpl. do 2 f_equal. lia.
  - simpl. rewrite (findById_stored _ _ _ _ Hp).
    destruct (Z.ltb_spec (Product.stock product) (Item.quantity item)); [lia|].
    rewrite IH. unfold cart_total. simpl. unfold server_price at 2.
    rewrite Hp. do 2 f_equal. lia.
Qed.

Lemma validate_items_rejects_400 ps items acc r :
  validate_items ps items acc = Normal (inl r) -> Response.status r = 400%nat.
Proof.
  revert acc. induction items as [|item rest IH]; intros acc H; simpl in H.
  - discriminate.
  - unfold findById in H. destruct (ps !! Item.product item) as [product|].
    + destruct (Product.stock product <? Item.quantity item).
      * inversion H. reflexivity.
      * eauto.
    + destruct (isValidObjectId _); [|discriminate].
      inversion H. reflexivity.
Qed.

(** The loop stops at the first item that fails a check. *)
Lemma validate_items_first_over_stock ps pre item post product acc :
  valid_cart ps pre ->
  ps !! Item.product item = Some product ->
  Product.stock product < Item.quantity item ->
  validate_items ps (pre ++ item :: post) acc = Normal (inl (OutOfStock product)).
Proof.
  intros Hv Hp Hq. revert acc.
  induction Hv as [|it rest [p [Hp' Hq']] _ IH]; intros acc; simpl.
  - rewrite (findById_stored _ _ _ _ Hp).
    destruct (Z.ltb_spec (Product.stock product) (Item.quantity item)); [|lia].
    reflexivity.
  - rewrite (findById_stored _ _ _ _ Hp').
    destruct (Z.ltb_spec (Product.stock p) (Item.quantity it)); [lia|].
    apply IH.
Qed.

Lemma validate_items_first_not_found ps pre item post acc :
  valid_cart ps pre ->
  ps !! Item.product item = None ->
  isValidObjectId (Item.product item) = true ->
  validate_items ps (pre ++ item :: post) acc
  = Normal (inl (ProductNotFound (Item.product item))).
Proof.
  intros Hv Hp Hid. revert acc.
  induction Hv as [|it rest [p [Hp' Hq']] _ IH]; intros acc; simpl.
  - rewrite (findById_absent _ _ _ Hp Hid). reflexivity.
  - rewrite (findById_stored _ _ _ _ Hp').
    destruct (Z.ltb_spec (Product.stock p) (Item.quantity it)); [lia|].
    apply IH.
Qed.

(** The loop throws at the first item whose id is not stored and does not
    cast. *)
Lemma validate_items_first_malformed ps pre item post acc :
  valid_cart ps pre ->
  ps !! Item.product item = None ->
  isValidObjectId (Item.product item) = false ->
  validate_items ps (pre ++ item :: post) acc
  = Thrown (CastError (Item.product item) "Product").
Proof.
  intros Hv Hp Hid. revert acc.
  induction Hv as [|it rest [p [Hp' Hq']] _ IH]; intros acc; simpl.
  - rewrite (findById_malformed _ _ _ Hp Hid). reflexivity.
  - rewrite (findById_stored _ _ _ _ Hp').
    destruct (Z.ltb_spec (Product.stock p) (Item.quantity it)); [lia|].
    apply IH.
Qed.

(** A cart with an item over its stock never passes the loop. *)
Lemma validate_items_over_stock_rejected ps items item product acc total :
  In item items ->
  ps !! Item.product item = Some product ->
  Product.stock product < Item.quantity item ->
  validate_items ps items acc <> Normal (inr total).
Proof.
  intros Hin Hp Hq Hv.
  apply validate_items_valid in Hv.
  unfold valid_cart in Hv. rewrite Forall_forall in Hv.
  apply list_elem_of_In in Hin.
  destruct (Hv item Hin) as [p [Hp' Hq']].
  rewrite Hp in Hp'. inversion Hp'. subst. lia.
Qed.

(** When every earlier line can be looked up, the loop reaches a check
    that fails and answers. *)
Lemma validate_items_castable_rejected ps pre item post product acc :
  Forall (castable ps) pre ->
  ps !! Item.product item = Some product ->
  Product.stock product < Item.quantity item ->
  exists r, validate_items ps (pre ++ item :: post) acc = Normal (inl r).
Proof.
  intros Hc Hp Hq. revert acc.
  induction Hc as [|it rest Hit _ IH]; intros acc; simpl.
  - rewrite (findById_stored _ _ _ _ Hp).
    destruct (Z.ltb_spec (Product.stock product) (Item.quantity item)); [|lia].
    eauto.
  - unfold findById at 1.
    destruct (ps !! Item.product it) as [p|] eqn:Hp'.
    + destruct (Product.stock p <? Item.quantity it); [eauto|apply IH].
    + destruct Hit as [[p Hsome]|Hid]; [congruence|]. rewrite Hid. eauto.
Qed.


(** ** The stock loop *)

Lemma inc_stock_inc_stock a b p :
  Product.inc_stock a (Product.inc_stock b p) = Product.inc_stock (b + a) p.
Proof. unfold Product.inc_stock. simpl. f_equal. lia. Qed.

Lemma inc_stock_0 p : Product.inc_stock 0 p = p.
Proof. destruct p. unfold Product.inc_stock. simpl. f_equal. lia. Qed.

Lemma update_stock_lookup items ps pid :
  update_stock items ps !! pid
  = Product.inc_stock (- purchased pid items) <$> ps !! pid.
Proof.
  revert ps. induction items as [|item rest IH]; intros ps; simpl.
  - unfold purchased. simpl. destruct (ps !! pid); simpl; [|reflexivity].
    rewrite inc_stock_0. reflexivity.
  - rewrite IH. unfold findByIdAndUpdate_inc_stock.
    unfold purchased. simpl. fold (purchased pid rest).
    destruct (decide (Item.product item = pid)) as [->|Hne].
    + rewrite lookup_alter_eq. destruct (ps !! pid); simpl; [|reflexivity].
      rewrite inc_stock_inc_stock.
      replace (- (Item.quantity item + purchased pid rest))
        with (- Item.quantity item + - purchased pid rest) by lia.
      reflexivity.
    + rewrite lookup_alter_ne by exact Hne.
      replace (0 + purchased pid rest) with (purchased pid rest) by lia.
      reflexivity.
Qed.

Lemma purchased_not_in_cart pid items :
  ~ In pid (map Item.product items) -> purchased pid items = 0.
Proof.
  induction items as [|item rest IH]; intros Hn; unfold purchased; simpl.
  - reflexivity.
  - fold (purchased pid rest). simpl in Hn.
    destruct (decide (Item.product item = pid)); [tauto|].
    rewrite IH; tauto.
Qed.

Lemma purchased_once item items :
  In item items ->
  NoDup (map Item.product items) ->
  purchased (Item.product item) items = Item.quantity item.
Proof.
  induction items as [|it rest IH]; intros Hin Hnd; [destruct Hin|].
  simpl in Hnd. apply NoDup_cons in Hnd as [Hnot Hnd].
  unfold purchased. simpl. fold (purchased (Item.product item) rest).
  destruct Hin as [->|Hin].
  - destruct (decide (Item.product item = Item.product item)); [|congruence].
    rewrite purchased_not_in_cart; [lia|].
    intros H. apply Hnot. apply list_elem_of_In. exact H.
  - destruct (decide (Item.product it = Item.product item)) as [Heq|_].
    + exfalso. apply Hnot. rewrite Heq. apply list_elem_of_In.
      apply in_map. exact Hin.
    + rewrite IH by assumption. lia.
Qed.

(** ** The total *)

(** [totalAmount] is read by the basic validation only. *)
Lemma missing_details_totalAmount b t :
  truthy_num (CreateOrderBody.totalAmount b) = true ->
  truthy_num t = true ->
  missing_details (CreateOrderBody.set_totalAmount t b) = missing_details b.
Proof.
  intros Hb Ht. unfold missing_details. simpl. rewrite Hb, Ht. reflexivity.
Qed.

Lemma missing_details_false_totalAmount b :
  missing_details b = false ->
  truthy_num (CreateOrderBody.totalAmount b) = true.
Proof.
  unfold missing_details. intros H.
  repeat (apply orb_false_elim in H as [H ?]).
  destruct (truthy_num (CreateOrderBody.totalAmount b)); [reflexivity|discriminate].
Qed.

Lemma createOrder_totalAmount_irrelevant env b w t :
  truthy_num (CreateOrderBody.totalAmount b) = true ->
  truthy_num t = true ->
  createOrder env (CreateOrderBody.set_totalAmount t b) w = createOrder env b w.
Proof.
  intros Hb Ht. unfold createOrder, createOrder_try.
  rewrite (missing_details_totalAmount b t Hb Ht). reflexivity.
Qed.

(** Whatever order the request leaves under the new id carries the total
    accumulated by the validation loop. *)
Lemma createOrder_persisted env b w o :
  orders w !! newObjectId env = None ->
  orders (snd (createOrder env b w)) !! newObjectId env = Some o ->
  missing_details b = false
  /\ exists items total,
       CreateOrderBody.items b = Some items
       /\ validate_items (products w) items 0 = Normal (inr total)
       /\ Order.items o = items
       /\ Order.totalAmount o
          = total + or_zero (CreateOrderBody.shippingCost b)
            + or_zero (CreateOrderBody.taxPrice b)
            - or_zero (CreateOrderBody.discountAmount b).
Proof.
  intros Hfresh Hp.
  destruct (missing_details b) eqn:Hm.
  { unfold_handlers. rewrite Hm in Hp. simpl in Hp. congruence. }
  split; [reflexivity|].
  assert (Hi : exists items, CreateOrderBody.items b = Some items).
  { unfold missing_details in Hm. destruct (CreateOrderBody.items b); [eauto|].
    discriminate. }
  destruct Hi as [items Hi]. exists items.
  destruct (validate_items (products w) items 0) as [[r|total]|e] eqn:Hv.
  - unfold_handlers. rewrite Hm, Hi in Hp. simpl in Hp. rewrite Hv in Hp.
    simpl in Hp. congruence.
  - exists total. split; [exact Hi|]. split; [reflexivity|].
    unfold_handlers. rewrite Hm, Hi in Hp. simpl in Hp. rewrite Hv in Hp.
    revert Hp. branches; simpl; intros Hp; simplify_map_eq; done.
  - unfold_handlers. rewrite Hm, Hi in Hp. simpl in Hp. rewrite Hv in Hp.
    simpl in Hp. congruence.
Qed.

(** The stock after the request depends on the validation only. *)
Lemma createOrder_products env b w :
  products (snd (createOrder env b w))
  = if missing_details b then products w
    else match validate_items (products w)
                 (default [] (CreateOrderBody.items b)) 0 with
         | Normal (inr _) =>
             update_stock (default [] (CreateOrderBody.items b)) (products w)
         | _ => products w
         end.
Proof.
  unfold_handlers.
  destruct (missing_details b); [reflexivity|]. simpl.
  destruct (validate_items _ _ _) as [[r|total]|e]; [reflexivity| |reflexivity].
  branches; reflexivity.
Qed.

(** A 201 is only sent after the validation passed. *)
Lemma createOrder_201 env b w :
  Response.status (fst (createOrder env b w)) = 201%nat ->
  missing_details b = false
  /\ exists total,
       validate_items (products w) (default [] (CreateOrderBody.items b)) 0
       = Normal (inr total).
Proof.
  unfold_handlers.
  destruct (missing_details b); [simpl; discriminate|]. simpl.
  destruct (validate_items _ _ _) as [[r|total]|e] eqn:Hv.
  - simpl. intros H. apply validate_items_rejects_400 in Hv. congruence.
  - eauto.
  - simpl. destruct (development env); discriminate.
Qed.

(** A rejected request leaves the world as it was. *)
Lemma createOrder_rejected env b w :
  (missing_details b = true
   \/ exists r, validate_items (products w)
                  (default [] (CreateOrderBody.items b)) 0 = Normal (inl r)) ->
  Response.status (fst (createOrder env b w)) = 400%nat
  /\ snd (createOrder env b w) = w.
Proof.
  unfold_handlers. intros H.
  destruct (missing_details b); [split; reflexivity|]. simpl.
  destruct H as [H|[r Hv]]; [discriminate|]. rewrite Hv. simpl.
  split; [eapply validate_items_rejects_400; eassumption | reflexivity].
Qed.

(** So does a request whose cart makes [Product.findById] throw: the
    outer catch answers 500. *)
Lemma createOrder_cast_error env b w e :
  missing_details b = false ->
  validate_items (products w) (default [] (CreateOrderBody.items b)) 0
  = Thrown e ->
  createOrder env b w = (createOrder_catch env e, w).
Proof.
  intros Hm Hv. unfold_handlers. rewrite Hm. simpl. rewrite Hv. reflexivity.
Qed.

(** The card path when the gateway refuses the payment intent. *)
Lemma createOrder_card_gateway_failure env b w total e :
  missing_details b = false ->
  validate_items (products w) (default [] (CreateOrderBody.items b)) 0
  = Normal (inr total) ->
  is_card (CreateOrderBody.paymentMethod b) = true ->
  paymentIntents_create env
    (Order.totalAmount (new_order env b total) * 100) (newObjectId env)
  = Thrown e ->
  createOrder env b w
  = (createOrder_catch env e,
     mkWorld (update_stock (default [] (CreateOrderBody.items b)) (products w))
       (delete (newObjectId env)
          (<[newObjectId env := new_order env b total]> (orders w)))
       (users w) (outbox w)).
Proof.
  intros Hm Hv Hc He. unfold_handlers.
  rewrite Hm. simpl. rewrite Hv, Hc. simpl in *. rewrite He. reflexivity.
Qed.

(** ** The total over binary64 *)

(** On a valid cart the loop adds the line totals up from [total], in the
    order of the cart. *)
Lemma validate_items_sum_of_lines ps items total :
  valid_lines ps items ->
  Doubles.validate_items ps items total
  = Normal
      (inr (fold_left (fun sum item => PrimFloat.add sum (line_total ps item))
              items total)).
Proof.
  intros Hv. revert total.
  induction Hv as [|item rest [product [Hp Hq]] _ IH]; intros total; simpl.
  - reflexivity.
  - rewrite (findById_stored _ _ _ _ Hp), Hq, IH.
    unfold line_total at 3. rewrite Hp. reflexivity.
Qed.

(** The loop lets through valid carts only. *)
Lemma validate_items_valid_lines ps items total sum :
  Doubles.validate_items ps items total = Normal (inr sum) ->
  valid_lines ps items.
Proof.
  revert total. induction items as [|item rest IH]; intros total H; simpl in H.
  - constructor.
  - unfold findById in H.
    destruct (ps !! Doubles.Item.product item) as [product|] eqn:Hp;
      [|destruct (isValidObjectId _); discriminate].
    destruct (PrimFloat.ltb (Doubles.Product.stock product)
                (Doubles.Item.quantity item)) eqn:Hq; [discriminate|].
    constructor; [exists product; split; assumption|].
    eapply IH. eassumption.
Qed.

Lemma or_zero_charged cost : Doubles.or_zero cost = charged cost.
Proof.
  destruct cost as [n|]; [|reflexivity].
  unfold Doubles.or_zero, Doubles.falsy, charged.
  destruct (PrimFloat.is_nan n), (PrimFloat.eqb n 0); reflexivity.
Qed.

Lemma missing_details_totalAmount_binary64 b t :
  Doubles.truthy_num (Doubles.Body.totalAmount b) = true ->
  Doubles.truthy_num t = true ->
  Doubles.missing_details (Doubles.Body.set_totalAmount t b)
  = Doubles.missing_details b.
Proof.
  intros Hb Ht. unfold Doubles.missing_details. simpl. rewrite Hb, Ht.
  reflexivity.
Qed.

Lemma missing_details_false_totalAmount_binary64 b :
  Doubles.missing_details b = false ->
  Doubles.truthy_num (Doubles.Body.totalAmount b) = true.
Proof.
  unfold Doubles.missing_details. intros H.
  repeat (apply orb_false_elim in H as [H ?]).
  destruct (Doubles.truthy_num (Doubles.Body.totalAmount b));
    [reflexivity|discriminate].
Qed.

(** ** Order creation *)

(** C1, as amended.  For every request that carries the required details
    and a valid cart (every product id resolves, no quantity exceeds the
    stock), createOrder saves an order document with the lines of the
    request whose [totalAmount] is the sum over the lines of server-fetched
    price times quantity, plus shippingCost, plus taxPrice, minus
    discountAmount, as JavaScript computes it: on binary64 numbers, added
    up from zero in the order of the cart, every operation rounded, a cost
    that is absent, zero or NaN counting as 0.  Replacing the
    client-supplied [totalAmount] of the request by any other truthy number
    changes nothing.  (What the handler does after [order.save()] sets the
    order's paymentIntentId or deletes the order; it never writes the
    total: [createOrder_persisted], [createOrder_card_gateway_failure].) *)
Theorem createOrder_total_from_server_prices ps b items :
  Doubles.Body.items b = Some items ->
  Doubles.missing_details b = false ->
  valid_lines ps items ->
  exists doc,
    Doubles.createOrder_save ps b = Normal (inr doc)
    /\ Doubles.Document.items doc = items
    /\ Doubles.Document.totalAmount doc
       = total_due ps items (Doubles.Body.shippingCost b)
           (Doubles.Body.taxPrice b) (Doubles.Body.discountAmount b)
    /\ forall t, Doubles.truthy_num t = true ->
         Doubles.createOrder_save ps (Doubles.Body.set_totalAmount t b)
         = Doubles.createOrder_save ps b.
Proof.
  intros Hi Hm Hv.
  assert (Hsame : forall t, Doubles.truthy_num t = true ->
            Doubles.createOrder_save ps (Doubles.Body.set_totalAmount t b)
            = Doubles.createOrder_save ps b).
  { intros t Ht. unfold Doubles.createOrder_save.
    rewrite (missing_details_totalAmount_binary64 b t
               (missing_details_false_totalAmount_binary64 b Hm) Ht).
    reflexivity. }
  unfold Doubles.createOrder_save at 1.
  rewrite Hm, Hi. simpl.
  rewrite (validate_items_sum_of_lines ps items 0%float Hv).
  eexists. split; [reflexivity|]. split; [reflexivity|].
  split; [|exact Hsame].
  simpl. rewrite !or_zero_charged. reflexivity.
Qed.

(** Two shirts at 1999 with 200 shipping, 100 tax and 50 discount: the
    document saved carries 4248, whatever the request states as its unit
    price and total. *)
Lemma createOrder_total_from_server_prices_witness :
  let b := Till.request 2%float (Some 200%float) (Some 100%float) (Some 50%float) in
  let items := [Doubles.Item.mk Till.shirt_id 2%float 1%float] in
  Doubles.createOrder_save Till.catalog b
  = Normal
      (inr (Doubles.Document.mk items Shop.home 4248%float (Some 200%float)
              (Some 100%float) (Some 50%float) (Some "cod") "Ann"
              "ann@example.com" "pending" "processing"))
  /\ exists doc,
       Doubles.createOrder_save Till.catalog b = Normal (inr doc)
       /\ Doubles.Document.items doc = items
       /\ Doubles.Document.totalAmount doc
          = total_due Till.catalog items (Doubles.Body.shippingCost b)
              (Doubles.Body.taxPrice b) (Doubles.Body.discountAmount b)
       /\ forall t, Doubles.truthy_num t = true ->
            Doubles.createOrder_save Till.catalog
              (Doubles.Body.set_totalAmount t b)
            = Doubles.createOrder_save Till.catalog b.
Proof.
  split; [vm_compute; reflexivity|].
  apply (createOrder_total_from_server_prices Till.catalog
           (Till.request 2%float (Some 200%float) (Some 100%float)
              (Some 50%float))
           [Doubles.Item.mk Till.shirt_id 2%float 1%float]).
  - reflexivity.
  - vm_compute. reflexivity.
  - constructor; [|constructor].
    exists (Doubles.Product.mk "Shirt" 1999%float 5%float).
    split; vm_compute; reflexivity.
Defined.

(** C1, as stated, fails: the stored total is the rounded result of the
    additions, not the sum.  One shirt at 2^53 = 9007199254740992 with a
    shipping cost of 1 (all of them whole numbers) is stored with the total
    9007199254740992, not 9007199254740993: the very total of the same
    request without any shipping cost. *)
Lemma createOrder_total_from_server_prices_counterexample :
  let items := [Doubles.Item.mk Till.shirt_id 1%float 1%float] in
  let stored b :=
    match Doubles.createOrder_save Till.catalog_large b with
    | Normal (inr doc) => whole (Doubles.Document.totalAmount doc)
    | _ => None
    end in
  valid_lines Till.catalog_large items
  /\ Doubles.Product.price <$> Till.catalog_large !! Till.shirt_id
     = Some 9007199254740992%float
  /\ whole 9007199254740992%float = Some 9007199254740992
  /\ whole 1%float = Some 1
  /\ stored (Till.request 1%float (Some 1%float) None None)
     = Some 9007199254740992
  /\ 9007199254740992 <> 9007199254740992 * 1 + 1 + 0 - 0
  /\ stored (Till.request 1%float None None None) = Some 9007199254740992.
Proof.
  split.
  { constructor; [|constructor].
    exists (Doubles.Product.mk "Shirt" 9007199254740992%float 5%float).
    split; vm_compute; reflexivity. }
  repeat split; try (vm_compute; reflexivity). lia.
Qed.

(** With cents: three shirts at 19.99 plus 4.99 shipping plus 0.1 tax minus
    1.5 discount are stored as 63.559999999999988..., which is not the
    binary64 number closest to 63.56. *)
Example total_with_cents :
  let total_of ps b :=
    match Doubles.createOrder_save ps b with
    | Normal (inr doc) => Some (Doubles.Document.totalAmount doc)
    | _ => None
    end in
  let price := 0x1.3fd70a3d70a3dp+4%float in
  let shipping := 0x1.3f5c28f5c28f6p+2%float in
  let tax := 0x1.999999999999ap-4%float in
  let stored := 0x1.fc7ae147ae146p+5%float in
  let closest_to_63_56 := 0x1.fc7ae147ae148p+5%float in
  Doubles.Product.price <$> Till.catalog_cents !! Till.shirt_id = Some price
  /\ total_of Till.catalog_cents
       (Till.request 3%float (Some shipping) (Some tax) (Some 1.5%float))
     = Some stored
  /\ PrimFloat.eqb stored closest_to_63_56 = false.
Proof. vm_compute. repeat split. Qed.

(** The total depends on the order of the lines: 0.1, 0.2 and 0.3 added up
    in this order and in the opposite order. *)
Example total_depends_on_the_order_of_the_lines :
  let tenth := 0x1.999999999999ap-4%float in
  let fifth := 0x1.999999999999ap-3%float in
  let three_tenths := 0x1.3333333333333p-2%float in
  let ps : gmap string Doubles.Product.t :=
    <["665f1c2ab3d4e5f6a7b8c0a1" := Doubles.Product.mk "A" tenth 5%float]>
      (<["665f1c2ab3d4e5f6a7b8c0b2" := Doubles.Product.mk "B" fifth 5%float]>
         (<["665f1c2ab3d4e5f6a7b8c0c3" := Doubles.Product.mk "C" three_tenths 5%float]>
            ∅)) in
  let line id := Doubles.Item.mk id 1%float 1%float in
  let a := line "665f1c2ab3d4e5f6a7b8c0a1" in
  let b := line "665f1c2ab3d4e5f6a7b8c0b2" in
  let c := line "665f1c2ab3d4e5f6a7b8c0c3" in
  PrimFloat.eqb (sum_of_lines ps [a; b; c]) (sum_of_lines ps [c; b; a]) = false.
Proof. vm_compute. reflexivity. Qed.

(** A valid cash-on-delivery cart with the required details does persist
    its order, whatever happens to the confirmation mail. *)
Lemma createOrder_cod_persists env b w :
  missing_details b = false ->
  valid_cart (products w) (default [] (CreateOrderBody.items b)) ->
  is_card (CreateOrderBody.paymentMethod b) = false ->
  orders (snd (createOrder env b w))
  = <[newObjectId env :=
        new_order env b
          (cart_total (products w) (default [] (CreateOrderBody.items b)))]>
      (orders w).
Proof.
  intros Hm Hv Hc. unfold_handlers. rewrite Hm. simpl.
  rewrite (valid_cart_validates _ _ 0 Hv), Hc. unfold new_order. simpl.
  branches; reflexivity.
Qed.

(** C2, as amended.  A request whose cart has an item over its product's
    stock leaves the world untouched: no order is created, no stock is
    decremented, no mail is sent.  It is answered 400 or 500; 400 when
    every earlier line of the cart names a stored product or carries a
    well-formed id (otherwise [Product.findById] may throw on that line,
    which the outer catch answers 500); and the 400 is the out-of-stock
    rejection when the required details are present and every earlier item
    of the cart resolves and is within stock. *)
Theorem createOrder_out_of_stock env b w pre item post product :
  CreateOrderBody.items b = Some (pre ++ item :: post) ->
  products w !! Item.product item = Some product ->
  Product.stock product < Item.quantity item ->
  let out := createOrder env b w in
  snd out = w
  /\ (Response.status (fst out) = 400%nat \/ Response.status (fst out) = 500%nat)
  /\ (Forall (castable (products w)) pre ->
      Response.status (fst out) = 400%nat)
  /\ (missing_details b = false ->
      valid_cart (products w) pre ->
      fst out = OutOfStock product).
Proof.
  intros Hi Hp Hq out. unfold out.
  assert (Hin : In item (pre ++ item :: post)).
  { apply in_or_app. right. left. reflexivity. }
  assert (Hcases :
            (Response.status (fst (createOrder env b w)) = 400%nat
             \/ Response.status (fst (createOrder env b w)) = 500%nat)
            /\ snd (createOrder env b w) = w).
  { destruct (missing_details b) eqn:Hm.
    { destruct (createOrder_rejected env b w (or_introl Hm)); auto. }
    destruct (validate_items (products w)
                (default [] (CreateOrderBody.items b)) 0)
      as [[r|total]|e] eqn:Hv.
    - destruct (createOrder_rejected env b w
                  (or_intror (ex_intro _ r Hv))); auto.
    - exfalso. rewrite Hi in Hv. simpl in Hv.
      exact (validate_items_over_stock_rejected _ _ _ _ _ _ Hin Hp Hq Hv).
    - rewrite (createOrder_cast_error env b w e Hm Hv). auto. }
  destruct Hcases as [Hstatus Hw].
  split; [exact Hw|]. split; [exact Hstatus|]. split.
  - intros Hc.
    destruct (missing_details b) eqn:Hm.
    { destruct (createOrder_rejected env b w (or_introl Hm)); auto. }
    destruct (validate_items_castable_rejected (products w) pre item post
                product 0 Hc Hp Hq) as [r Hr].
    apply createOrder_rejected. right. exists r. rewrite Hi. exact Hr.
  - intros Hm Hv. unfold_handlers. rewrite Hm, Hi. simpl.
    rewrite (validate_items_first_over_stock _ pre item post product 0 Hv Hp Hq).
    reflexivity.
Qed.

(** A shirt, then a hat with none in stock. *)
Lemma createOrder_out_of_stock_witness :
  let shirt := Item.mk "665f1c2ab3d4e5f6a7b8c0a1" 1 1999 None in
  let hat := Item.mk "665f1c2ab3d4e5f6a7b8c0b2" 1 500 None in
  let out := createOrder Shop.env (Shop.cart [shirt; hat] "card") Shop.world in
  fst out = OutOfStock Shop.hat
  /\ snd out = Shop.world
  /\ (Response.status (fst out) = 400%nat \/ Response.status (fst out) = 500%nat)
  /\ (Forall (castable (products Shop.world)) [shirt] ->
      Response.status (fst out) = 400%nat)
  /\ (missing_details (Shop.cart [shirt; hat] "card") = false ->
      valid_cart (products Shop.world) [shirt] ->
      fst out = OutOfStock Shop.hat).
Proof.
  split; [vm_compute; reflexivity|].
  apply (createOrder_out_of_stock Shop.env
           (Shop.cart [Item.mk "665f1c2ab3d4e5f6a7b8c0a1" 1 1999 None;
                       Item.mk "665f1c2ab3d4e5f6a7b8c0b2" 1 500 None] "card")
           Shop.world [Item.mk "665f1c2ab3d4e5f6a7b8c0a1" 1 1999 None]
           (Item.mk "665f1c2ab3d4e5f6a7b8c0b2" 1 500 None) [] Shop.hat);
    [reflexivity | vm_compute; reflexivity | simpl; lia].
Defined.

(** C2, as stated, fails: a cart whose second item is over its stock (one
    hat, none in stock) is not rejected as out of stock when its first item
    fails a check.  A first item with a well-formed id that names no
    product is answered 400 'Product not found'; a first item with an id
    that is no ObjectId makes [Product.findById] throw and is answered
    500. *)
Lemma createOrder_out_of_stock_counterexample :
  let hat := Item.mk "665f1c2ab3d4e5f6a7b8c0b2" 1 500 None in
  let unknown := Item.mk "665f1c2ab3d4e5f6a7b8c0ff" 1 10 None in
  let malformed := Item.mk "ghost" 1 10 None in
  let answer items := fst (createOrder Shop.env (Shop.cart items "card") Shop.world) in
  products Shop.world !! "665f1c2ab3d4e5f6a7b8c0b2" = Some Shop.hat
  /\ Product.stock Shop.hat = 0
  /\ isValidObjectId "665f1c2ab3d4e5f6a7b8c0ff" = true
  /\ answer [unknown; hat] = ProductNotFound "665f1c2ab3d4e5f6a7b8c0ff"
  /\ answer [unknown; hat] <> OutOfStock Shop.hat
  /\ isValidObjectId "ghost" = false
  /\ Response.status (answer [malformed; hat]) = 500%nat.
Proof.
  split; [vm_compute; reflexivity|].
  split; [reflexivity|].
  split; [vm_compute; reflexivity|].
  split; [vm_compute; reflexivity|].
  split; [vm_compute; discriminate|].
  split; vm_compute; reflexivity.
Qed.


(** C3.  After a card order answered 201, every product's stock has gone
    down by exactly the quantity of it that the cart purchases, its other
    fields are as before, and a product the cart does not name is
    untouched; when no product is named twice, the stock of each item's
    product has gone down by exactly that item's quantity. *)
Theorem createOrder_card_success_stock env b w :
  is_card (CreateOrderBody.paymentMethod b) = true ->
  Response.status (fst (createOrder env b w)) = 201%nat ->
  let items := default [] (CreateOrderBody.items b) in
  let w' := snd (createOrder env b w) in
  (forall pid product,
     products w !! pid = Some product ->
     exists product',
       products w' !! pid = Some product'
       /\ Product.stock product' = Product.stock product - purchased pid items
       /\ Product.name product' = Product.name product
       /\ Product.price product' = Product.price product
       /\ Product.images product' = Product.images product)
  /\ (forall pid,
        ~ In pid (map Item.product items) ->
        products w' !! pid = products w !! pid)
  /\ (NoDup (map Item.product items) ->
      forall item, In item items ->
        exists product product',
          products w !! Item.product item = Some product
          /\ products w' !! Item.product item = Some product'
          /\ Product.stock product'
             = Product.stock product - Item.quantity item).
Proof.
  intros Hcard H201 items w'.
  destruct (createOrder_201 env b w H201) as [Hm [total Hv]].
  assert (Hps : products w' = update_stock items (products w)).
  { unfold w'. rewrite createOrder_products, Hm, Hv. reflexivity. }
  assert (Hall : forall pid product,
             products w !! pid = Some product ->
             exists product',
               products w' !! pid = Some product'
               /\ Product.stock product'
                  = Product.stock product - purchased pid items
               /\ Product.name product' = Product.name product
               /\ Product.price product' = Product.price product
               /\ Product.images product' = Product.images product).
  { intros pid product Hp. rewrite Hps, update_stock_lookup, Hp. simpl.
    eexists. split; [reflexivity|]. simpl. repeat split. }
  split; [exact Hall|]. split.
  - intros pid Hn. rewrite Hps, update_stock_lookup.
    rewrite (purchased_not_in_cart pid items Hn). simpl.
    destruct (products w !! pid); simpl; [|reflexivity].
    rewrite inc_stock_0. reflexivity.
  - intros Hnd item Hin.
    apply validate_items_valid in Hv. unfold valid_cart in Hv.
    rewrite Forall_forall in Hv.
    destruct (Hv item) as [product [Hp _]]; [apply list_elem_of_In; exact Hin|].
    destruct (Hall _ _ Hp) as [product' [Hp' [Hs _]]].
    exists product, product'. split; [exact Hp|]. split; [exact Hp'|].
    rewrite Hs. rewrite (purchased_once item items Hin Hnd). reflexivity.
Qed.

Lemma createOrder_card_success_stock_witness :
  Product.stock Shop.shirt = 5
  /\ products (snd (createOrder Shop.env (Shop.cart Shop.two_shirts "card")
                      Shop.world)) !! "665f1c2ab3d4e5f6a7b8c0a1"
     = Some (Product.mk "Shirt" 1999 3 ["shirt.png"])
  /\ exists product',
       products (snd (createOrder Shop.env (Shop.cart Shop.two_shirts "card")
                        Shop.world)) !! "665f1c2ab3d4e5f6a7b8c0a1" = Some product'
       /\ Product.stock product'
          = Product.stock Shop.shirt
            - purchased "665f1c2ab3d4e5f6a7b8c0a1"
                (default [] (CreateOrderBody.items (Shop.cart Shop.two_shirts "card")))
       /\ Product.name product' = Product.name Shop.shirt
       /\ Product.price product' = Product.price Shop.shirt
       /\ Product.images product' = Product.images Shop.shirt.
Proof.
  split; [reflexivity|]. split; [vm_compute; reflexivity|].
  apply (createOrder_card_success_stock Shop.env
           (Shop.cart Shop.two_shirts "card") Shop.world);
    vm_compute; reflexivity.
Defined.

(** C4.  In a card order whose payment-intent creation fails, the order
    saved a moment before is deleted again: no order is left under the new
    id (with a fresh id the order collection is exactly as before the
    request), no confirmation mail is sent, and the gateway's error comes
    back as the 500 response carrying its message. *)
Theorem createOrder_gateway_failure_deletes_order env b w total e :
  missing_details b = false ->
  validate_items (products w) (default [] (CreateOrderBody.items b)) 0
  = Normal (inr total) ->
  is_card (CreateOrderBody.paymentMethod b) = true ->
  paymentIntents_create env
    (Order.totalAmount (new_order env b total) * 100) (newObjectId env)
  = Thrown e ->
  let out := createOrder env b w in
  orders (snd out) !! newObjectId env = None
  /\ (orders w !! newObjectId env = None -> orders (snd out) = orders w)
  /\ outbox (snd out) = outbox w
  /\ Response.status (fst out) = 500%nat
  /\ field "message" (Response.body (fst out))
     = Some (JStr (or_str (JsError.message e) "Failed to create order.")).
Proof.
  intros Hm Hv Hc He out. unfold out.
  rewrite (createOrder_card_gateway_failure env b w total e Hm Hv Hc He).
  simpl. split; [apply lookup_delete_eq|].
  split; [intros Hfresh; rewrite delete_insert_eq; apply delete_id; exact Hfresh|].
  repeat split.
Qed.

Lemma createOrder_gateway_failure_deletes_order_witness :
  let out := createOrder Shop.env_gateway_down (Shop.cart Shop.two_shirts "card")
               Shop.world in
  orders (snd out) !! newObjectId Shop.env_gateway_down = None
  /\ (orders Shop.world !! newObjectId Shop.env_gateway_down = None ->
      orders (snd out) = orders Shop.world)
  /\ outbox (snd out) = outbox Shop.world
  /\ Response.status (fst out) = 500%nat
  /\ field "message" (Response.body (fst out))
     = Some (JStr (or_str (JsError.message Shop.card_declined)
                     "Failed to create order.")).
Proof.
  apply (createOrder_gateway_failure_deletes_order Shop.env_gateway_down
           (Shop.cart Shop.two_shirts "card") Shop.world 3998 Shop.card_declined);
    vm_compute; reflexivity.
Defined.

(** C10.  In a card order whose payment-intent creation fails, the
    compensating delete removes the order document only: no order is left
    under the new id, while the stock of every product stays reduced by the
    quantity the cart purchased. *)
Theorem createOrder_gateway_failure_keeps_stock_decrement env b w total e :
  missing_details b = false ->
  validate_items (products w) (default [] (CreateOrderBody.items b)) 0
  = Normal (inr total) ->
  is_card (CreateOrderBody.paymentMethod b) = true ->
  paymentIntents_create env
    (Order.totalAmount (new_order env b total) * 100) (newObjectId env)
  = Thrown e ->
  let items := default [] (CreateOrderBody.items b) in
  let out := createOrder env b w in
  Response.status (fst out) = 500%nat
  /\ orders (snd out) !! newObjectId env = None
  /\ products (snd out) = update_stock items (products w)
  /\ forall item, In item items ->
       exists product product',
         products w !! Item.product item = Some product
         /\ products (snd out) !! Item.product item = Some product'
         /\ Product.stock product'
            = Product.stock product - purchased (Item.product item) items.
Proof.
  intros Hm Hv Hc He items out. unfold out.
  rewrite (createOrder_card_gateway_failure env b w total e Hm Hv Hc He).
  simpl. split; [reflexivity|]. split; [apply lookup_delete_eq|].
  split; [reflexivity|].
  intros item Hin.
  apply validate_items_valid in Hv. unfold valid_cart in Hv.
  rewrite Forall_forall in Hv.
  destruct (Hv item) as [product [Hp _]]; [apply list_elem_of_In; exact Hin|].
  exists product, (Product.inc_stock (- purchased (Item.product item) items) product).
  split; [exact Hp|]. split.
  - rewrite update_stock_lookup, Hp. reflexivity.
  - simpl. lia.
Qed.

Lemma createOrder_gateway_failure_keeps_stock_decrement_witness :
  let b := Shop.cart Shop.two_shirts "card" in
  let items := default [] (CreateOrderBody.items b) in
  let out := createOrder Shop.env_gateway_down b Shop.world in
  Response.status (fst out) = 500%nat
  /\ orders (snd out) !! newObjectId Shop.env_gateway_down = None
  /\ products (snd out) = update_stock items (products Shop.world)
  /\ forall item, In item items ->
       exists product product',
         products Shop.world !! Item.product item = Some product
         /\ products (snd out) !! Item.product item = Some product'
         /\ Product.stock product'
            = Product.stock product - purchased (Item.product item) items.
Proof.
  apply (createOrder_gateway_failure_keeps_stock_decrement
           Shop.env_gateway_down (Shop.cart Shop.two_shirts "card") Shop.world
           3998 Shop.card_declined);
    vm_compute; reflexivity.
Defined.

Example gateway_failure_stock_stays_reduced :
  let out := createOrder Shop.env_gateway_down (Shop.cart Shop.two_shirts "card")
               Shop.world in
  Product.stock <$> products Shop.world !! "665f1c2ab3d4e5f6a7b8c0a1" = Some 5
  /\ Product.stock <$> products (snd out) !! "665f1c2ab3d4e5f6a7b8c0a1" = Some 3
  /\ orders (snd out) = orders Shop.world.
Proof. vm_compute. repeat split. Qed.

(** ** Documents stay under their own id *)

Lemma keyed_by_id_insert (os : gmap string Order.t) o :
  keyed_by_id os -> keyed_by_id (<[Order._id o := o]> os).
Proof.
  intros Hk k o' H. apply lookup_insert_Some in H as [[<- <-]|[_ H]]; eauto.
Qed.

Lemma keyed_by_id_delete (os : gmap string Order.t) id :
  keyed_by_id os -> keyed_by_id (delete id os).
Proof.
  intros Hk k o H. apply lookup_delete_Some in H as [_ H]. eauto.
Qed.

Lemma createOrder_keyed_by_id env b w :
  keyed_by_id (orders w) -> keyed_by_id (orders (snd (createOrder env b w))).
Proof.
  intros Hk.
  pose proof (fun total => keyed_by_id_insert _ (new_order env b total) Hk) as H1.
  pose proof (fun total pid =>
                keyed_by_id_insert _
                  (Order.set_paymentIntentId pid (new_order env b total))
                  (H1 total)) as H2.
  pose proof (fun total pid =>
                keyed_by_id_delete _ (newObjectId env) (H2 total pid)) as H3.
  pose proof (fun total =>
                keyed_by_id_delete _ (newObjectId env) (H1 total)) as H4.
  unfold new_order in *. simpl in *.
  unfold_handlers. branches; simpl; eauto.
Qed.

(** ** Payment confirmation *)

Lemma mark_paid_idempotent o : mark_paid (mark_paid o) = mark_paid o.
Proof. reflexivity. Qed.

(** The caller's [status] is read nowhere. *)
Lemma updatePaymentStatus_ignores_status env b w s :
  updatePaymentStatus env (PaymentStatusBody.set_status s b) w
  = updatePaymentStatus env b w.
Proof. reflexivity. Qed.

Lemma updatePaymentStatus_succeeded env b w o pi :
  orders w !! PaymentStatusBody.orderId b = Some o ->
  paymentIntents_retrieve env (PaymentStatusBody.paymentIntentId b) = Normal pi ->
  PaymentIntent.status pi = "succeeded" ->
  let w' := snd (updatePaymentStatus env b w) in
  orders w' = <[Order._id o := mark_paid o]> (orders w)
  /\ products w' = products w
  /\ users w' = users w
  /\ outbox w'
     = outbox w ++ match populate_user w o with
                   | Some u => [paid_mail env o u]
                   | None => []
                   end.
Proof.
  intros Ho Hpi Hs. unfold_handlers. simpl. rewrite Ho, Hpi. simpl.
  rewrite Hs. simpl.
  destruct (populate_user w o) as [u|]; simpl.
  - branches; simpl; repeat split.
  - repeat split. rewrite app_nil_r. reflexivity.
Qed.

Lemma updatePaymentStatus_failed env b w o pi :
  orders w !! PaymentStatusBody.orderId b = Some o ->
  paymentIntents_retrieve env (PaymentStatusBody.paymentIntentId b) = Normal pi ->
  PaymentIntent.status pi = "payment_failed" ->
  updatePaymentStatus env b w
  = (json 400 [("message", JStr "Payment failed.")],
     set_orders (<[Order._id o := Order.set_paymentStatus "failed" o]> (orders w)) w).
Proof.
  intros Ho Hpi Hs. unfold_handlers. simpl. rewrite Ho, Hpi. simpl.
  rewrite Hs. reflexivity.
Qed.

Lemma updatePaymentStatus_other env b w o pi :
  orders w !! PaymentStatusBody.orderId b = Some o ->
  paymentIntents_retrieve env (PaymentStatusBody.paymentIntentId b) = Normal pi ->
  PaymentIntent.status pi <> "succeeded" ->
  PaymentIntent.status pi <> "payment_failed" ->
  updatePaymentStatus env b w
  = (json 400 [("message", JStr "Payment intent status is not succeeded.")], w).
Proof.
  intros Ho Hpi Hs Hf. unfold_handlers. simpl. rewrite Ho, Hpi. simpl.
  destruct (String.eqb_spec (PaymentIntent.status pi) "succeeded"); [tauto|].
  destruct (String.eqb_spec (PaymentIntent.status pi) "payment_failed"); [tauto|].
  destruct w. reflexivity.
Qed.

(** What the handler does for an order that exists and an intent the
    gateway returns.  The caller's claimed status changes nothing in the
    response or the world.  'succeeded' leaves the order stored with
    paymentStatus 'paid' and, for an order with a populated user, hands the
    status-update mail for that user to sendEmail; 'payment_failed' leaves
    it stored with paymentStatus 'failed' and answers 400; every other
    intent status leaves the world untouched and answers 400. *)
Lemma updatePaymentStatus_follows_gateway env b w o pi :
  keyed_by_id (orders w) ->
  orders w !! PaymentStatusBody.orderId b = Some o ->
  paymentIntents_retrieve env (PaymentStatusBody.paymentIntentId b) = Normal pi ->
  let out := updatePaymentStatus env b w in
  (forall s,
     updatePaymentStatus env (PaymentStatusBody.set_status s b) w = out)
  /\ (PaymentIntent.status pi = "succeeded" ->
      (exists o',
         orders (snd out) !! PaymentStatusBody.orderId b = Some o'
         /\ Order.paymentStatus o' = "paid")
      /\ forall u, populate_user w o = Some u ->
           outbox (snd out) = outbox w ++ [paid_mail env o u])
  /\ (PaymentIntent.status pi = "payment_failed" ->
      (exists o',
         orders (snd out) !! PaymentStatusBody.orderId b = Some o'
         /\ Order.paymentStatus o' = "failed")
      /\ outbox (snd out) = outbox w
      /\ fst out = json 400 [("message", JStr "Payment failed.")])
  /\ (PaymentIntent.status pi <> "succeeded" ->
      PaymentIntent.status pi <> "payment_failed" ->
      snd out = w
      /\ fst out
         = json 400 [("message", JStr "Payment intent status is not succeeded.")]).
Proof.
  intros Hk Ho Hpi out.
  pose proof (Hk _ _ Ho) as Hid.
  split; [intros s; apply updatePaymentStatus_ignores_status|].
  split; [|split].
  - intros Hs.
    destruct (updatePaymentStatus_succeeded env b w o pi Ho Hpi Hs)
      as [Hos [_ [_ Hout]]].
    split.
    + exists (mark_paid o). unfold out. rewrite Hos, Hid.
      split; [apply lookup_insert_eq | reflexivity].
    + intros u Hu. unfold out. rewrite Hout, Hu. reflexivity.
  - intros Hs. unfold out.
    rewrite (updatePaymentStatus_failed env b w o pi Ho Hpi Hs). simpl.
    split; [|split; reflexivity].
    exists (Order.set_paymentStatus "failed" o). rewrite Hid.
    split; [apply lookup_insert_eq | reflexivity].
  - intros Hs Hf. unfold out.
    rewrite (updatePaymentStatus_other env b w o pi Ho Hpi Hs Hf).
    split; reflexivity.
Qed.

Lemma keyed_by_id_shop : keyed_by_id (orders Shop.world).
Proof.
  intros k o H. unfold Shop.world in H. simpl in H.
  apply lookup_insert_Some in H as [[<- <-]|[_ H]]; [reflexivity|].
  rewrite lookup_empty in H. discriminate.
Defined.

Example confirm_payment_of_an_order_with_user :
  let out := updatePaymentStatus Shop.env Shop.confirm_payment Shop.world in
  (exists o',
     orders (snd out) !! PaymentStatusBody.orderId Shop.confirm_payment = Some o'
     /\ Order.paymentStatus o' = "paid")
  /\ forall u, populate_user Shop.world Shop.earlier = Some u ->
       outbox (snd out) = outbox Shop.world ++ [paid_mail Shop.env Shop.earlier u].
Proof.
  apply (updatePaymentStatus_follows_gateway Shop.env Shop.confirm_payment
           Shop.world Shop.earlier
           (PaymentIntent.mk "pi_0" "pi_1_secret" "succeeded")
           keyed_by_id_shop);
    vm_compute; reflexivity.
Defined.

(** C5 (the code departs from it).  For an order without a populated user
    (createOrder places such orders) and a gateway status 'succeeded', the
    handler stores paymentStatus 'paid' and then throws on reading
    [order.user.email]: no status-update mail is handed to sendEmail and
    the request is answered 500 with the TypeError's message ('of
    undefined' for an order without a user, 'of null' for a reference to a
    user that is gone). *)
Theorem updatePaymentStatus_order_without_user env b w o pi :
  orders w !! PaymentStatusBody.orderId b = Some o ->
  populate_user w o = None ->
  paymentIntents_retrieve env (PaymentStatusBody.paymentIntentId b) = Normal pi ->
  PaymentIntent.status pi = "succeeded" ->
  let out := updatePaymentStatus env b w in
  orders (snd out) = <[Order._id o := mark_paid o]> (orders w)
  /\ outbox (snd out) = outbox w
  /\ fst out
     = json 500
         [("message",
           JStr (JsError.message
                   (match Order.user o with
                    | None => TypeError "email"
                    | Some _ => TypeError_null "email"
                    end)))].
Proof.
  intros Ho Hu Hpi Hs out. unfold out. unfold_handlers. simpl.
  rewrite Ho, Hpi. simpl. rewrite Hs, Hu. simpl.
  destruct (Order.user o); repeat split.
Qed.

Lemma updatePaymentStatus_order_without_user_witness :
  let placed := snd (createOrder Shop.env (Shop.cart Shop.two_shirts "card")
                       Shop.world) in
  let out := updatePaymentStatus Shop.env
               (PaymentStatusBody.mk (newObjectId Shop.env) "pi_1" "succeeded")
               placed in
  orders (snd out)
  = <[newObjectId Shop.env :=
        mark_paid (Order.set_paymentIntentId (Some "pi_1")
                     (new_order Shop.env (Shop.cart Shop.two_shirts "card") 3998))]>
      (orders placed)
  /\ outbox (snd out) = outbox placed
  /\ fst out = json 500 [("message", JStr (JsError.message (TypeError "email")))].
Proof.
  apply (updatePaymentStatus_order_without_user Shop.env
           (PaymentStatusBody.mk (newObjectId Shop.env) "pi_1" "succeeded")
           (snd (createOrder Shop.env (Shop.cart Shop.two_shirts "card")
                   Shop.world))
           (Order.set_paymentIntentId (Some "pi_1")
              (new_order Shop.env (Shop.cart Shop.two_shirts "card") 3998))
           (PaymentIntent.mk "pi_1" "pi_1_secret" "succeeded"));
    vm_compute; reflexivity.
Defined.

(** C6.  With the gateway reporting 'succeeded', a second run of
    updatePaymentStatus leaves the database exactly as the first run left
    it: the order is stored with paymentStatus 'paid' after one run and
    after two, and its status history is the one it had before the first
    run (the handler appends nothing to it). *)
Theorem updatePaymentStatus_idempotent env b w o pi :
  keyed_by_id (orders w) ->
  orders w !! PaymentStatusBody.orderId b = Some o ->
  paymentIntents_retrieve env (PaymentStatusBody.paymentIntentId b) = Normal pi ->
  PaymentIntent.status pi = "succeeded" ->
  let w1 := snd (updatePaymentStatus env b w) in
  let w2 := snd (updatePaymentStatus env b w1) in
  orders w2 = orders w1
  /\ products w2 = products w1
  /\ users w2 = users w1
  /\ exists o1,
       orders w1 !! PaymentStatusBody.orderId b = Some o1
       /\ orders w2 !! PaymentStatusBody.orderId b = Some o1
       /\ Order.paymentStatus o1 = "paid"
       /\ Order.statusHistory o1 = Order.statusHistory o.
Proof.
  intros Hk Ho Hpi Hs w1 w2.
  pose proof (Hk _ _ Ho) as Hid.
  destruct (updatePaymentStatus_succeeded env b w o pi Ho Hpi Hs)
    as [Hos1 [Hps1 [Hus1 _]]].
  fold w1 in Hos1, Hps1, Hus1.
  assert (Ho1 : orders w1 !! PaymentStatusBody.orderId b = Some (mark_paid o)).
  { rewrite Hos1, Hid. apply lookup_insert_eq. }
  destruct (updatePaymentStatus_succeeded env b w1 (mark_paid o) pi Ho1 Hpi Hs)
    as [Hos2 [Hps2 [Hus2 _]]].
  fold w2 in Hos2, Hps2, Hus2.
  assert (Heq : orders w2 = orders w1).
  { rewrite Hos2, mark_paid_idempotent. simpl. rewrite Hos1.
    apply insert_insert_eq. }
  split; [exact Heq|]. split; [exact Hps2|]. split; [exact Hus2|].
  exists (mark_paid o). split; [exact Ho1|].
  split; [rewrite Heq; exact Ho1|]. split; reflexivity.
Qed.

Lemma updatePaymentStatus_idempotent_witness :
  let w1 := snd (updatePaymentStatus Shop.env Shop.confirm_payment Shop.world) in
  let w2 := snd (updatePaymentStatus Shop.env Shop.confirm_payment w1) in
  orders w2 = orders w1
  /\ products w2 = products w1
  /\ users w2 = users w1
  /\ exists o1,
       orders w1 !! PaymentStatusBody.orderId Shop.confirm_payment = Some o1
       /\ orders w2 !! PaymentStatusBody.orderId Shop.confirm_payment = Some o1
       /\ Order.paymentStatus o1 = "paid"
       /\ Order.statusHistory o1 = Order.statusHistory Shop.earlier.
Proof.
  apply (updatePaymentStatus_idempotent Shop.env Shop.confirm_payment
           Shop.world Shop.earlier
           (PaymentIntent.mk "pi_0" "pi_1_secret" "succeeded")
           keyed_by_id_shop);
    vm_compute; reflexivity.
Defined.

(** ** Mail failures *)

(** The admin status update answers 200 and keeps its write whether or not
    the mail goes out: its [sendEmail] call sits in a [try] of its own.
    The answer carries the updated order with its user and its products
    populated. *)
Lemma updateOrderStatus_mail_failure_nonfatal env orderId b w o :
  orders w !! orderId = Some o ->
  fst (updateOrderStatus env orderId b w)
  = json 200 [("message", JStr "Order status updated successfully");
              ("order",
               JDoc (with_status env b o) (populate_user w o)
                 (populate_items (products w) (Order.items o)).*2)]
  /\ orders (snd (updateOrderStatus env orderId b w))
     = <[Order._id o := with_status env b o]> (orders w)
  /\ products (snd (updateOrderStatus env orderId b w)) = products w.
Proof.
  intros Ho. unfold_handlers. unfold with_status, status_entry.
  simpl. rewrite Ho. simpl.
  split; [|split]; branches; reflexivity.
Qed.

(** C8 (the code departs from it).  In a card order whose payment intent
    was created, a failure of the mail transport lands in the catch that
    deletes the order: the request is answered 500 with the transport's
    error, no order is left under the new id, and the stock stays
    decremented. *)
Theorem createOrder_card_mail_failure_is_fatal env b w total pi sc tp render e :
  missing_details b = false ->
  validate_items (products w) (default [] (CreateOrderBody.items b)) 0
  = Normal (inr total) ->
  is_card (CreateOrderBody.paymentMethod b) = true ->
  paymentIntents_create env
    (Order.totalAmount (new_order env b total) * 100) (newObjectId env)
  = Normal pi ->
  CreateOrderBody.shippingCost b = Some sc ->
  CreateOrderBody.taxPrice b = Some tp ->
  emailTemplates env "orderConfirmation" = Some render ->
  sendMail env
    (Mail.mk (default "" (CreateOrderBody.customerEmail b)) "Order Confirmation"
       (render (Email.data (confirmation_mail env b total "Credit Card" sc tp))))
  = Thrown e ->
  let out := createOrder env b w in
  fst out = createOrder_catch env e
  /\ Response.status (fst out) = 500%nat
  /\ orders (snd out) !! newObjectId env = None
  /\ products (snd out)
     = update_stock (default [] (CreateOrderBody.items b)) (products w)
  /\ outbox (snd out)
     = outbox w ++ [confirmation_mail env b total "Credit Card" sc tp].
Proof.
  intros Hm Hv Hc Hpi Hsc Htp Ht He out. unfold out.
  unfold confirmation_mail, new_order in *. simpl in *.
  unfold_handlers. rewrite Hm. simpl. rewrite Hv, Hc. simpl.
  rewrite Hpi. simpl. rewrite Hsc, Htp in *. simpl in *. rewrite Ht. simpl.
  rewrite He. simpl.
  split; [reflexivity|]. split; [reflexivity|].
  split; [apply lookup_delete_eq|]. split; reflexivity.
Qed.

Lemma createOrder_card_mail_failure_is_fatal_witness :
  let b := Shop.cart Shop.two_shirts "card" in
  let out := createOrder Shop.env_smtp_down b Shop.world in
  fst out = createOrder_catch Shop.env_smtp_down Shop.smtp_down
  /\ Response.status (fst out) = 500%nat
  /\ orders (snd out) !! newObjectId Shop.env_smtp_down = None
  /\ products (snd out)
     = update_stock (default [] (CreateOrderBody.items b)) (products Shop.world)
  /\ outbox (snd out)
     = outbox Shop.world
       ++ [confirmation_mail Shop.env_smtp_down b 3998 "Credit Card" 200 100].
Proof.
  apply (createOrder_card_mail_failure_is_fatal Shop.env_smtp_down
           (Shop.cart Shop.two_shirts "card") Shop.world 3998
           (PaymentIntent.mk "pi_1" "pi_1_secret" "requires_payment_method")
           200 100 Shop.render Shop.smtp_down);
    vm_compute; reflexivity.
Defined.

(** The same transport failure in the other handlers: the cash-on-delivery
    order and the payment confirmation are answered 500 although their
    writes stay; the admin status update is answered 200. *)
Example mail_failure_in_each_handler :
  let cod := createOrder Shop.env_smtp_down (Shop.cart Shop.two_shirts "cod")
               Shop.world in
  let paid := updatePaymentStatus Shop.env_smtp_down Shop.confirm_payment
                Shop.world in
  let shipped := updateOrderStatus Shop.env_smtp_down "665f1c2ab3d4e5f6a7b8c001"
                   (StatusBody.mk "shipped" None) Shop.world in
  Response.status (fst cod) = 500%nat
  /\ Order.paymentStatus <$> orders (snd cod) !! newObjectId Shop.env_smtp_down
     = Some "pending"
  /\ Response.status (fst paid) = 500%nat
  /\ Order.paymentStatus <$> orders (snd paid) !! "665f1c2ab3d4e5f6a7b8c001"
     = Some "paid"
  /\ Response.status (fst shipped) = 200%nat
  /\ Order.status <$> orders (snd shipped) !! "665f1c2ab3d4e5f6a7b8c001"
     = Some (Some "shipped").
Proof. vm_compute. repeat split. Qed.

(** ** Login *)

Lemma login_user_not_found env w email password :
  email <> "" -> password <> "" ->
  emailRegex_test email = true ->
  findOne_by_email w (toLowerCase email) = None ->
  login env (credentials email password) w
  = (json 400 [("message", JStr "Invalid email or password");
               ("error", JStr "USER_NOT_FOUND")], w).
Proof.
  intros He Hp Hr Hf. unfold_handlers. simpl.
  destruct (String.eqb_spec email ""); [tauto|].
  destruct (String.eqb_spec password ""); [tauto|]. simpl.
  rewrite Hr. simpl. rewrite Hf. destruct w. reflexivity.
Qed.

Lemma login_invalid_password env w email password user :
  email <> "" -> password <> "" ->
  emailRegex_test email = true ->
  findOne_by_email w (toLowerCase email) = Some user ->
  bcrypt_compare env password (User.password user) = Normal false ->
  login env (credentials email password) w
  = (json 400 [("message", JStr "Invalid email or password");
               ("error", JStr "INVALID_PASSWORD")], w).
Proof.
  intros He Hp Hr Hf Hc. unfold_handlers. simpl.
  destruct (String.eqb_spec email ""); [tauto|].
  destruct (String.eqb_spec password ""); [tauto|]. simpl.
  rewrite Hr. simpl. rewrite Hf. simpl. rewrite Hc. destruct w. reflexivity.
Qed.

(** C7 (the code departs from it).  A login with an unknown email and a
    login with a known email and a wrong password are both answered 400
    with the message 'Invalid email or password', but the JSON body sent to
    the client also carries the code, USER_NOT_FOUND in one case and
    INVALID_PASSWORD in the other: the two responses differ, so the client
    can tell the two failures apart. *)
Theorem login_failures_differ_in_response env w email1 password1 email2 password2 user :
  email1 <> "" -> password1 <> "" ->
  emailRegex_test email1 = true ->
  findOne_by_email w (toLowerCase email1) = None ->
  email2 <> "" -> password2 <> "" ->
  emailRegex_test email2 = true ->
  findOne_by_email w (toLowerCase email2) = Some user ->
  bcrypt_compare env password2 (User.password user) = Normal false ->
  let unknown := fst (login env (credentials email1 password1) w) in
  let wrong := fst (login env (credentials email2 password2) w) in
  Response.status unknown = 400%nat
  /\ Response.status wrong = 400%nat
  /\ field "message" (Response.body unknown)
     = Some (JStr "Invalid email or password")
  /\ field "message" (Response.body wrong)
     = Some (JStr "Invalid email or password")
  /\ field "error" (Response.body unknown) = Some (JStr "USER_NOT_FOUND")
  /\ field "error" (Response.body wrong) = Some (JStr "INVALID_PASSWORD")
  /\ unknown <> wrong.
Proof.
  intros He1 Hp1 Hr1 Hf1 He2 Hp2 Hr2 Hf2 Hc unknown wrong.
  unfold unknown, wrong.
  rewrite (login_user_not_found env w email1 password1 He1 Hp1 Hr1 Hf1).
  rewrite (login_invalid_password env w email2 password2 user He2 Hp2 Hr2 Hf2 Hc).
  simpl. repeat split. discriminate.
Qed.

Lemma login_failures_differ_in_response_witness :
  let unknown :=
    fst (login Shop.env (credentials "bob@example.com" "hunter2") Shop.world) in
  let wrong :=
    fst (login Shop.env (credentials "Ann@Example.com" "letmein") Shop.world) in
  Response.status unknown = 400%nat
  /\ Response.status wrong = 400%nat
  /\ field "message" (Response.body unknown)
     = Some (JStr "Invalid email or password")
  /\ field "message" (Response.body wrong)
     = Some (JStr "Invalid email or password")
  /\ field "error" (Response.body unknown) = Some (JStr "USER_NOT_FOUND")
  /\ field "error" (Response.body wrong) = Some (JStr "INVALID_PASSWORD")
  /\ unknown <> wrong.
Proof.
  apply (login_failures_differ_in_response Shop.env Shop.world
           "bob@example.com" "hunter2" "Ann@Example.com" "letmein" Shop.ann);
    try discriminate; vm_compute; reflexivity.
Defined.

Example login_with_the_right_password :
  Response.status
    (fst (login Shop.env (credentials "Ann@Example.com" "hunter2") Shop.world))
  = 200%nat.
Proof. vm_compute. reflexivity. Qed.

(** ** Embedded prices *)

Lemma stored_orders_listed w k o :
  orders w !! k = Some o -> In o (find_orders_newest_first w).
Proof.
  intros Ho. apply list_elem_of_In. unfold find_orders_newest_first.
  rewrite merge_sort_Permutation.
  apply list_elem_of_fmap. exists (k, o). split; [reflexivity|].
  apply elem_of_map_to_list. exact Ho.
Qed.

Lemma listed_orders_stored w o :
  In o (find_orders_newest_first w) -> exists k, orders w !! k = Some o.
Proof.
  intros Hin. apply list_elem_of_In in Hin.
  unfold find_orders_newest_first in Hin.
  rewrite merge_sort_Permutation in Hin.
  apply list_elem_of_fmap in Hin as [[k o'] [-> Hin]].
  exists k. apply elem_of_map_to_list. exact Hin.
Qed.

(** The validation loop and the stock loop read the product and the
    quantity of a line, never its unit price. *)
Lemma validate_items_reprice ps f items acc :
  validate_items ps (reprice f items) acc = validate_items ps items acc.
Proof.
  revert acc. induction items as [|item rest IH]; intros acc; [reflexivity|].
  simpl. destruct (findById "Product" ps (Item.product item)) as [[product|]|e];
    [|reflexivity|reflexivity].
  destruct (Product.stock product <? Item.quantity item); [reflexivity|].
  apply IH.
Qed.

Lemma update_stock_reprice f items ps :
  update_stock (reprice f items) ps = update_stock items ps.
Proof.
  revert ps. induction items as [|item rest IH]; intros ps; [reflexivity|].
  simpl. apply IH.
Qed.

Lemma missing_details_reprice f items b :
  CreateOrderBody.items b = Some items ->
  missing_details (with_items (reprice f items) b) = missing_details b.
Proof.
  intros Hi. unfold missing_details. simpl. rewrite Hi. simpl.
  destruct items; reflexivity.
Qed.

Lemma alter_fresh {A : Type} (g : A -> A) (m : gmap string A) k :
  m !! k = None -> alter g k m = m.
Proof.
  intros H. apply map_eq. intros i.
  destruct (decide (i = k)) as [->|Hne].
  - rewrite lookup_alter_eq, H. reflexivity.
  - rewrite lookup_alter_ne by congruence. reflexivity.
Qed.

(** A request that differs in the unit prices of its lines is answered the
    same and leaves the same world, but for the lines of the order it
    stores. *)
Lemma createOrder_reprice env b w items f :
  CreateOrderBody.items b = Some items ->
  orders w !! newObjectId env = None ->
  createOrder env (with_items (reprice f items) b) w
  = (fst (createOrder env b w),
     set_orders
       (alter (order_with_items (reprice f items)) (newObjectId env)
          (orders (snd (createOrder env b w))))
       (snd (createOrder env b w))).
Proof.
  intros Hi Hfresh.
  pose proof (alter_fresh (order_with_items (reprice f items)) _ _ Hfresh)
    as Ha.
  pose proof (missing_details_reprice f items b Hi) as Hm.
  pose proof (validate_items_reprice (products w) f items 0) as Hv.
  pose proof (update_stock_reprice f items (products w)) as Hs.
  destruct b as [its sa ta cn ce pm sc tp da]. simpl in Hi. subst its.
  unfold with_items in *.
  cbn [CreateOrderBody.items CreateOrderBody.shippingAddress
       CreateOrderBody.totalAmount CreateOrderBody.customerName
       CreateOrderBody.customerEmail CreateOrderBody.paymentMethod
       CreateOrderBody.shippingCost CreateOrderBody.taxPrice
       CreateOrderBody.discountAmount] in *.
  unfold createOrder, createOrder_try. rewrite Hm. clear Hm.
  destruct (missing_details _);
    [simpl; unfold set_orders; rewrite Ha; destruct w; reflexivity|].
  unfold_handlers. simpl. rewrite Hv.
  destruct (validate_items (products w) items 0) as [[r|total]|e];
    [simpl; unfold set_orders; rewrite Ha; destruct w; reflexivity|
    |simpl; unfold set_orders; rewrite Ha; destruct w; reflexivity].
  simpl. rewrite Hs.
  branches; unfold push_outbox, set_orders, set_products; simpl; f_equal;
    match goal with
    | |- mkWorld _ ?os _ _ = mkWorld _ ?os' _ _ =>
        cut (os = os'); [intros ->; reflexivity|]
    end;
    apply map_eq; intros k;
    destruct (decide (k = newObjectId env)) as [->|Hne];
    simplify_map_eq; reflexivity.
Qed.

(** The listing reads the name and the images of a populated product,
    never its price. *)
Lemma transform_items_price_change ps ps' items :
  price_change ps ps' ->
  transform_items ps' items = transform_items ps items.
Proof.
  intros Hc. induction items as [|item rest IH]; [reflexivity|].
  cbn [transform_items]. rewrite IH. unfold transform_item.
  specialize (Hc (Item.product item)).
  destruct (ps !! Item.product item) as [p|],
           (ps' !! Item.product item) as [p'|]; try contradiction;
    [|reflexivity].
  destruct Hc as [Hn [_ Himg]]. rewrite Hn, Himg. reflexivity.
Qed.

Lemma transform_orders_price_change w ps' os :
  price_change (products w) ps' ->
  transform_orders (set_products ps' w) os = transform_orders w os.
Proof.
  intros Hc. induction os as [|o rest IH]; [reflexivity|].
  cbn [transform_orders]. rewrite IH. unfold transform_order.
  cbn [products set_products].
  rewrite (transform_items_price_change _ _ _ Hc). reflexivity.
Qed.

(** So do the lines of the status-update mail. *)
Lemma status_lines_price_change ps ps' items :
  price_change ps ps' ->
  status_lines ps' items = status_lines ps items.
Proof.
  intros Hc. induction items as [|item rest IH]; [reflexivity|].
  cbn [status_lines]. rewrite IH.
  specialize (Hc (Item.product item)).
  destruct (ps !! Item.product item) as [p|],
           (ps' !! Item.product item) as [p'|]; try contradiction;
    [|reflexivity].
  destruct Hc as [Hn _]. rewrite Hn. reflexivity.
Qed.

(** A new price for one product is such a change. *)
Lemma price_change_set_price pid v (ps : gmap string Product.t) :
  price_change ps (alter (Product.set_price v) pid ps).
Proof.
  intros k. destruct (decide (k = pid)) as [->|Hne].
  - rewrite lookup_alter_eq. destruct (ps !! pid); simpl; repeat split.
  - rewrite lookup_alter_ne by congruence.
    destruct (ps !! k); simpl; repeat split.
Qed.

(** Each line of the listing is priced by the item the order embeds. *)
Lemma transform_items_embedded ps items views :
  transform_items ps items = Normal views ->
  Forall2 (fun item view =>
             ItemView.price view = Item.price item
             /\ ItemView.quantity view = Item.quantity item
             /\ ItemView.total view = Item.price item * Item.quantity item)
          items views.
Proof.
  revert views. induction items as [|item rest IH]; intros views H; simpl in H.
  - inversion H. constructor.
  - unfold transform_item in H.
    destruct (ps !! Item.product item) as [product|]; [|discriminate].
    destruct (transform_items ps rest) as [vs|]; [|discriminate].
    inversion H. constructor; [repeat split | apply IH; reflexivity].
Qed.

Lemma transform_orders_embedded w os views :
  transform_orders w os = Normal views ->
  Forall2 (fun o view =>
             OrderView._id view = Order._id o
             /\ OrderView.totalAmount view = Order.totalAmount o
             /\ Forall2 (fun item line =>
                           ItemView.price line = Item.price item
                           /\ ItemView.quantity line = Item.quantity item
                           /\ ItemView.total line
                              = Item.price item * Item.quantity item)
                        (Order.items o) (OrderView.items view))
          os views.
Proof.
  revert views. induction os as [|o rest IH]; intros views H; simpl in H.
  - inversion H. constructor.
  - unfold transform_order in H.
    destruct (transform_items (products w) (Order.items o)) as [lines|] eqn:Hl;
      [|discriminate].
    destruct (transform_orders w rest) as [vs|]; [|discriminate].
    inversion H. constructor; [|apply IH; reflexivity].
    simpl. split; [reflexivity|]. split; [reflexivity|].
    eapply transform_items_embedded. exact Hl.
Qed.

(** The payment confirmation and the admin status update write neither the
    lines nor the total of a stored order. *)
Lemma updatePaymentStatus_keeps_lines env b w k o :
  keyed_by_id (orders w) ->
  orders w !! k = Some o ->
  exists o',
    orders (snd (updatePaymentStatus env b w)) !! k = Some o'
    /\ Order.items o' = Order.items o
    /\ Order.totalAmount o' = Order.totalAmount o.
Proof.
  intros Hk Ho. unfold_handlers. simpl.
  destruct (orders w !! PaymentStatusBody.orderId b) as [o1|] eqn:Ho1;
    [|destruct (isValidObjectId _); simpl; eauto].
  pose proof (Hk _ _ Ho1) as Hid. simpl.
  destruct (decide (k = PaymentStatusBody.orderId b)) as [->|Hne].
  - assert (o1 = o) by congruence. subst o1.
    branches; simpl; rewrite ?Hid, ?lookup_insert_eq; eauto.
  - branches; simpl; rewrite ?Hid, ?lookup_insert_ne by congruence; eauto.
Qed.

Lemma updateOrderStatus_keeps_lines env orderId b w k o :
  keyed_by_id (orders w) ->
  orders w !! k = Some o ->
  exists o',
    orders (snd (updateOrderStatus env orderId b w)) !! k = Some o'
    /\ Order.items o' = Order.items o
    /\ Order.totalAmount o' = Order.totalAmount o.
Proof.
  intros Hk Ho.
  destruct (orders w !! orderId) as [o1|] eqn:Ho1.
  - destruct (updateOrderStatus_mail_failure_nonfatal env orderId b w o1 Ho1)
      as [_ [Hos _]].
    rewrite Hos. pose proof (Hk _ _ Ho1) as Hid. rewrite Hid.
    destruct (decide (k = orderId)) as [->|Hne].
    + assert (o1 = o) by congruence. subst o1.
      rewrite lookup_insert_eq. eexists. repeat split.
    + rewrite lookup_insert_ne by congruence. eauto.
  - unfold_handlers. simpl. rewrite Ho1.
    destruct (isValidObjectId orderId); simpl; eauto.
Qed.

(** C9, as amended.  The order that createOrder stores embeds the lines of
    the request as they came, unit prices included: the embedded price of
    a line is the price the client sent, and a request that differs only
    in these prices stores the same order (same total, taken from the
    catalog) with the other prices embedded.  Neither the embedded prices
    nor the total follow the catalog afterwards: after any later change of
    catalog prices the admin listing is the same, the order keeps its lines
    and its total when the payment confirmation or the admin status update
    write it again, and the status update mails the same; the listing shows
    for each line the embedded price and that price times the quantity, and
    for the order its stored total. *)
Theorem createOrder_embeds_request_prices env b w o :
  keyed_by_id (orders w) ->
  orders w !! newObjectId env = None ->
  orders (snd (createOrder env b w)) !! newObjectId env = Some o ->
  let items := default [] (CreateOrderBody.items b) in
  let w1 := snd (createOrder env b w) in
  Order.items o = items
  /\ (forall f,
        orders (snd (createOrder env (with_items (reprice f items) b) w))
          !! newObjectId env
        = Some (order_with_items (reprice f items) o))
  /\ (forall ps',
        price_change (products w1) ps' ->
        let w2 := set_products ps' w1 in
        getAllOrders w2 = getAllOrders w1
        /\ (forall env' pb,
              exists o2,
                orders (snd (updatePaymentStatus env' pb w2)) !! newObjectId env
                = Some o2
                /\ Order.items o2 = Order.items o
                /\ Order.totalAmount o2 = Order.totalAmount o)
        /\ (forall env' orderId sb,
              exists o2,
                orders (snd (updateOrderStatus env' orderId sb w2))
                  !! newObjectId env
                = Some o2
                /\ Order.items o2 = Order.items o
                /\ Order.totalAmount o2 = Order.totalAmount o)
        /\ (forall env' orderId sb,
              outbox (snd (updateOrderStatus env' orderId sb w2))
              = outbox (snd (updateOrderStatus env' orderId sb w1))))
  /\ (forall views,
        getAllOrders w1 = OrdersJson views ->
        exists view,
          In view views
          /\ OrderView._id view = Order._id o
          /\ OrderView.totalAmount view = Order.totalAmount o
          /\ Forall2 (fun item line =>
                        ItemView.price line = Item.price item
                        /\ ItemView.quantity line = Item.quantity item
                        /\ ItemView.total line
                           = Item.price item * Item.quantity item)
                     (Order.items o) (OrderView.items view)).
Proof.
  intros Hk Hfresh Hp items w1.
  destruct (createOrder_persisted env b w o Hfresh Hp)
    as [Hm [items' [total [Hi [Hv [Hitems Htotal]]]]]].
  assert (items = items') as <- by (unfold items; rewrite Hi; reflexivity).
  pose proof (createOrder_keyed_by_id env b w Hk) as Hk1. fold w1 in Hk1.
  split; [exact Hitems|]. split; [|split].
  - intros f. rewrite (createOrder_reprice env b w items f Hi Hfresh).
    cbn [snd orders set_orders]. rewrite lookup_alter_eq, Hp. reflexivity.
  - intros ps' Hc w2. split; [|split; [|split]].
    + unfold getAllOrders, w2.
      rewrite (transform_orders_price_change w1 ps' _ Hc). reflexivity.
    + intros env' pb.
      exact (updatePaymentStatus_keeps_lines env' pb w2 _ o Hk1 Hp).
    + intros env' orderId sb.
      exact (updateOrderStatus_keeps_lines env' orderId sb w2 _ o Hk1 Hp).
    + intros env' orderId sb. unfold w2. unfold_handlers. simpl.
      destruct (orders w1 !! orderId) as [o'|]; simpl;
        [|destruct (isValidObjectId orderId); reflexivity].
      rewrite (status_lines_price_change _ _ (Order.items o') Hc).
      destruct (status_lines (products w1) (Order.items o')); simpl;
        [|reflexivity].
      branches; reflexivity.
  - intros views Hviews. unfold getAllOrders in Hviews.
    destruct (transform_orders w1 (find_orders_newest_first w1)) as [vs|] eqn:Ht;
      [|discriminate].
    injection Hviews as <-.
    pose proof (transform_orders_embedded _ _ _ Ht) as Hall.
    pose proof (stored_orders_listed w1 _ o Hp) as Hin.
    clear Ht. induction Hall as [|o' view os' vs' Hhd _ IH]; [destruct Hin|].
    destruct Hin as [->|Hin].
    + exists view. split; [left; reflexivity|exact Hhd].
    + destruct (IH Hin) as [view' [Hin' Hrest]].
      exists view'. split; [right; exact Hin'|exact Hrest].
Qed.

(** Two shirts ordered at a unit price of 1, and the same order with the
    lines priced at 1999. *)
Lemma createOrder_embeds_request_prices_witness :
  let b := Shop.cart Shop.two_shirts "cod" in
  let o := new_order Shop.env b 3998 in
  Order.items o = Shop.two_shirts
  /\ orders (snd (createOrder Shop.env
                    (with_items (reprice (fun _ => 1999) Shop.two_shirts) b)
                    Shop.world))
       !! newObjectId Shop.env
     = Some (order_with_items (reprice (fun _ => 1999) Shop.two_shirts) o).
Proof.
  pose proof (createOrder_embeds_request_prices Shop.env
                (Shop.cart Shop.two_shirts "cod") Shop.world
                (new_order Shop.env (Shop.cart Shop.two_shirts "cod") 3998)
                keyed_by_id_shop)
    as H.
  destruct H as [Hitems [Hreprice _]];
    [vm_compute; reflexivity | vm_compute; reflexivity |].
  split; [exact Hitems | exact (Hreprice (fun _ => 1999))].
Defined.

(** C9, as stated, fails: the embedded price is not a snapshot of the
    product's price, and the stored total is not computed from it.  Two
    shirts ordered with a unit price of 1 while the catalog says 1999 are
    stored with the embedded price 1 and the total 4248 = 1999 * 2 + 200 +
    100 - 50, where the embedded price with the same costs gives 252. *)
Lemma createOrder_embeds_request_prices_counterexample :
  let sold := snd (createOrder Shop.env (Shop.cart Shop.two_shirts "cod")
                     Shop.world) in
  exists o,
    orders sold !! newObjectId Shop.env = Some o
    /\ Product.price <$> products Shop.world !! "665f1c2ab3d4e5f6a7b8c0a1"
       = Some 1999
    /\ map Item.price (Order.items o) = [1]
    /\ Order.totalAmount o = 4248
    /\ embedded_total (Order.items o) + 200 + 100 - 50 = 252.
Proof.
  eexists. split; [vm_compute; reflexivity|].
  split; [vm_compute; reflexivity|]. repeat split.
Qed.

Example price_change_leaves_listing :
  let sold := snd (createOrder Shop.env (Shop.cart Shop.two_shirts "cod")
                     Shop.world) in
  getAllOrders (set_catalog_price "665f1c2ab3d4e5f6a7b8c0a1" 2500 sold)
  = getAllOrders sold
  /\ Product.price
       <$> products (set_catalog_price "665f1c2ab3d4e5f6a7b8c0a1" 2500 sold)
           !! "665f1c2ab3d4e5f6a7b8c0a1"
     = Some 2500.
Proof. vm_compute. repeat split. Qed.

(** The answer of the admin status update carries the populated product
    documents, and with them the current catalog price next to the
    embedded one. *)
Example status_update_answer_shows_current_price :
  let sold := snd (createOrder Shop.env (Shop.cart Shop.two_shirts "cod")
                     Shop.world) in
  let later := set_catalog_price "665f1c2ab3d4e5f6a7b8c0a1" 2500 sold in
  let answer w :=
    field "order"
      (Response.body
         (fst (updateOrderStatus Shop.env (newObjectId Shop.env)
                 (StatusBody.mk "shipped" None) w))) in
  exists o,
    map Item.price (Order.items o) = [1]
    /\ answer sold
       = Some (JDoc o None [Some (Product.mk "Shirt" 1999 3 ["shirt.png"])])
    /\ answer later
       = Some (JDoc o None [Some (Product.mk "Shirt" 2500 3 ["shirt.png"])]).
Proof.
  vm_compute. eexists. split; [|split; reflexivity]. reflexivity.
Qed.



(** * Further properties of the handlers *)

(** ** createOrder *)

Lemma createOrder_other_orders env b w k :
  k <> newObjectId env ->
  orders (snd (createOrder env b w)) !! k = orders w !! k.
Proof.
  intros Hk. unfold_handlers.
  branches; simpl; simplify_map_eq; reflexivity.
Qed.

Lemma createOrder_new_order_has_no_user env b w o :
  orders w !! newObjectId env = None ->
  orders (snd (createOrder env b w)) !! newObjectId env = Some o ->
  Order.user o = None.
Proof.
  intros Hfresh. unfold_handlers.
  branches; simpl; intros Hl; simplify_map_eq; reflexivity.
Qed.

(** X1.  createOrder writes nothing but the order under the new id and the
    stock of the products its cart names: the users, every other order and
    every other product are as before, whatever the outcome. *)
Theorem createOrder_frame env b w :
  let w' := snd (createOrder env b w) in
  users w' = users w
  /\ (forall k, k <> newObjectId env -> orders w' !! k = orders w !! k)
  /\ (forall pid,
        ~ In pid (map Item.product (default [] (CreateOrderBody.items b))) ->
        products w' !! pid = products w !! pid).
Proof.
  intros w'. split; [|split].
  - unfold w'. unfold_handlers. branches; reflexivity.
  - intros k Hk. apply createOrder_other_orders. exact Hk.
  - intros pid Hn. unfold w'. rewrite createOrder_products.
    destruct (missing_details b); [reflexivity|].
    destruct (validate_items _ _ _) as [[r|total]|e];
      [reflexivity| |reflexivity].
    rewrite update_stock_lookup, (purchased_not_in_cart pid _ Hn).
    destruct (products w !! pid); simpl; [|reflexivity].
    rewrite inc_stock_0. reflexivity.
Qed.

(** X2.  A request that leaves out shippingCost or taxPrice is never
    answered 201 and no confirmation mail is requested for it: the total
    tolerates the missing number, but building the mail data throws.  For a
    valid cash-on-delivery cart the answer is 500 although the order stays
    stored and the stock decremented. *)
Theorem createOrder_without_shipping_or_tax env b w :
  CreateOrderBody.shippingCost b = None \/ CreateOrderBody.taxPrice b = None ->
  let out := createOrder env b w in
  Response.status (fst out) <> 201%nat
  /\ outbox (snd out) = outbox w
  /\ (missing_details b = false ->
      is_card (CreateOrderBody.paymentMethod b) = false ->
      forall total,
        validate_items (products w) (default [] (CreateOrderBody.items b)) 0
        = Normal (inr total) ->
        fst out = createOrder_catch env (TypeError "toFixed")
        /\ orders (snd out)
           = <[newObjectId env := new_order env b total]> (orders w)
        /\ products (snd out)
           = update_stock (default [] (CreateOrderBody.items b)) (products w)).
Proof.
  intros Hnone out. unfold out. split; [|split].
  - unfold_handlers.
    destruct (missing_details b); [simpl; discriminate|]. simpl.
    destruct (validate_items _ _ _) as [[r|total]|e] eqn:Hv;
      [simpl; apply validate_items_rejects_400 in Hv; congruence|
      |simpl; destruct (development env); discriminate].
    destruct Hnone as [H|H]; rewrite H; branches; simpl;
      destruct (development env); discriminate.
  - unfold_handlers.
    destruct (missing_details b); [reflexivity|]. simpl.
    destruct (validate_items _ _ _) as [[r|total]|e];
      [reflexivity| |reflexivity].
    destruct Hnone as [H|H]; rewrite H; branches; reflexivity.
  - intros Hm Hc total Hv. unfold_handlers. unfold new_order.
    rewrite Hm. simpl. rewrite Hv, Hc. simpl.
    destruct Hnone as [H|H]; rewrite H; branches; repeat split.
Qed.

Lemma createOrder_without_shipping_or_tax_witness :
  let b := CreateOrderBody.mk (Some Shop.two_shirts) (Some Shop.home) (Some 1)
             (Some "Ann") (Some "ann@example.com") (Some "cod") None (Some 100)
             None in
  let out := createOrder Shop.env b Shop.world in
  Response.status (fst out) <> 201%nat
  /\ outbox (snd out) = outbox Shop.world
  /\ (missing_details b = false ->
      is_card (CreateOrderBody.paymentMethod b) = false ->
      forall total,
        validate_items (products Shop.world)
          (default [] (CreateOrderBody.items b)) 0 = Normal (inr total) ->
        fst out = createOrder_catch Shop.env (TypeError "toFixed")
        /\ orders (snd out)
           = <[newObjectId Shop.env := new_order Shop.env b total]>
               (orders Shop.world)
        /\ products (snd out)
           = update_stock (default [] (CreateOrderBody.items b))
               (products Shop.world)).
Proof.
  apply (createOrder_without_shipping_or_tax Shop.env
           (CreateOrderBody.mk (Some Shop.two_shirts) (Some Shop.home) (Some 1)
              (Some "Ann") (Some "ann@example.com") (Some "cod") None
              (Some 100) None)
           Shop.world).
  left. reflexivity.
Defined.



(** X4.  When no product is named by two lines of the cart, createOrder
    keeps every stock count non-negative: the loop only lets through
    quantities within the stock it then subtracts. *)
Theorem createOrder_keeps_stock_nonnegative env b w :
  NoDup (map Item.product (default [] (CreateOrderBody.items b))) ->
  (forall pid product, products w !! pid = Some product ->
     0 <= Product.stock product) ->
  forall pid product',
    products (snd (createOrder env b w)) !! pid = Some product' ->
    0 <= Product.stock product'.
Proof.
  intros Hnd Hpos pid product'. rewrite createOrder_products.
  destruct (missing_details b); [apply Hpos|].
  destruct (validate_items _ _ _) as [[r|total]|e] eqn:Hv;
    [apply Hpos| |apply Hpos].
  rewrite update_stock_lookup.
  destruct (products w !! pid) as [product|] eqn:Hp; simpl; [|discriminate].
  intros H. inversion H. subst product'. simpl.
  pose proof (Hpos _ _ Hp) as H0.
  destruct (in_dec string_dec pid
              (map Item.product (default [] (CreateOrderBody.items b))))
    as [Hin|Hn].
  - apply in_map_iff in Hin as [item [<- Hin]].
    rewrite (purchased_once item _ Hin Hnd).
    apply validate_items_valid in Hv. unfold valid_cart in Hv.
    rewrite Forall_forall in Hv.
    destruct (Hv item) as [p [Hp' Hq]]; [apply list_elem_of_In; exact Hin|].
    rewrite Hp in Hp'. inversion Hp'. subst p. lia.
  - rewrite (purchased_not_in_cart pid _ Hn). lia.
Qed.

Lemma createOrder_keeps_stock_nonnegative_witness :
  0 <= Product.stock (Product.mk "Shirt" 1999 3 ["shirt.png"]).
Proof.
  apply (createOrder_keeps_stock_nonnegative Shop.env
           (Shop.cart Shop.two_shirts "cod") Shop.world) with (pid := "665f1c2ab3d4e5f6a7b8c0a1").
  - simpl. constructor; [intros H; inversion H | constructor].
  - intros pid product H. unfold Shop.world in H. simpl in H.
    apply lookup_insert_Some in H as [[_ <-]|[_ H]]; [simpl; lia|].
    apply lookup_insert_Some in H as [[_ <-]|[_ H]]; [simpl; lia|].
    rewrite lookup_empty in H. discriminate.
  - vm_compute. reflexivity.
Defined.

(** Two lines naming the same product pass the per-line check together and
    take the stock below zero. *)
Example two_lines_of_one_product_oversell :
  let items := [Item.mk "665f1c2ab3d4e5f6a7b8c0a1" 3 1999 (Some "M"); Item.mk "665f1c2ab3d4e5f6a7b8c0a1" 3 1999 (Some "L")] in
  let out := createOrder Shop.env (Shop.cart items "cod") Shop.world in
  Response.status (fst out) = 201%nat
  /\ Product.stock <$> products (snd out) !! "665f1c2ab3d4e5f6a7b8c0a1" = Some (-1).
Proof. vm_compute. repeat split. Qed.

(** X5.  An order whose paymentMethod is not 'card' never involves the
    gateway: the outcome is the same whatever payment-intent creation would
    do; when it is answered 201 the order is stored 'pending' without an
    intent id and the one mail requested is the cash-on-delivery
    confirmation. *)
Theorem createOrder_cod_ignores_gateway env b w :
  is_card (CreateOrderBody.paymentMethod b) = false ->
  (forall f, createOrder (with_paymentIntents_create f env) b w
             = createOrder env b w)
  /\ (Response.status (fst (createOrder env b w)) = 201%nat ->
      exists total sc tp,
        CreateOrderBody.shippingCost b = Some sc
        /\ CreateOrderBody.taxPrice b = Some tp
        /\ orders (snd (createOrder env b w))
           = <[newObjectId env := new_order env b total]> (orders w)
        /\ Order.paymentIntentId (new_order env b total) = None
        /\ Order.paymentStatus (new_order env b total) = "pending"
        /\ outbox (snd (createOrder env b w))
           = outbox w ++ [confirmation_mail env b total "Cash on Delivery" sc tp]).
Proof.
  intros Hc. split.
  - intros f. unfold_handlers.
    destruct (missing_details b); [reflexivity|]. simpl.
    destruct (validate_items _ _ _) as [[r|total]|e];
      [reflexivity| |reflexivity].
    rewrite Hc. reflexivity.
  - intros H201.
    destruct (createOrder_201 env b w H201) as [Hm [total Hv]].
    exists total. revert H201.
    unfold_handlers. unfold confirmation_mail, new_order.
    rewrite Hm. simpl. rewrite Hv, Hc. simpl.
    destruct (CreateOrderBody.shippingCost b) as [sc|]; simpl;
      [|destruct (development env); discriminate].
    destruct (CreateOrderBody.taxPrice b) as [tp|]; simpl;
      [|destruct (development env); discriminate].
    destruct (emailTemplates env "orderConfirmation") as [render|]; simpl;
      [|destruct (development env); discriminate].
    destruct (sendMail env _) as [[]|e]; simpl;
      [|destruct (development env); discriminate].
    intros _. exists sc, tp. repeat split.
Qed.

Lemma createOrder_cod_ignores_gateway_witness :
  createOrder
    (with_paymentIntents_create (fun _ _ => Thrown Shop.card_declined) Shop.env)
    (Shop.cart Shop.two_shirts "cod") Shop.world
  = createOrder Shop.env (Shop.cart Shop.two_shirts "cod") Shop.world.
Proof.
  apply (createOrder_cod_ignores_gateway Shop.env
           (Shop.cart Shop.two_shirts "cod") Shop.world).
  reflexivity.
Defined.

(** ** updatePaymentStatus *)

(** X6.  updatePaymentStatus never compares the intent it verifies with the
    intent the order was created with: whatever paymentIntentId the stored
    order carries, the response and the paymentStatus written are the same,
    so any intent the gateway reports as succeeded marks any order paid. *)
Theorem updatePaymentStatus_ignores_order_intent env b w o v :
  orders w !! PaymentStatusBody.orderId b = Some o ->
  Order._id o = PaymentStatusBody.orderId b ->
  let w_v := store_order (Order.set_paymentIntentId v o) w in
  fst (updatePaymentStatus env b w_v) = fst (updatePaymentStatus env b w)
  /\ Order.paymentStatus
       <$> orders (snd (updatePaymentStatus env b w_v))
           !! PaymentStatusBody.orderId b
     = Order.paymentStatus
         <$> orders (snd (updatePaymentStatus env b w))
             !! PaymentStatusBody.orderId b.
Proof.
  intros Ho Hid w_v. unfold w_v, store_order. unfold_handlers. simpl.
  rewrite Hid, lookup_insert_eq, Ho. simpl.
  unfold populate_user. simpl.
  destruct (paymentIntents_retrieve env _) as [pi|e]; simpl;
    [|split; [reflexivity|rewrite lookup_insert_eq, Ho; reflexivity]].
  destruct (String.eqb (PaymentIntent.status pi) "succeeded"); simpl.
  - destruct (Order.user o) as [uid|]; simpl.
    + destruct (users w !! uid) as [u|]; simpl;
        branches; simpl; rewrite Hid, !lookup_insert_eq; split; reflexivity.
    + rewrite Hid, !lookup_insert_eq. split; reflexivity.
  - destruct (String.eqb (PaymentIntent.status pi) "payment_failed"); simpl.
    + rewrite Hid, !lookup_insert_eq. split; reflexivity.
    + rewrite lookup_insert_eq, Ho. split; reflexivity.
Qed.

Lemma updatePaymentStatus_ignores_order_intent_witness :
  let w_v := store_order (Order.set_paymentIntentId (Some "pi_other") Shop.earlier)
               Shop.world in
  fst (updatePaymentStatus Shop.env Shop.confirm_payment w_v)
  = fst (updatePaymentStatus Shop.env Shop.confirm_payment Shop.world)
  /\ Order.paymentStatus
       <$> orders (snd (updatePaymentStatus Shop.env Shop.confirm_payment w_v))
           !! PaymentStatusBody.orderId Shop.confirm_payment
     = Order.paymentStatus
         <$> orders (snd (updatePaymentStatus Shop.env Shop.confirm_payment
                            Shop.world))
             !! PaymentStatusBody.orderId Shop.confirm_payment.
Proof.
  apply (updatePaymentStatus_ignores_order_intent Shop.env Shop.confirm_payment
           Shop.world Shop.earlier (Some "pi_other"));
    vm_compute; reflexivity.
Defined.

(** X7.  updatePaymentStatus writes to the addressed order only, and there
    only the two status fields: products, users and every other order are
    as before.  An order id under which nothing is stored is answered 404
    when it is a well-formed ObjectId and 500 when it is not (Order.findById
    throws), a gateway error 500 with its message, all with the world
    untouched. *)
Theorem updatePaymentStatus_frame env b w :
  keyed_by_id (orders w) ->
  let out := updatePaymentStatus env b w in
  products (snd out) = products w
  /\ users (snd out) = users w
  /\ (forall k, k <> PaymentStatusBody.orderId b ->
        orders (snd out) !! k = orders w !! k)
  /\ (forall o', orders (snd out) !! PaymentStatusBody.orderId b = Some o' ->
        exists o,
          orders w !! PaymentStatusBody.orderId b = Some o
          /\ Order.items o' = Order.items o
          /\ Order.totalAmount o' = Order.totalAmount o
          /\ Order.statusHistory o' = Order.statusHistory o
          /\ Order.status o' = Order.status o
          /\ Order.paymentIntentId o' = Order.paymentIntentId o)
  /\ (orders w !! PaymentStatusBody.orderId b = None ->
      snd out = w
      /\ (isValidObjectId (PaymentStatusBody.orderId b) = true ->
          fst out = json 404 [("message", JStr "Order not found.")])
      /\ (isValidObjectId (PaymentStatusBody.orderId b) = false ->
          Response.status (fst out) = 500%nat))
  /\ (forall e,
        is_Some (orders w !! PaymentStatusBody.orderId b) ->
        paymentIntents_retrieve env (PaymentStatusBody.paymentIntentId b)
        = Thrown e ->
        out = (json 500
                 [("message",
                   JStr (or_str (JsError.message e)
                           "Failed to update payment status."))], w)).
Proof.
  intros Hk out. unfold out.
  split; [unfold_handlers; branches; reflexivity|].
  split; [unfold_handlers; branches; reflexivity|].
  split.
  { intros k Hne. unfold_handlers. simpl.
    destruct (orders w !! PaymentStatusBody.orderId b) as [o|] eqn:Ho;
      [|destruct (isValidObjectId _); reflexivity].
    pose proof (Hk _ _ Ho) as Hid. simpl.
    branches; simpl; rewrite ?Hid, ?lookup_insert_ne by congruence;
      reflexivity. }
  split.
  { intros o'. unfold_handlers. simpl.
    destruct (orders w !! PaymentStatusBody.orderId b) as [o|] eqn:Ho;
      [|destruct (isValidObjectId _); simpl; rewrite Ho; discriminate].
    pose proof (Hk _ _ Ho) as Hid. simpl.
    branches; simpl; rewrite ?Hid, ?lookup_insert_eq, ?Ho;
      intros Hlook; injection Hlook as <-; exists o; repeat split. }
  split.
  { intros Ho. unfold_handlers. simpl. rewrite Ho.
    split; [destruct (isValidObjectId _); destruct w; reflexivity|].
    split; intros ->; reflexivity. }
  intros e [o Ho] He. unfold_handlers. simpl. rewrite Ho. simpl.
  rewrite He. destruct w. reflexivity.
Qed.

Lemma updatePaymentStatus_frame_witness :
  let out := updatePaymentStatus Shop.env Shop.confirm_payment Shop.world in
  products (snd out) = products Shop.world
  /\ users (snd out) = users Shop.world
  /\ (forall k, k <> PaymentStatusBody.orderId Shop.confirm_payment ->
        orders (snd out) !! k = orders Shop.world !! k).
Proof.
  pose proof (updatePaymentStatus_frame Shop.env Shop.confirm_payment
                Shop.world keyed_by_id_shop) as [Hp [Hu [Ho _]]].
  split; [exact Hp | split; [exact Hu | exact Ho]].
Defined.

(** ** updateOrderStatus *)

(** X8.  The status history is append-only: two admin updates in a row
    leave the earlier entries in place and add one entry each, in order;
    the current status is the last one set; the items, the total and the
    payment and order status of createOrder are untouched.  No value of
    [status] is refused. *)
Theorem updateOrderStatus_appends_history env orderId b1 b2 w o :
  keyed_by_id (orders w) ->
  orders w !! orderId = Some o ->
  let w1 := snd (updateOrderStatus env orderId b1 w) in
  let w2 := snd (updateOrderStatus env orderId b2 w1) in
  exists o2,
    orders w2 !! orderId = Some o2
    /\ Order.statusHistory o2
       = Order.statusHistory o ++ [status_entry env b1; status_entry env b2]
    /\ Order.status o2 = Some (StatusBody.status b2)
    /\ Order.items o2 = Order.items o
    /\ Order.totalAmount o2 = Order.totalAmount o
    /\ Order.paymentStatus o2 = Order.paymentStatus o
    /\ Order.orderStatus o2 = Order.orderStatus o.
Proof.
  intros Hk Ho w1 w2.
  pose proof (Hk _ _ Ho) as Hid.
  destruct (updateOrderStatus_mail_failure_nonfatal env orderId b1 w o Ho)
    as [_ [Hos1 _]].
  fold w1 in Hos1.
  assert (Ho1 : orders w1 !! orderId = Some (with_status env b1 o)).
  { rewrite Hos1, Hid. apply lookup_insert_eq. }
  destruct (updateOrderStatus_mail_failure_nonfatal env orderId b2 w1 _ Ho1)
    as [_ [Hos2 _]].
  fold w2 in Hos2.
  exists (with_status env b2 (with_status env b1 o)).
  split; [rewrite Hos2; simpl; rewrite Hid; apply lookup_insert_eq|].
  split; [simpl; rewrite <- app_assoc; reflexivity|].
  repeat split.
Qed.

Lemma updateOrderStatus_appends_history_witness :
  let b1 := StatusBody.mk "shipped" None in
  let b2 := StatusBody.mk "delivered" (Some "Left at the door") in
  let w1 := snd (updateOrderStatus Shop.env "665f1c2ab3d4e5f6a7b8c001" b1
                   Shop.world) in
  let w2 := snd (updateOrderStatus Shop.env "665f1c2ab3d4e5f6a7b8c001" b2 w1) in
  exists o2,
    orders w2 !! "665f1c2ab3d4e5f6a7b8c001" = Some o2
    /\ Order.statusHistory o2
       = Order.statusHistory Shop.earlier
         ++ [status_entry Shop.env b1; status_entry Shop.env b2]
    /\ Order.status o2 = Some (StatusBody.status b2)
    /\ Order.items o2 = Order.items Shop.earlier
    /\ Order.totalAmount o2 = Order.totalAmount Shop.earlier
    /\ Order.paymentStatus o2 = Order.paymentStatus Shop.earlier
    /\ Order.orderStatus o2 = Order.orderStatus Shop.earlier.
Proof.
  apply (updateOrderStatus_appends_history Shop.env "665f1c2ab3d4e5f6a7b8c001"
           (StatusBody.mk "shipped" None)
           (StatusBody.mk "delivered" (Some "Left at the door"))
           Shop.world Shop.earlier keyed_by_id_shop).
  vm_compute. reflexivity.
Defined.

(** ** The admin listing *)

Lemma transform_items_error ps items e :
  transform_items ps items = Thrown e -> e = TypeError_null "_id".
Proof.
  induction items as [|item rest IH]; simpl; [discriminate|].
  unfold transform_item.
  destruct (ps !! Item.product item); [|congruence].
  destruct (transform_items ps rest); [discriminate|].
  intros H. apply IH. congruence.
Qed.

Lemma transform_items_dangling ps items item :
  In item items -> ps !! Item.product item = None ->
  transform_items ps items = Thrown (TypeError_null "_id").
Proof.
  induction items as [|it rest IH]; intros Hin Hp; [destruct Hin|].
  simpl. unfold transform_item.
  destruct Hin as [->|Hin].
  - rewrite Hp. reflexivity.
  - destruct (ps !! Item.product it); [|reflexivity].
    rewrite (IH Hin Hp). reflexivity.
Qed.

Lemma transform_items_resolved ps items :
  (forall item, In item items -> is_Some (ps !! Item.product item)) ->
  exists views, transform_items ps items = Normal views.
Proof.
  induction items as [|item rest IH]; intros H; [eexists; reflexivity|].
  simpl. unfold transform_item.
  destruct (H item (or_introl eq_refl)) as [product ->].
  destruct IH as [views ->]; [intros it Hin; apply H; right; exact Hin|].
  eexists. reflexivity.
Qed.

Lemma transform_orders_error w os e :
  transform_orders w os = Thrown e -> e = TypeError_null "_id".
Proof.
  induction os as [|o rest IH]; simpl; [discriminate|].
  unfold transform_order.
  destruct (transform_items (products w) (Order.items o)) eqn:Hi.
  - destruct (transform_orders w rest); [discriminate|].
    intros H. apply IH. congruence.
  - intros H. apply transform_items_error in Hi. congruence.
Qed.

Lemma transform_orders_dangling w os o item :
  In o os -> In item (Order.items o) ->
  products w !! Item.product item = None ->
  exists e, transform_orders w os = Thrown e.
Proof.
  induction os as [|o' rest IH]; intros Hin Hitem Hp; [destruct Hin|].
  simpl. unfold transform_order.
  destruct Hin as [->|Hin].
  - rewrite (transform_items_dangling _ _ _ Hitem Hp). eauto.
  - destruct (transform_items (products w) (Order.items o')); [|eauto].
    destruct (IH Hin Hitem Hp) as [e ->]. eauto.
Qed.

Lemma transform_orders_resolved w os :
  (forall o item, In o os -> In item (Order.items o) ->
     is_Some (products w !! Item.product item)) ->
  exists views,
    transform_orders w os = Normal views
    /\ map OrderView._id views = map Order._id os
    /\ map OrderView.createdAt views = map Order.createdAt os
    /\ map OrderView.totalAmount views = map Order.totalAmount os.
Proof.
  induction os as [|o rest IH]; intros H; [exists []; repeat split|].
  simpl. unfold transform_order.
  destruct (transform_items_resolved (products w) (Order.items o))
    as [lines ->]; [intros item Hin; eapply H; [left; reflexivity|exact Hin]|].
  destruct IH as [views [-> [Hid [Hc Ht]]]];
    [intros o' item Hin; apply H; right; exact Hin|].
  eexists. split; [reflexivity|]. simpl. rewrite Hid, Hc, Ht. repeat split.
Qed.

#[local] Instance newer_first_total : Total newer_first.
Proof. intros a b. unfold newer_first. lia. Qed.

(** X9.  One order line whose product no longer exists makes the whole
    admin listing fail: the populated product is [null], reading its [_id]
    throws, and getAllOrders answers 500 with the TypeError's message
    ('Cannot read properties of null (reading '_id')'), for every order,
    not only for the one with the dangling line. *)
Theorem getAllOrders_fails_on_deleted_product w k o item :
  orders w !! k = Some o ->
  In item (Order.items o) ->
  products w !! Item.product item = None ->
  getAllOrders w = OrdersError 500 (JsError.message (TypeError_null "_id")).
Proof.
  intros Ho Hitem Hp. unfold getAllOrders.
  destruct (transform_orders_dangling w (find_orders_newest_first w) o item
              (stored_orders_listed w k o Ho) Hitem Hp) as [e He].
  rewrite He. apply transform_orders_error in He. subst e. reflexivity.
Qed.

Lemma getAllOrders_fails_on_deleted_product_witness :
  getAllOrders
    (set_products (delete "665f1c2ab3d4e5f6a7b8c0a1" (products Shop.world))
       Shop.world)
  = OrdersError 500 "Cannot read properties of null (reading '_id')".
Proof.
  apply (getAllOrders_fails_on_deleted_product
           (set_products
              (delete "665f1c2ab3d4e5f6a7b8c0a1" (products Shop.world))
              Shop.world)
           "665f1c2ab3d4e5f6a7b8c001" Shop.earlier
           (Item.mk "665f1c2ab3d4e5f6a7b8c0a1" 1 1999 None));
    [vm_compute; reflexivity | left; reflexivity | vm_compute; reflexivity].
Defined.

(** X10.  When every line of every stored order names an existing product,
    the admin listing has exactly one entry per stored order, newest first
    by creation time, each with the id and the stored total of its
    order. *)
Theorem getAllOrders_lists_every_order w :
  (forall k o item, orders w !! k = Some o -> In item (Order.items o) ->
     is_Some (products w !! Item.product item)) ->
  exists views,
    getAllOrders w = OrdersJson views
    /\ length views = size (orders w)
    /\ Sorted (fun a b => OrderView.createdAt b <= OrderView.createdAt a) views
    /\ (forall k o, orders w !! k = Some o ->
          exists view, In view views
            /\ OrderView._id view = Order._id o
            /\ OrderView.totalAmount view = Order.totalAmount o
            /\ OrderView.createdAt view = Order.createdAt o).
Proof.
  intros Hres. unfold getAllOrders.
  destruct (transform_orders_resolved w (find_orders_newest_first w))
    as [views [Ht [Hid [Hc Htot]]]].
  { intros o item Hin Hitem.
    destruct (listed_orders_stored w o Hin) as [k Ho]. eauto. }
  exists views. rewrite Ht. split; [reflexivity|]. split; [|split].
  - rewrite <- (length_map OrderView._id), Hid, length_map.
    unfold find_orders_newest_first.
    rewrite merge_sort_Permutation, length_fmap, length_map_to_list.
    reflexivity.
  - assert (Hs : Sorted newer_first (find_orders_newest_first w)).
    { apply Sorted_merge_sort. exact newer_first_total. }
    clear Ht Hid Htot. revert views Hc.
    induction Hs as [|o rest Hs IH Hhd]; intros views Hc.
    + destruct views; [constructor|discriminate].
    + destruct views as [|v vs]; [discriminate|].
      simpl in Hc. injection Hc as Hv Hvs.
      constructor; [apply IH; exact Hvs|].
      destruct Hhd as [|o' rest' Hle].
      * destruct vs; [constructor|discriminate].
      * destruct vs as [|v' vs']; [discriminate|].
        simpl in Hvs. injection Hvs as Hv' _.
        constructor. unfold newer_first in Hle. lia.
  - intros k o Ho.
    pose proof (stored_orders_listed w k o Ho) as Hin.
    clear Ht. revert views Hid Hc Htot.
    induction (find_orders_newest_first w) as [|o' rest IH];
      intros views Hid Hc Htot; [destruct Hin|].
    destruct views as [|v vs]; [discriminate|].
    simpl in Hid, Hc, Htot.
    injection Hid as Hid1 Hid2. injection Hc as Hc1 Hc2.
    injection Htot as Ht1 Ht2.
    destruct Hin as [->|Hin].
    + exists v. split; [left; reflexivity|]. repeat split; assumption.
    + destruct (IH Hin vs Hid2 Hc2 Ht2) as [view [Hv Hrest]].
      exists view. split; [right; exact Hv|exact Hrest].
Qed.

Lemma getAllOrders_lists_every_order_witness :
  exists views,
    getAllOrders Shop.world = OrdersJson views
    /\ length views = size (orders Shop.world)
    /\ Sorted (fun a b => OrderView.createdAt b <= OrderView.createdAt a) views
    /\ (forall k o, orders Shop.world !! k = Some o ->
          exists view, In view views
            /\ OrderView._id view = Order._id o
            /\ OrderView.totalAmount view = Order.totalAmount o
            /\ OrderView.createdAt view = Order.createdAt o).
Proof.
  apply (getAllOrders_lists_every_order Shop.world).
  intros k o item Ho Hitem. unfold Shop.world in Ho. simpl in Ho.
  apply lookup_insert_Some in Ho as [[_ <-]|[_ Ho]];
    [|rewrite lookup_empty in Ho; discriminate].
  destruct Hitem as [<-|[]]. vm_compute. eauto.
Defined.

(** ** getUserOrders and getPaymentIntent *)

Lemma getUserOrders_spec userId w o pop :
  In (o, pop) (getUserOrders userId w)
  <-> (exists k, orders w !! k = Some o)
      /\ Order.user o = Some userId
      /\ pop = populate_items (products w) (Order.items o).
Proof.
  unfold getUserOrders. rewrite in_map_iff. split.
  - intros [o' [Heq Hin]]. injection Heq as -> <-.
    apply filter_In in Hin as [Hin Hu].
    apply bool_decide_eq_true in Hu.
    apply list_elem_of_In, list_elem_of_fmap in Hin as [[k o''] [-> Hin]].
    apply elem_of_map_to_list in Hin. eauto.
  - intros [[k Ho] [Hu ->]]. exists o. split; [reflexivity|].
    apply filter_In. split; [|apply bool_decide_eq_true; exact Hu].
    apply list_elem_of_In, list_elem_of_fmap. exists (k, o).
    split; [reflexivity|]. apply elem_of_map_to_list. exact Ho.
Qed.

(** X11.  getUserOrders lists exactly the stored orders whose user is the
    caller, each with its lines populated from the catalog; an order placed
    through createOrder carries no user, so placing one changes nobody's
    list of orders. *)
Theorem getUserOrders_misses_placed_orders env b w userId :
  orders w !! newObjectId env = None ->
  (forall o pop,
     In (o, pop) (getUserOrders userId w)
     <-> (exists k, orders w !! k = Some o)
         /\ Order.user o = Some userId
         /\ pop = populate_items (products w) (Order.items o))
  /\ forall o,
       In o (map fst (getUserOrders userId (snd (createOrder env b w))))
       <-> In o (map fst (getUserOrders userId w)).
Proof.
  intros Hfresh. split; [intros o pop; apply getUserOrders_spec|].
  intros o. rewrite !in_map_iff. split.
  - intros [[o' pop] [Heq Hin]]. simpl in Heq. subst o'.
    apply getUserOrders_spec in Hin as [[k Ho] [Hu _]].
    exists (o, populate_items (products w) (Order.items o)).
    split; [reflexivity|]. apply getUserOrders_spec.
    split; [|split; [exact Hu|reflexivity]].
    destruct (decide (k = newObjectId env)) as [->|Hne].
    + apply (createOrder_new_order_has_no_user env b w o Hfresh) in Ho.
      congruence.
    + rewrite createOrder_other_orders in Ho by exact Hne. eauto.
  - intros [[o' pop] [Heq Hin]]. simpl in Heq. subst o'.
    apply getUserOrders_spec in Hin as [[k Ho] [Hu _]].
    eexists (o, _). split; [reflexivity|]. apply getUserOrders_spec.
    split; [|split; [exact Hu|reflexivity]].
    exists k. rewrite createOrder_other_orders; [exact Ho|].
    intros ->. congruence.
Qed.

Lemma getUserOrders_misses_placed_orders_witness :
  In Shop.earlier
    (map fst (getUserOrders "665f1c2ab3d4e5f6a7b8c0e1"
                (snd (createOrder Shop.env (Shop.cart Shop.two_shirts "cod")
                        Shop.world))))
  <-> In Shop.earlier (map fst (getUserOrders "665f1c2ab3d4e5f6a7b8c0e1" Shop.world)).
Proof.
  apply (getUserOrders_misses_placed_orders Shop.env
           (Shop.cart Shop.two_shirts "cod") Shop.world "665f1c2ab3d4e5f6a7b8c0e1").
  vm_compute. reflexivity.
Defined.

(** X12.  getPaymentIntent writes nothing and hands a client secret to the
    order's owner only: an id under which no order is stored is answered
    404 when it is a well-formed ObjectId and 500 when it is not
    (Order.findById throws), another user's order 403, an order without a
    user 500, and a 200 means that the caller owns the order and that the
    gateway created an intent under the order's id. *)
Theorem getPaymentIntent_owner_only env orderId caller w :
  let out := getPaymentIntent env orderId caller w in
  snd out = w
  /\ (orders w !! orderId = None ->
      (isValidObjectId orderId = true ->
       fst out = json 404 [("message", JStr "Order not found")])
      /\ (isValidObjectId orderId = false ->
          fst out = json 500 [("message", JStr "Error creating payment intent")]))
  /\ (forall o owner,
        orders w !! orderId = Some o -> Order.user o = Some owner ->
        owner <> caller ->
        fst out = json 403 [("message", JStr "Not authorized to access this order")])
  /\ (forall o,
        orders w !! orderId = Some o -> Order.user o = None ->
        fst out = json 500 [("message", JStr "Error creating payment intent")])
  /\ (Response.status (fst out) = 200%nat ->
      exists o pi amount,
        orders w !! orderId = Some o
        /\ Order.user o = Some caller
        /\ paymentIntents_create env amount (Order._id o) = Normal pi
        /\ fst out
           = json 200 [("clientSecret", JStr (PaymentIntent.client_secret pi))]).
Proof.
  intros out. unfold out. unfold_more. simpl.
  split; [branches; reflexivity|].
  split; [intros ->; split; intros ->; reflexivity|].
  split.
  { intros o owner -> -> Hne. simpl.
    destruct (String.eqb_spec owner caller); [tauto|]. reflexivity. }
  split; [intros o -> ->; reflexivity|].
  destruct (orders w !! orderId) as [o|]; simpl;
    [|destruct (isValidObjectId orderId); discriminate].
  destruct (Order.user o) as [owner|] eqn:Hu; simpl; [|discriminate].
  destruct (String.eqb_spec owner caller) as [->|]; simpl; [|discriminate].
  destruct (String.eqb (Order.paymentStatus o) "completed"); simpl;
    [discriminate|].
  destruct (paymentIntents_create env _ _) as [pi|e] eqn:Hpi; simpl;
    [|discriminate].
  intros _. exists o, pi, (Order.totalAmount o * 100).
  repeat split; assumption.
Qed.

(** An order id that is well formed but unknown, and one that is no
    ObjectId, in the three handlers that look an order up. *)
Example unknown_and_malformed_order_ids :
  let status_of (out : Outcome) := Response.status (fst out) in
  let paid id :=
    updatePaymentStatus Shop.env (PaymentStatusBody.mk id "pi_0" "succeeded")
      Shop.world in
  let shipped id :=
    updateOrderStatus Shop.env id (StatusBody.mk "shipped" None) Shop.world in
  let intent id :=
    getPaymentIntent Shop.env id "665f1c2ab3d4e5f6a7b8c0e1" Shop.world in
  status_of (paid "665f1c2ab3d4e5f6a7b8c0ff") = 404%nat
  /\ status_of (paid "not-an-id") = 500%nat
  /\ status_of (shipped "665f1c2ab3d4e5f6a7b8c0ff") = 404%nat
  /\ status_of (shipped "not-an-id") = 500%nat
  /\ status_of (intent "665f1c2ab3d4e5f6a7b8c0ff") = 404%nat
  /\ status_of (intent "not-an-id") = 500%nat.
Proof. vm_compute. repeat split. Qed.

(** X13.  The vocabulary of the two handlers does not meet: after
    updatePaymentStatus has stored 'paid', getPaymentIntent (which refuses
    only 'completed') still creates a new payment intent for the order's
    owner. *)
Theorem getPaymentIntent_after_payment env b caller w o pi pi2 :
  keyed_by_id (orders w) ->
  orders w !! PaymentStatusBody.orderId b = Some o ->
  Order.user o = Some caller ->
  paymentIntents_retrieve env (PaymentStatusBody.paymentIntentId b) = Normal pi ->
  PaymentIntent.status pi = "succeeded" ->
  paymentIntents_create env (Order.totalAmount o * 100) (Order._id o)
  = Normal pi2 ->
  let w1 := snd (updatePaymentStatus env b w) in
  Order.paymentStatus <$> orders w1 !! PaymentStatusBody.orderId b = Some "paid"
  /\ fst (getPaymentIntent env (PaymentStatusBody.orderId b) caller w1)
     = json 200 [("clientSecret", JStr (PaymentIntent.client_secret pi2))].
Proof.
  intros Hk Ho Hu Hpi Hs Hpi2 w1.
  pose proof (Hk _ _ Ho) as Hid.
  destruct (updatePaymentStatus_succeeded env b w o pi Ho Hpi Hs) as [Hos _].
  fold w1 in Hos.
  assert (Ho1 : orders w1 !! PaymentStatusBody.orderId b = Some (mark_paid o)).
  { rewrite Hos, Hid. apply lookup_insert_eq. }
  split; [rewrite Ho1; reflexivity|].
  unfold_more. simpl. rewrite Ho1. simpl. rewrite Hu. simpl.
  rewrite String.eqb_refl. simpl. rewrite Hpi2. reflexivity.
Qed.

Lemma getPaymentIntent_after_payment_witness :
  let w1 := snd (updatePaymentStatus Shop.env Shop.confirm_payment Shop.world) in
  Order.paymentStatus
    <$> orders w1 !! PaymentStatusBody.orderId Shop.confirm_payment
  = Some "paid"
  /\ fst (getPaymentIntent Shop.env
            (PaymentStatusBody.orderId Shop.confirm_payment) "665f1c2ab3d4e5f6a7b8c0e1" w1)
     = json 200 [("clientSecret", JStr "pi_1_secret")].
Proof.
  apply (getPaymentIntent_after_payment Shop.env Shop.confirm_payment "665f1c2ab3d4e5f6a7b8c0e1"
           Shop.world Shop.earlier
           (PaymentIntent.mk "pi_0" "pi_1_secret" "succeeded")
           (PaymentIntent.mk "pi_1" "pi_1_secret" "requires_payment_method")
           keyed_by_id_shop);
    vm_compute; reflexivity.
Defined.

(** X14.  None of the handlers that write orders ever stores paymentStatus
    'completed': if no stored order has it before createOrder,
    updatePaymentStatus or updateOrderStatus, none has it after, so the
    'already completed' refusal of getPaymentIntent is out of reach of the
    orders these handlers write. *)
Theorem handlers_never_store_completed env w :
  no_completed (orders w) ->
  (forall b, no_completed (orders (snd (createOrder env b w))))
  /\ (forall b, no_completed (orders (snd (updatePaymentStatus env b w))))
  /\ (forall orderId b,
        no_completed (orders (snd (updateOrderStatus env orderId b w))))
  /\ (forall orderId caller,
        fst (getPaymentIntent env orderId caller w)
        <> json 400 [("message", JStr "Payment already completed for this order")]).
Proof.
  intros Hn.
  assert (Hins : forall (os : gmap string Order.t) id o,
             no_completed os -> Order.paymentStatus o <> "completed" ->
             no_completed (<[id := o]> os)).
  { intros os id o Hos Ho k o' Hl.
    apply lookup_insert_Some in Hl as [[_ <-]|[_ Hl]]; [exact Ho|eauto]. }
  assert (Hdel : forall (os : gmap string Order.t) id,
             no_completed os -> no_completed (delete id os)).
  { intros os id Hos k o' Hl. apply lookup_delete_Some in Hl as [_ Hl]. eauto. }
  split; [|split; [|split]].
  - intros b. unfold_handlers.
    branches; simpl;
      repeat first [exact Hn | apply Hdel | apply Hins | discriminate].
  - intros b. unfold_handlers. simpl.
    destruct (orders w !! PaymentStatusBody.orderId b) as [o|] eqn:Ho;
      [|destruct (isValidObjectId _); exact Hn].
    branches; simpl;
      repeat first [exact Hn | apply Hins | discriminate].
  - intros orderId b. unfold_handlers. simpl.
    destruct (orders w !! orderId) as [o|] eqn:Ho;
      [|destruct (isValidObjectId _); exact Hn].
    pose proof (Hn _ _ Ho) as Hp.
    branches; simpl; apply Hins; solve [exact Hn | exact Hp].
  - intros orderId caller. unfold_more. simpl.
    destruct (orders w !! orderId) as [o|] eqn:Ho; simpl;
      [|destruct (isValidObjectId _); discriminate].
    pose proof (Hn _ _ Ho) as Hp.
    destruct (Order.user o) as [owner|]; simpl; [|discriminate].
    destruct (String.eqb owner caller); simpl; [|discriminate].
    destruct (String.eqb_spec (Order.paymentStatus o) "completed"); [tauto|].
    simpl. destruct (paymentIntents_create env _ _); simpl; discriminate.
Qed.

Lemma no_completed_shop : no_completed (orders Shop.world).
Proof.
  intros k o H. unfold Shop.world in H. simpl in H.
  apply lookup_insert_Some in H as [[_ <-]|[_ H]]; [simpl; discriminate|].
  rewrite lookup_empty in H. discriminate.
Defined.

Lemma handlers_never_store_completed_witness :
  no_completed
    (orders (snd (createOrder Shop.env (Shop.cart Shop.two_shirts "cod")
                    Shop.world))).
Proof.
  apply (handlers_never_store_completed Shop.env Shop.world no_completed_shop).
Defined.

(** ** Login *)

Lemma lower_is_space c : is_space (lower c) = is_space c.
Proof. destruct c as [[] [] [] [] [] [] [] []]; reflexivity. Qed.

Lemma lower_is_at c : Ascii.eqb (lower c) "@" = Ascii.eqb c "@".
Proof. destruct c as [[] [] [] [] [] [] [] []]; reflexivity. Qed.

Lemma lower_is_dot c : Ascii.eqb (lower c) "." = Ascii.eqb c ".".
Proof. destruct c as [[] [] [] [] [] [] [] []]; reflexivity. Qed.

Lemma lower_lower c : lower (lower c) = lower c.
Proof. destruct c as [[] [] [] [] [] [] [] []]; reflexivity. Qed.

Lemma lower_plain c : plain (lower c) = plain c.
Proof. unfold plain. rewrite lower_is_space, lower_is_at. reflexivity. Qed.

Lemma toLowerCase_idempotent s : toLowerCase (toLowerCase s) = toLowerCase s.
Proof.
  induction s as [|c rest IH]; [reflexivity|].
  simpl. rewrite lower_lower, IH. reflexivity.
Qed.

Lemma toLowerCase_empty s : String.eqb (toLowerCase s) "" = String.eqb s "".
Proof. destruct s; reflexivity. Qed.

Lemma toLowerCase_all_plain s : all_plain (toLowerCase s) = all_plain s.
Proof.
  unfold all_plain. induction s as [|c rest IH]; [reflexivity|].
  simpl. rewrite lower_plain, IH. reflexivity.
Qed.

Lemma toLowerCase_domain_ok seen s :
  domain_ok seen (toLowerCase s) = domain_ok seen s.
Proof.
  revert seen. induction s as [|c rest IH]; intros seen; [reflexivity|].
  simpl. rewrite lower_plain, lower_is_dot, toLowerCase_empty, IH.
  pose proof (toLowerCase_all_plain rest) as Hp. unfold all_plain in Hp.
  rewrite Hp. reflexivity.
Qed.

Lemma toLowerCase_local_ok seen s :
  local_ok seen (toLowerCase s) = local_ok seen s.
Proof.
  revert seen. induction s as [|c rest IH]; intros seen; [reflexivity|].
  simpl. rewrite lower_is_at, lower_is_space, toLowerCase_domain_ok, IH.
  reflexivity.
Qed.

(** X15.  Login matches the email without regard to case: the format check
    accepts a spelling exactly when it accepts its lower-case form, and the
    lookup is made on the lower-case form, so every spelling of an address
    gets the same answer. *)
Theorem login_email_case_insensitive env email password w :
  emailRegex_test (toLowerCase email) = emailRegex_test email
  /\ login env (Some (LoginBody.mk (Some (toLowerCase email)) password)) w
     = login env (Some (LoginBody.mk (Some email) password)) w.
Proof.
  split; [apply toLowerCase_local_ok|].
  unfold_handlers. simpl.
  rewrite toLowerCase_empty. unfold emailRegex_test.
  rewrite toLowerCase_local_ok, toLowerCase_idempotent. reflexivity.
Qed.

Lemma all_plain_cons c s : all_plain (String c s) = plain c && all_plain s.
Proof. reflexivity. Qed.

Lemma domain_ok_spec seen d :
  domain_ok seen d = true
  <-> exists a b,
        d = a +:+ "." +:+ b
        /\ (seen = true \/ a <> "")
        /\ b <> ""
        /\ all_plain a = true /\ all_plain b = true.
Proof.
  split.
  - revert seen. induction d as [|c rest IH]; intros seen H; [discriminate|].
    simpl in H. apply andb_true_iff in H as [Hc H].
    apply orb_true_iff in H as [H|H].
    + repeat (apply andb_true_iff in H as [H ?]).
      exists "", rest.
      apply Ascii.eqb_eq in H2. subst c.
      split; [reflexivity|]. split; [left; exact H|].
      split; [intros ->; discriminate|]. split; [reflexivity|assumption].
    + destruct (IH true H) as [a [b [-> [_ [Hb [Ha Hb']]]]]].
      exists (String c a), b.
      split; [reflexivity|]. split; [right; discriminate|].
      split; [exact Hb|]. split; [|exact Hb'].
      rewrite all_plain_cons, Hc, Ha. reflexivity.
  - intros [a [b [-> [Hs [Hb [Ha Hb']]]]]].
    revert seen Hs. induction a as [|c a' IH]; intros seen Hs.
    + destruct Hs as [->|Hs]; [|congruence].
      simpl. destruct b as [|cb b']; [congruence|].
      change ("" +:+ String cb b') with (String cb b').
      unfold all_plain in Hb'. rewrite Hb'. reflexivity.
    + rewrite all_plain_cons in Ha. apply andb_true_iff in Ha as [Hc Ha].
      simpl. rewrite Hc. simpl.
      rewrite (IH Ha true (or_introl eq_refl)). apply orb_true_r.
Qed.

Lemma local_ok_spec seen s :
  local_ok seen s = true
  <-> exists l d,
        s = l +:+ "@" +:+ d
        /\ (seen = true \/ l <> "")
        /\ all_plain l = true
        /\ domain_ok false d = true.
Proof.
  split.
  - revert seen. induction s as [|c rest IH]; intros seen H; [discriminate|].
    simpl in H. destruct (Ascii.eqb_spec c "@") as [->|Hne].
    + apply andb_true_iff in H as [Hs Hd].
      exists "", rest. repeat split; [left; exact Hs | exact Hd].
    + apply andb_true_iff in H as [Hc H].
      destruct (IH true H) as [l [d [-> [_ [Hl Hd]]]]].
      exists (String c l), d.
      split; [reflexivity|]. split; [right; discriminate|].
      split; [|exact Hd].
      rewrite all_plain_cons, Hl. unfold plain. rewrite Hc.
      destruct (Ascii.eqb_spec c "@"); [congruence|reflexivity].
  - intros [l [d [-> [Hs [Hl Hd]]]]].
    revert seen Hs. induction l as [|c l' IH]; intros seen Hs.
    + destruct Hs as [->|Hs]; [|congruence]. simpl. exact Hd.
    + rewrite all_plain_cons in Hl. apply andb_true_iff in Hl as [Hc Hl].
      unfold plain in Hc. apply andb_true_iff in Hc as [Hsp Hat].
      simpl. destruct (Ascii.eqb c "@"); [discriminate|].
      rewrite Hsp. simpl. apply (IH Hl true). left. reflexivity.
Qed.

(** X16.  On ASCII strings, where the class [\s] is TAB, LF, VT, FF, CR and
    SPACE, the email format check accepts exactly the strings of the form
    local@left.right whose three parts are non-empty and free of whitespace
    and of '@' (dots are allowed in every part). *)
Theorem emailRegex_test_spec s :
  ascii_only s = true ->
  emailRegex_test s = true
  <-> exists l a b,
        s = l +:+ "@" +:+ a +:+ "." +:+ b
        /\ l <> "" /\ a <> "" /\ b <> ""
        /\ all_plain l = true /\ all_plain a = true /\ all_plain b = true.
Proof.
  intros _. unfold emailRegex_test. rewrite local_ok_spec. split.
  - intros [l [d [-> [Hs [Hl Hd]]]]].
    apply domain_ok_spec in Hd as [a [b [-> [Ha [Hb [Hpa Hpb]]]]]].
    exists l, a, b. split; [reflexivity|].
    split; [destruct Hs; [discriminate|assumption]|].
    split; [destruct Ha; [discriminate|assumption]|].
    repeat split; assumption.
  - intros [l [a [b [-> [Hl [Ha [Hb [Hpl [Hpa Hpb]]]]]]]]].
    exists l, (a +:+ "." +:+ b). split; [reflexivity|].
    split; [right; exact Hl|]. split; [exact Hpl|].
    apply domain_ok_spec. exists a, b. repeat split; try assumption.
    right. exact Ha.
Qed.

Lemma emailRegex_test_spec_witness :
  emailRegex_test "ann.lee@shop.example.com" = true
  <-> exists l a b,
        "ann.lee@shop.example.com" = l +:+ "@" +:+ a +:+ "." +:+ b
        /\ l <> "" /\ a <> "" /\ b <> ""
        /\ all_plain l = true /\ all_plain a = true /\ all_plain b = true.
Proof.
  apply (emailRegex_test_spec "ann.lee@shop.example.com").
  vm_compute. reflexivity.
Defined.

(** X17.  Login writes nothing.  A 200 is answered only when the stored
    user found under the lower-case email has a hash that bcrypt matches
    with the password; the token of the body and of the cookie is then the
    one signed for that user's id and role.  Every other answer sets no
    cookie, and outside development a 500 carries nothing but 'Server
    error'. *)
Theorem login_issues_token_only_on_match env body w :
  let out := login env body w in
  snd out = w
  /\ (Response.status (fst out) = 200%nat ->
      exists b email password user,
        body = Some b
        /\ LoginBody.email b = Some email
        /\ LoginBody.password b = Some password
        /\ emailRegex_test email = true
        /\ findOne_by_email w (toLowerCase email) = Some user
        /\ bcrypt_compare env password (User.password user) = Normal true
        /\ Response.cookies (fst out)
           = [("token", jwt_sign env (User._id user) (User.role user))]
        /\ field "token" (Response.body (fst out))
           = Some (JStr (jwt_sign env (User._id user) (User.role user))))
  /\ (Response.status (fst out) <> 200%nat -> Response.cookies (fst out) = [])
  /\ (development env = false ->
      Response.status (fst out) = 500%nat ->
      fst out = json 500 [("message", JStr "Server error")]).
Proof.
  intros out. unfold out. split; [|split; [|split]].
  - unfold_handlers. branches; reflexivity.
  - unfold_handlers. destruct body as [b|]; simpl; [|discriminate].
    destruct (LoginBody.email b) as [email|] eqn:He; simpl; [|discriminate].
    destruct (String.eqb email ""); simpl; [discriminate|].
    destruct (LoginBody.password b) as [password|] eqn:Hpw; simpl;
      [|discriminate].
    destruct (String.eqb password ""); simpl; [discriminate|].
    destruct (emailRegex_test email) eqn:Hr; simpl; [|discriminate].
    destruct (findOne_by_email w (toLowerCase email)) as [user|] eqn:Hf;
      simpl; [|discriminate].
    destruct (bcrypt_compare env password (User.password user))
      as [[]|e] eqn:Hc; simpl; try discriminate.
    intros _. exists b, email, password, user.
    repeat split; solve [assumption | reflexivity].
  - unfold_handlers. branches; simpl; try reflexivity; congruence.
  - intros Hd. unfold_handlers. rewrite Hd.
    branches; simpl; try discriminate; reflexivity.
Qed.

(** ** Registration *)

Lemma In_map_to_list_values {A : Type} (m : gmap string A) (x : A) :
  In x ((map_to_list m).*2) <-> exists k, m !! k = Some x.
Proof.
  rewrite <- list_elem_of_In, list_elem_of_fmap. split.
  - intros [[k y] [-> H]]. exists k. apply elem_of_map_to_list. exact H.
  - intros [k H]. exists (k, x). split; [reflexivity|].
    apply elem_of_map_to_list. exact H.
Qed.

Lemma findOne_by_email_stored w e u :
  findOne_by_email w e = Some u ->
  (exists k, users w !! k = Some u) /\ User.email u = e.
Proof.
  unfold findOne_by_email. intros H. apply find_some in H as [Hin He].
  split; [apply In_map_to_list_values; exact Hin|].
  apply String.eqb_eq. exact He.
Qed.

Lemma findOne_by_email_insert w id u e :
  users w !! id = None ->
  findOne_by_email w e = None ->
  User.email u = e ->
  findOne_by_email
    (mkWorld (products w) (orders w) (<[id := u]> (users w)) (outbox w)) e
  = Some u.
Proof.
  intros Hfresh Hnone He. unfold findOne_by_email in *. simpl.
  destruct (find _ ((map_to_list (<[id:=u]> (users w))).*2)) as [x|] eqn:Hf.
  - apply find_some in Hf as [Hin Hx].
    apply In_map_to_list_values in Hin as [k Hk].
    apply lookup_insert_Some in Hk as [[_ <-]|[_ Hk]]; [reflexivity|].
    assert (Hold : In x ((map_to_list (users w)).*2))
      by (apply In_map_to_list_values; eauto).
    pose proof (find_none _ _ Hnone x Hold) as Hx'. simpl in Hx'. congruence.
  - assert (Hin : In u ((map_to_list (<[id:=u]> (users w))).*2))
      by (apply In_map_to_list_values; exists id; apply lookup_insert_eq).
    pose proof (find_none _ _ Hf u Hin) as Hu. simpl in Hu.
    rewrite He, String.eqb_refl in Hu. discriminate.
Qed.

Lemma all_plain_no_space s : all_plain s = true -> no_space s = true.
Proof.
  unfold all_plain, no_space. induction s as [|c rest IH]; [reflexivity|].
  simpl. intros H. apply andb_true_iff in H as [Hc H].
  unfold plain in Hc. apply andb_true_iff in Hc as [Hc _].
  rewrite Hc, (IH H). reflexivity.
Qed.

Lemma domain_ok_no_space seen s : domain_ok seen s = true -> no_space s = true.
Proof.
  revert seen. induction s as [|c rest IH]; intros seen H; [reflexivity|].
  simpl in H. apply andb_true_iff in H as [Hc H].
  unfold plain in Hc. apply andb_true_iff in Hc as [Hc _].
  unfold no_space. simpl. rewrite Hc. simpl.
  apply orb_true_iff in H as [H|H].
  - apply andb_true_iff in H as [_ H]. apply (all_plain_no_space rest H).
  - apply (IH true H).
Qed.

Lemma local_ok_no_space seen s : local_ok seen s = true -> no_space s = true.
Proof.
  revert seen. induction s as [|c rest IH]; intros seen H; [reflexivity|].
  simpl in H. unfold no_space. simpl.
  destruct (Ascii.eqb_spec c "@") as [->|_].
  - apply andb_true_iff in H as [_ H]. simpl.
    apply (domain_ok_no_space false rest H).
  - apply andb_true_iff in H as [Hc H]. rewrite Hc. simpl.
    apply (IH true H).
Qed.

Lemma trim_end_no_space s : no_space s = true -> trim_end s = s.
Proof.
  unfold no_space. induction s as [|c rest IH]; [reflexivity|].
  simpl. intros H. apply andb_true_iff in H as [Hc H].
  rewrite (IH H). destruct rest; [|reflexivity].
  apply negb_true_iff in Hc. rewrite Hc. reflexivity.
Qed.

Lemma trim_no_space s : no_space s = true -> trim s = s.
Proof.
  intros H. unfold trim.
  assert (Hs : trim_start s = s).
  { destruct s as [|c rest]; [reflexivity|]. unfold no_space in H. simpl in H.
    apply andb_true_iff in H as [Hc _]. apply negb_true_iff in Hc.
    simpl. rewrite Hc. reflexivity. }
  rewrite Hs. apply trim_end_no_space. exact H.
Qed.

Lemma stored_email email :
  emailRegex_test email = true ->
  trim (toLowerCase (toLowerCase email)) = toLowerCase email.
Proof.
  intros H. rewrite toLowerCase_idempotent. apply trim_no_space.
  apply (local_ok_no_space false). rewrite toLowerCase_local_ok. exact H.
Qed.

(** What a 201 of the registration route means. *)
Lemma register_created aenv body w :
  Response.status (fst (register aenv body w)) = 201%nat ->
  exists name email password hash,
    body = Some (RegisterBody.mk (Some name) (Some email) (Some password))
    /\ emailRegex_test email = true
    /\ findOne_by_email w (toLowerCase email) = None
    /\ bcrypt_hash aenv password = Normal hash
    /\ (6 <= String.length password)%nat
    /\ users w !! newUserId aenv = None
    /\ snd (register aenv body w)
       = mkWorld (products w) (orders w)
           (<[newUserId aenv := registered_user aenv name email hash]> (users w))
           (outbox w)
    /\ fst (register aenv body w)
       = Response.mk 201
           [("_id", JStr (newUserId aenv));
            ("name", JStr (trim name));
            ("email", JStr (toLowerCase email));
            ("role", JStr "user");
            ("token",
             JStr (jwt_sign_payload aenv
                     (JwtPayload.mk (Some (newUserId aenv)) None)))]
           [("token",
             jwt_sign_payload aenv (JwtPayload.mk (Some (newUserId aenv)) None))].
Proof.
  unfold register. destruct body as [[name email password]|]; simpl;
    [|discriminate].
  destruct name as [name|]; simpl; [|discriminate].
  destruct (String.eqb name ""); simpl; [discriminate|].
  destruct email as [email|]; simpl; [|discriminate].
  destruct (String.eqb email ""); simpl; [discriminate|].
  destruct password as [password|]; simpl; [|discriminate].
  destruct (String.eqb password "") eqn:Hpe; simpl; [discriminate|].
  destruct (emailRegex_test email) eqn:Hr; simpl; [|discriminate].
  destruct (findOne_by_email w (toLowerCase email)) eqn:Hf; simpl;
    [discriminate|].
  unfold User_create. rewrite (stored_email email Hr), Hpe.
  destruct (String.eqb (trim name) ""); simpl; [discriminate|].
  destruct (String.eqb (toLowerCase email) ""); simpl; [discriminate|].
  destruct (Nat.ltb_spec (String.length password) 6); simpl; [discriminate|].
  destruct (bcrypt_hash aenv password) as [hash|e] eqn:Hh; simpl;
    [|discriminate].
  destruct (users w !! newUserId aenv) eqn:Hid; simpl; [discriminate|].
  rewrite Hf. simpl. intros _.
  exists name, email, password, hash.
  repeat split; solve [assumption | reflexivity].
Qed.


(** X19.  A user who registered can log in with the same password under
    any spelling of the address, provided bcrypt matches the password with
    the hash it produced: the login is answered 200 with a token signed for
    the new user's id and the role 'user'. *)
Theorem register_then_login aenv env body w email password hash spelling :
  Response.status (fst (register aenv body w)) = 201%nat ->
  RegisterBody.email <$> body = Some (Some email) ->
  RegisterBody.password <$> body = Some (Some password) ->
  bcrypt_hash aenv password = Normal hash ->
  bcrypt_compare env password hash = Normal true ->
  toLowerCase spelling = toLowerCase email ->
  let w' := snd (register aenv body w) in
  Response.status (fst (login env (credentials spelling password) w')) = 200%nat
  /\ field "token" (Response.body (fst (login env (credentials spelling password) w')))
     = Some (JStr (jwt_sign env (newUserId aenv) "user")).
Proof.
  intros H201 He Hp Hh Hc Hs w'.
  destruct (register_created aenv body w H201)
    as [name [email0 [password0 [hash0 [Hb [Hr [Hf [Hh0 [Hl [Hid [Hw _]]]]]]]]]]].
  subst body. simpl in He, Hp. injection He as ->. injection Hp as ->.
  rewrite Hh in Hh0. injection Hh0 as <-.
  unfold w'. rewrite Hw.
  assert (Hfound :
            findOne_by_email
              (mkWorld (products w) (orders w)
                 (<[newUserId aenv := registered_user aenv name email hash]>
                    (users w)) (outbox w))
              (toLowerCase spelling)
            = Some (registered_user aenv name email hash)).
  { rewrite Hs. apply findOne_by_email_insert; [exact Hid|exact Hf|reflexivity]. }
  assert (Hrs : emailRegex_test spelling = true).
  { unfold emailRegex_test in *.
    rewrite <- toLowerCase_local_ok, Hs, toLowerCase_local_ok. exact Hr. }
  assert (Hne : String.eqb spelling "" = false).
  { destruct spelling; [|reflexivity].
    unfold emailRegex_test in Hrs. simpl in Hrs. discriminate. }
  assert (Hpne : String.eqb password "" = false).
  { destruct password; [simpl in Hl; lia|reflexivity]. }
  unfold_handlers. simpl. rewrite Hne, Hpne. simpl. rewrite Hrs. simpl.
  rewrite Hfound. simpl. rewrite Hc. simpl. split; reflexivity.
Qed.

Lemma register_then_login_witness :
  let w' := snd (register Desk.aenv (Some Desk.bob) Desk.world) in
  Response.status
    (fst (login Shop.env (credentials "BOB@example.COM" "opensesame") w'))
  = 200%nat
  /\ field "token"
       (Response.body
          (fst (login Shop.env (credentials "BOB@example.COM" "opensesame") w')))
     = Some (JStr (jwt_sign Shop.env (newUserId Desk.aenv) "user")).
Proof.
  apply (register_then_login Desk.aenv Shop.env (Some Desk.bob) Desk.world
           "Bob@Example.com" "opensesame" "hash:opensesame" "BOB@example.COM");
    vm_compute; reflexivity.
Defined.

(** X20.  Once an address is registered, a second registration under any
    spelling of it is answered 400 EMAIL_EXISTS and stores nothing,
    whatever name and password it carries. *)
Theorem register_twice aenv aenv2 body w email name2 spelling password2 :
  Response.status (fst (register aenv body w)) = 201%nat ->
  RegisterBody.email <$> body = Some (Some email) ->
  toLowerCase spelling = toLowerCase email ->
  name2 <> "" -> password2 <> "" ->
  let w' := snd (register aenv body w) in
  register aenv2
    (Some (RegisterBody.mk (Some name2) (Some spelling) (Some password2))) w'
  = (json 400 [("error", JStr "A user with this email already exists");
               ("code", JStr "EMAIL_EXISTS")], w').
Proof.
  intros H201 He Hs Hn2 Hp2 w'.
  destruct (register_created aenv body w H201)
    as [name [email0 [password0 [hash [Hb [Hr [Hf [Hh [Hl [Hid [Hw _]]]]]]]]]]].
  subst body. simpl in He. injection He as ->.
  assert (Hfound : findOne_by_email w' (toLowerCase spelling)
                   = Some (registered_user aenv name email hash)).
  { unfold w'. rewrite Hw, Hs.
    apply findOne_by_email_insert; [exact Hid|exact Hf|reflexivity]. }
  assert (Hrs : emailRegex_test spelling = true).
  { unfold emailRegex_test in *.
    rewrite <- toLowerCase_local_ok, Hs, toLowerCase_local_ok. exact Hr. }
  assert (Hne : String.eqb spelling "" = false).
  { destruct spelling; [|reflexivity].
    unfold emailRegex_test in Hrs. simpl in Hrs. discriminate. }
  unfold register at 1. simpl.
  destruct (String.eqb_spec name2 ""); [tauto|].
  destruct (String.eqb_spec password2 ""); [tauto|].
  rewrite Hne. simpl. rewrite Hrs. simpl. rewrite Hfound. reflexivity.
Qed.

Lemma register_twice_witness :
  let w' := snd (register Desk.aenv (Some Desk.bob) Desk.world) in
  register Desk.aenv
    (Some (RegisterBody.mk (Some "Robert") (Some "bob@EXAMPLE.com")
             (Some "another1"))) w'
  = (json 400 [("error", JStr "A user with this email already exists");
               ("code", JStr "EMAIL_EXISTS")], w').
Proof.
  apply (register_twice Desk.aenv Desk.aenv (Some Desk.bob) Desk.world
           "Bob@Example.com" "Robert" "bob@EXAMPLE.com" "another1");
    try discriminate; vm_compute; reflexivity.
Defined.

(** ** The auth middleware *)

Lemma replace_first_absent pat repl s :
  contains pat s = false -> replace_first pat repl s = s.
Proof.
  induction s as [|c rest IH]; simpl; intros H;
    apply orb_false_iff in H as [Hp H]; rewrite Hp; [reflexivity|].
  rewrite (IH H). reflexivity.
Qed.

Lemma replace_first_Bearer token :
  replace_first "Bearer " "" ("Bearer " +:+ token) = token.
Proof. destruct token; reflexivity. Qed.

(** The token behind the cookie of a login answer. *)
Lemma login_cookie_inv env body w token :
  Response.cookies (fst (login env body w)) = [("token", token)] ->
  exists user k,
    users w !! k = Some user
    /\ token = jwt_sign env (User._id user) (User.role user).
Proof.
  unfold_handlers. destruct body as [b|]; simpl; [|discriminate].
  destruct (negb (truthy_str (LoginBody.email b))
            || negb (truthy_str (LoginBody.password b))); simpl;
    [discriminate|].
  destruct (emailRegex_test _); simpl; [|discriminate].
  destruct (findOne_by_email w _) as [user|] eqn:Hf; simpl; [|discriminate].
  destruct (bcrypt_compare env _ _) as [[]|e]; simpl;
    [|discriminate|destruct (development env); discriminate].
  intros H. injection H as <-.
  destruct (findOne_by_email_stored w _ user Hf) as [[k Hk] _].
  exists user, k. split; [exact Hk|reflexivity].
Qed.

(** X21.  The gate in front of the admin order routes: the handler runs
    only for a header whose token verifies to the id of a stored user with
    role 'admin', and it is handed that user without the password hash; the
    role is read from the stored user, not from the token.  Every refusal
    is a 401, except the 403 for a verified user who is not an admin. *)
Theorem admin_route_gate {A : Type} aenv authorization w (handler : User.t -> A) :
  match admin_route aenv authorization w handler with
  | inr x =>
      exists header payload uid user,
        authorization = Some header
        /\ jwt_verify aenv (replace_first "Bearer " "" header) = Normal payload
        /\ JwtPayload.userId payload = Some uid
        /\ users w !! uid = Some user
        /\ User.role user = "admin"
        /\ x = handler (without_password user)
        /\ User.password (without_password user) = ""
  | inl res =>
      Response.status res = 401%nat
      \/ (Response.status res = 403%nat
          /\ exists header payload uid user,
               authorization = Some header
               /\ jwt_verify aenv (replace_first "Bearer " "" header)
                  = Normal payload
               /\ JwtPayload.userId payload = Some uid
               /\ users w !! uid = Some user
               /\ User.role user <> "admin")
  end.
Proof.
  unfold admin_route, protect, admin.
  destruct authorization as [header|]; simpl; [|left; reflexivity].
  destruct (String.eqb (replace_first "Bearer " "" header) ""); simpl;
    [left; reflexivity|].
  destruct (jwt_verify aenv _) as [payload|e] eqn:Hv; [|left; reflexivity].
  destruct (JwtPayload.userId payload) as [uid|] eqn:Hu; [|left; reflexivity].
  unfold findById.
  destruct (users w !! uid) as [user|] eqn:Hs;
    [|destruct (isValidObjectId uid); left; reflexivity].
  simpl. destruct (String.eqb_spec (User.role user) "admin") as [Hr|Hr]; simpl.
  - exists header, payload, uid, user. repeat split; assumption.
  - right. split; [reflexivity|].
    exists header, payload, uid, user. repeat split; assumption.
Qed.

(** X22.  The 'Bearer ' scheme is optional for protect: a bare token that
    does not itself contain 'Bearer ' is treated exactly like the same
    token behind the scheme; a missing header and a header that is the
    scheme alone are both answered 401 'No token'. *)
Theorem protect_bearer_optional aenv token w :
  contains "Bearer " token = false ->
  protect aenv (Some token) w = protect aenv (Some ("Bearer " +:+ token)) w
  /\ protect aenv (Some "Bearer ") w = protect aenv None w
  /\ protect aenv None w
     = Answered (json 401 [("message", JStr "No token, authorization denied")]).
Proof.
  intros H. unfold protect. cbn [fmap option_fmap option_map].
  rewrite replace_first_Bearer, (replace_first_absent _ _ _ H). repeat split.
Qed.

Lemma protect_bearer_optional_witness :
  protect Desk.aenv (Some "jwt:665f1c2ab3d4e5f6a7b8c0e2") Desk.world
  = protect Desk.aenv (Some ("Bearer " +:+ "jwt:665f1c2ab3d4e5f6a7b8c0e2")) Desk.world
  /\ protect Desk.aenv (Some "Bearer ") Desk.world = protect Desk.aenv None Desk.world
  /\ protect Desk.aenv None Desk.world
     = Answered (json 401 [("message", JStr "No token, authorization denied")]).
Proof.
  apply (protect_bearer_optional Desk.aenv "jwt:665f1c2ab3d4e5f6a7b8c0e2" Desk.world).
  vm_compute. reflexivity.
Defined.

(** X23.  The token a login sets as cookie opens the protected routes for
    the user who logged in, given a verifier that reads back what the
    signer signed: sent as 'Bearer <token>', it makes protect call next
    with that user (without the password hash), and the admin gate lets
    the request through exactly when the stored role is 'admin'. *)
Theorem login_token_passes_protect env aenv body w token :
  users_keyed_by_id (users w) ->
  (forall uid role,
     exists payload,
       jwt_verify aenv (jwt_sign env uid role) = Normal payload
       /\ JwtPayload.userId payload = Some uid) ->
  (forall uid role, jwt_sign env uid role <> "") ->
  Response.cookies (fst (login env body w)) = [("token", token)] ->
  exists user,
    users w !! User._id user = Some user
    /\ protect aenv (Some ("Bearer " +:+ token)) w = Next (without_password user)
    /\ forall (handler : User.t -> Response.t),
         admin_route aenv (Some ("Bearer " +:+ token)) w handler
         = if String.eqb (User.role user) "admin"
           then inr (handler (without_password user))
           else inl (json 403 [("message", JStr "Admin access required")]).
Proof.
  intros Hk Hverify Hne Hc.
  destruct (login_cookie_inv env body w token Hc) as [user [k [Hu ->]]].
  pose proof (Hk _ _ Hu) as Hid. subst k.
  exists user. split; [exact Hu|].
  assert (Hp : protect aenv
                 (Some ("Bearer " +:+ jwt_sign env (User._id user) (User.role user)))
                 w
               = Next (without_password user)).
  { unfold protect. cbn [fmap option_fmap option_map].
    rewrite replace_first_Bearer.
    destruct (Hverify (User._id user) (User.role user)) as [payload [Hv Hp]].
    unfold truthy_str.
    destruct (String.eqb_spec (jwt_sign env (User._id user) (User.role user)) "")
      as [He|_]; [destruct (Hne _ _ He)|].
    simpl. rewrite Hv, Hp, (findById_stored _ _ _ _ Hu). reflexivity. }
  split; [exact Hp|].
  intros handler. unfold admin_route. rewrite Hp. simpl.
  destruct (String.eqb (User.role user) "admin"); reflexivity.
Qed.

Lemma users_keyed_by_id_desk : users_keyed_by_id (users Desk.world).
Proof.
  intros k u H. unfold Desk.world, Shop.world in H. simpl in H.
  apply lookup_insert_Some in H as [[<- <-]|[_ H]]; [reflexivity|].
  apply lookup_insert_Some in H as [[<- <-]|[_ H]]; [reflexivity|].
  rewrite lookup_empty in H. discriminate.
Defined.

Lemma desk_verify_sign uid role :
  exists payload,
    jwt_verify Desk.aenv (jwt_sign Desk.env uid role) = Normal payload
    /\ JwtPayload.userId payload = Some uid.
Proof.
  exists (JwtPayload.mk (Some uid) None). split; [|reflexivity].
  destruct uid; reflexivity.
Defined.

Lemma login_token_passes_protect_witness :
  exists user,
    users Desk.world !! User._id user = Some user
    /\ protect Desk.aenv (Some ("Bearer " +:+ "jwt:665f1c2ab3d4e5f6a7b8c0e2")) Desk.world
       = Next (without_password user)
    /\ forall (handler : User.t -> Response.t),
         admin_route Desk.aenv (Some ("Bearer " +:+ "jwt:665f1c2ab3d4e5f6a7b8c0e2")) Desk.world handler
         = if String.eqb (User.role user) "admin"
           then inr (handler (without_password user))
           else inl (json 403 [("message", JStr "Admin access required")]).
Proof.
  apply (login_token_passes_protect Desk.env Desk.aenv
           (credentials "root@example.com" "sesame") Desk.world "jwt:665f1c2ab3d4e5f6a7b8c0e2"
           users_keyed_by_id_desk desk_verify_sign).
  - intros uid role. discriminate.
  - vm_compute. reflexivity.
Defined.

(** ** The dashboard *)

#[local] Instance lower_stock_first_total : Total lower_stock_first.
Proof. intros a b. unfold lower_stock_first. lia. Qed.

#[local] Instance lower_stock_first_trans : Transitive lower_stock_first.
Proof. intros a b c. unfold lower_stock_first. lia. Qed.

(** X24.  The low-stock list holds at most five products, each stored with
    a stock below ten, in ascending order of stock; a stored product with a
    stock below ten that is left out means the list is full and that no
    listed product has more stock than it. *)
Theorem low_stock_products_lowest_five w :
  let l := low_stock_products w in
  (length l <= 5)%nat
  /\ (forall k p, In (k, p) l ->
        products w !! k = Some p /\ Product.stock p < 10)
  /\ StronglySorted lower_stock_first l
  /\ (forall k p, products w !! k = Some p -> Product.stock p < 10 ->
        ~ In (k, p) l ->
        length l = 5%nat
        /\ forall k' p', In (k', p') l -> Product.stock p' <= Product.stock p).
Proof.
  intros l. unfold l, low_stock_products.
  set (low := List.filter (fun kv : string * Product.t => Product.stock kv.2 <? 10)
                (map_to_list (products w))).
  set (sorted := merge_sort lower_stock_first low).
  assert (Hsorted : StronglySorted lower_stock_first
                      (take 5 sorted ++ drop 5 sorted)).
  { rewrite take_drop. apply StronglySorted_merge_sort; exact _. }
  assert (Hlow : forall kv, kv ∈ sorted <->
                   products w !! kv.1 = Some kv.2 /\ Product.stock kv.2 < 10).
  { intros [k p]. unfold sorted. rewrite merge_sort_Permutation.
    unfold low. rewrite list_elem_of_In, filter_In, <- list_elem_of_In.
    rewrite elem_of_map_to_list. simpl. rewrite Z.ltb_lt. reflexivity. }
  split; [rewrite length_take; lia|]. split; [|split].
  - intros k p Hin. apply (Hlow (k, p)).
    apply list_elem_of_In in Hin. apply elem_of_take in Hin as [i [Hi _]].
    eapply list_elem_of_lookup_2. exact Hi.
  - eapply StronglySorted_app_1_l. exact Hsorted.
  - intros k p Hp Hs Hout.
    assert (Hin : (k, p) ∈ sorted) by (apply Hlow; split; assumption).
    rewrite <- (take_drop 5 sorted) in Hin.
    apply elem_of_app in Hin as [Hin|Hin];
      [exfalso; apply Hout; apply list_elem_of_In; exact Hin|].
    split.
    + apply length_take_le.
      destruct (le_lt_dec 5 (length sorted)) as [Hle|Hlt]; [exact Hle|].
      rewrite drop_ge in Hin by lia. inversion Hin.
    + intros k' p' Hin'. apply list_elem_of_In in Hin'.
      apply (StronglySorted_app_1_elem_of lower_stock_first _ _ (k', p') (k, p)
               Hsorted Hin' Hin).
Qed.

Example low_stock_of_the_shop :
  map fst (low_stock_products Shop.world) = ["665f1c2ab3d4e5f6a7b8c0b2"; "665f1c2ab3d4e5f6a7b8c0a1"].
Proof. vm_compute. reflexivity. Qed.

#[local] Instance newer_first_trans : Transitive newer_first.
Proof. intros a b c. unfold newer_first. lia. Qed.

(** X25.  The recent-orders list holds at most five stored orders, newest
    first, each with the id, the name and the email of its user in place of
    the reference (and nothing else of the user document); a stored order
    that is left out means the list is full and that no listed order is
    older than it. *)
Theorem recent_orders_newest_five w :
  let l := recent_orders w in
  (length l <= 5)%nat
  /\ (forall o u, In (o, u) l ->
        (exists k, orders w !! k = Some o)
        /\ u = match Order.user o with
               | Some uid =>
                   match users w !! uid with
                   | Some user =>
                       Some (PopulatedUser.mk (User._id user) (User.name user)
                               (User.email user))
                   | None => None
                   end
               | None => None
               end)
  /\ StronglySorted newer_first (map fst l)
  /\ (forall k o, orders w !! k = Some o -> ~ In o (map fst l) ->
        length l = 5%nat
        /\ forall o', In o' (map fst l) ->
             Order.createdAt o <= Order.createdAt o').
Proof.
  intros l. unfold l, recent_orders.
  set (sorted := find_orders_newest_first w).
  assert (Hfst : map fst (map (fun o => (o, populate_user w o)) (take 5 sorted))
                 = take 5 sorted).
  { rewrite map_map. simpl. apply map_id. }
  assert (Hsorted : StronglySorted newer_first (take 5 sorted ++ drop 5 sorted)).
  { rewrite take_drop. apply StronglySorted_merge_sort; exact _. }
  rewrite Hfst, length_map.
  split; [rewrite length_take; lia|]. split; [|split].
  - intros o u Hin. apply in_map_iff in Hin as [o' [Heq Hin]].
    injection Heq as -> <-.
    split; [|unfold populate_user; destruct (Order.user _) as [uid|];
             [destruct (users w !! uid)|]; reflexivity].
    apply listed_orders_stored.
    apply list_elem_of_In in Hin. apply elem_of_take in Hin as [i [Hi _]].
    apply list_elem_of_In. eapply list_elem_of_lookup_2. exact Hi.
  - eapply StronglySorted_app_1_l. exact Hsorted.
  - intros k o Ho Hout.
    pose proof (stored_orders_listed w k o Ho) as Hin.
    apply list_elem_of_In in Hin. fold sorted in Hin.
    rewrite <- (take_drop 5 sorted) in Hin.
    apply elem_of_app in Hin as [Hin|Hin];
      [exfalso; apply Hout; apply list_elem_of_In; exact Hin|].
    split.
    + apply length_take_le.
      destruct (le_lt_dec 5 (length sorted)) as [Hle|Hlt]; [exact Hle|].
      rewrite drop_ge in Hin by lia. inversion Hin.
    + intros o' Hin'. apply list_elem_of_In in Hin'.
      apply (StronglySorted_app_1_elem_of newer_first _ _ o' o
               Hsorted Hin' Hin).
Qed.

Example recent_orders_of_the_shop :
  recent_orders Shop.world
  = [(Shop.earlier,
      Some (PopulatedUser.mk "665f1c2ab3d4e5f6a7b8c0e1" "Ann" "ann@example.com"))].
Proof. vm_compute. reflexivity. Qed.



